(** * Quizify (LLMMCQ): a shallow embedding of [main.py]

    The program is a Streamlit script: every user interaction re-executes the
    script from top to bottom against the persistent [st.session_state], and
    [st.button] returns [True] in that run for the one button that was clicked.
    The embedding follows that execution model:

    - Python values coming out of [json.loads] are the inductive [pyval];
    - a [pandas.DataFrame] built from a list of records is [DataFrame];
    - [st.session_state] is the record [Session];
    - a function of the script is a computation in the monad [M]: it reads and
      writes the session, appends the elements it draws to the page, and ends
      normally, with a Python exception, or with [st.rerun()].

    Python [str] is modelled by [string]; a character stands for the code
    point of the same number (the code points below 256).

    Left out: the configuration of the API key (lines 9-12), the text of the
    prompt (the reply of the model is an input of the run), the layout of the
    page in columns, and what [print] writes to the console. *)

From Stdlib Require Import ZArith Ascii String List Lia.
From stdpp Require Import base gmap list strings.

Local Open Scope string_scope.
Local Open Scope Z_scope.

(** ** Python strings *)

Module PyStr.

Definition code (c : ascii) : N := N_of_ascii c.

(** [str.isspace] on one character. *)
Definition isspace (c : ascii) : bool :=
  let n := code c in
  ((9 <=? n) && (n <=? 13) || (28 <=? n) && (n <=? 32)
   || (n =? 133) || (n =? 160))%N.

Fixpoint lstrip (s : string) : string :=
  match s with
  | String c s' => if isspace c then lstrip s' else s
  | EmptyString => EmptyString
  end.

Definition is_empty (s : string) : bool :=
  match s with EmptyString => true | String _ _ => false end.

Fixpoint rstrip (s : string) : string :=
  match s with
  | String c s' =>
      let r := rstrip s' in
      if is_empty r && isspace c then EmptyString else String c r
  | EmptyString => EmptyString
  end.

(** [s.strip()] *)
Definition strip (s : string) : string := rstrip (lstrip s).

Fixpoint mem (c : ascii) (chars : string) : bool :=
  match chars with
  | String d chars' => if Ascii.eqb c d then true else mem c chars'
  | EmptyString => false
  end.

Fixpoint lstrip_chars (chars s : string) : string :=
  match s with
  | String c s' => if mem c chars then lstrip_chars chars s' else s
  | EmptyString => EmptyString
  end.

Fixpoint rstrip_chars (chars s : string) : string :=
  match s with
  | String c s' =>
      let r := rstrip_chars chars s' in
      if is_empty r && mem c chars then EmptyString else String c r
  | EmptyString => EmptyString
  end.

(** [s.strip(chars)]: [chars] is a set of characters, not a prefix. *)
Definition strip_chars (chars s : string) : string :=
  rstrip_chars chars (lstrip_chars chars s).

(** [s.startswith(p)] *)
Fixpoint startswith (p s : string) : bool :=
  match p, s with
  | EmptyString, _ => true
  | String a p', String b s' => Ascii.eqb a b && startswith p' s'
  | String _ _, EmptyString => false
  end.

(** The remainder of [s] after the prefix [p]. *)
Fixpoint drop_prefix (p s : string) : option string :=
  match p, s with
  | EmptyString, _ => Some s
  | String a p', String b s' =>
      if Ascii.eqb a b then drop_prefix p' s' else None
  | String _ _, EmptyString => None
  end.

(** Truth value of a string: non-empty. *)
Definition truthy (s : string) : bool := negb (is_empty s).

(** The characters of a string, as one-character strings (iteration). *)
Fixpoint chars (s : string) : list string :=
  match s with
  | String c s' => String c EmptyString :: chars s'
  | EmptyString => []
  end.

End PyStr.

(** ** Python values and exceptions *)

(** The values [json.loads] builds.  A float keeps its literal; [nan] is the
    value pandas fills a missing cell with. *)
#[warnings="-register-all"]
Inductive pyval : Type :=
| PNone
| PBool (b : bool)
| PInt (z : Z)
| PFloat (literal : string)
| PStr (s : string)
| PList (items : list pyval)
| PDict (pairs : list (string * pyval)).

Definition nan : pyval := PFloat "nan".

Inductive exn : Type :=
| JSONDecodeError
| KeyError (key : string)
| IndexError
| TypeError
| AttributeError
| ValueError
| DuplicateWidgetID
| ConnectionError
| OutsideModel.

(** The result of a call that may raise. *)
Inductive result (A : Type) : Type :=
| Ok (a : A)
| Raise (e : exn).
Arguments Ok {A} a.
Arguments Raise {A} e.

(** [d[k] = v] on a dict kept in insertion order. *)
Fixpoint dict_set (k : string) (v : pyval) (d : list (string * pyval))
  : list (string * pyval) :=
  match d with
  | [] => [(k, v)]
  | (k', v') :: d' =>
      if String.eqb k k' then (k, v) :: d' else (k', v') :: dict_set k v d'
  end.

Fixpoint dict_get (k : string) (d : list (string * pyval)) : option pyval :=
  match d with
  | [] => None
  | (k', v) :: d' => if String.eqb k k' then Some v else dict_get k d'
  end.

(** [s == v] for a string [s]: a string equals only the same string. *)
Definition str_eq (s : string) (v : pyval) : bool :=
  match v with
  | PStr t => String.eqb s t
  | _ => false
  end.

(** ** [json.loads]

    The decoder of the Python standard library, on the JSON grammar: the
    whitespace is space, tab, newline and carriage return; a string is closed
    by a double quote, holds no control character and has the escapes the
    decoder knows; a number is an integer or a float literal; [NaN],
    [Infinity] and [-Infinity] are accepted; anything left after the value is
    an error.  The double quote is the character ["034"].  A [\u] escape of
    a code point above 255 has no counterpart in [string] and is reported as
    [OutsideModel]. *)

Module Json.

Local Open Scope char_scope.

Definition is_ws (c : ascii) : bool :=
  match c with
  | " " | "009" | "010" | "013" => true
  | _ => false
  end.

Fixpoint skip_ws (s : list ascii) : list ascii :=
  match s with
  | c :: s' => if is_ws c then skip_ws s' else s
  | [] => []
  end.

Definition is_digit (c : ascii) : bool :=
  let n := N_of_ascii c in ((48 <=? n) && (n <=? 57))%N.

Definition digit_val (c : ascii) : Z := Z.of_N (N_of_ascii c) - 48.

Definition hex_val (c : ascii) : option N :=
  let n := N_of_ascii c in
  if ((48 <=? n) && (n <=? 57))%N then Some (n - 48)%N
  else if ((65 <=? n) && (n <=? 70))%N then Some (n - 55)%N
  else if ((97 <=? n) && (n <=? 102))%N then Some (n - 87)%N
  else None.

(** The digits at the head of [s], and the rest. *)
Fixpoint span_digits (s : list ascii) : list ascii * list ascii :=
  match s with
  | c :: s' =>
      if is_digit c
      then let '(ds, r) := span_digits s' in (c :: ds, r)
      else ([], s)
  | [] => ([], [])
  end.

Definition digits_val (ds : list ascii) : Z :=
  fold_left (fun acc c => 10 * acc + digit_val c)%Z ds 0%Z.

(** The integer part of [NUMBER_RE]: [0] or a digit string with no leading
    zero. *)
Definition int_part (s : list ascii) : option (list ascii * list ascii) :=
  match s with
  | "0" :: r => Some (["0"], r)
  | c :: _ =>
      if is_digit c then Some (span_digits s) else None
  | [] => None
  end.

(** The optional fraction [\.[0-9]+]. *)
Definition frac_part (s : list ascii) : list ascii * list ascii :=
  match s with
  | "." :: r =>
      match span_digits r with
      | ([], _) => ([], s)
      | (ds, r') => ("." :: ds, r')
      end
  | _ => ([], s)
  end.

(** The optional exponent [[eE][-+]?[0-9]+]. *)
Definition exp_part (s : list ascii) : list ascii * list ascii :=
  match s with
  | e :: r =>
      if Ascii.eqb e "e" || Ascii.eqb e "E" then
        let '(sign, r1) :=
          match r with
          | "+" :: r1 => (["+"], r1)
          | "-" :: r1 => (["-"], r1)
          | _ => ([], r)
          end in
        match span_digits r1 with
        | ([], _) => ([], s)
        | (ds, r') => (e :: sign ++ ds, r')
        end
      else ([], s)
  | [] => ([], s)
  end.

Definition number (s : list ascii) : option (pyval * list ascii) :=
  let '(neg, s1) :=
    match s with
    | "-" :: r => (true, r)
    | _ => (false, s)
    end in
  match int_part s1 with
  | None => None
  | Some (ds, r) =>
      let '(fr, r1) := frac_part r in
      let '(ex, r2) := exp_part r1 in
      match fr, ex with
      | [], [] =>
          Some (PInt (if neg then - digits_val ds else digits_val ds), r2)
      | _, _ =>
          Some (PFloat (string_of_list_ascii
                          ((if neg then ["-"] else []) ++ ds ++ fr ++ ex)), r2)
      end
  end.

Definition literal (word : string) (v : pyval) (s : list ascii)
  : option (pyval * list ascii) :=
  match PyStr.drop_prefix word (string_of_list_ascii s) with
  | Some r => Some (v, list_ascii_of_string r)
  | None => None
  end.

(** What follows a backslash. *)
Definition escape (s : list ascii) : result (ascii * list ascii) :=
  match s with
  | "034" :: r => Ok ("034", r)
  | "\" :: r => Ok ("\", r)
  | "/" :: r => Ok ("/", r)
  | "b" :: r => Ok ("008", r)
  | "f" :: r => Ok ("012", r)
  | "n" :: r => Ok ("010", r)
  | "r" :: r => Ok ("013", r)
  | "t" :: r => Ok ("009", r)
  | "u" :: a :: b :: c :: d :: r =>
      match hex_val a, hex_val b, hex_val c, hex_val d with
      | Some x, Some y, Some z, Some w =>
          let n := (((x * 16 + y) * 16 + z) * 16 + w)%N in
          if (n <? 256)%N then Ok (ascii_of_N n, r) else Raise OutsideModel
      | _, _, _, _ => Raise JSONDecodeError
      end
  | _ => Raise JSONDecodeError
  end.

(** The body of a string, after its opening quote. *)
Fixpoint scanstring (fuel : nat) (s : list ascii) (acc : list ascii)
  : result (string * list ascii) :=
  match fuel with
  | O => Raise OutsideModel
  | S fuel' =>
      match s with
      | [] => Raise JSONDecodeError
      | "034" :: r => Ok (string_of_list_ascii (rev acc), r)
      | "\" :: r =>
          match escape r with
          | Ok (c, r') => scanstring fuel' r' (c :: acc)
          | Raise e => Raise e
          end
      | c :: r =>
          if (N_of_ascii c <? 32)%N then Raise JSONDecodeError
          else scanstring fuel' r (c :: acc)
      end
  end.

Definition first_some {A} (x y : option A) : option A :=
  match x with Some _ => x | None => y end.

Fixpoint scan_once (fuel : nat) (s : list ascii) : result (pyval * list ascii) :=
  match fuel with
  | O => Raise OutsideModel
  | S fuel' =>
      match s with
      | "034" :: r =>
          match scanstring fuel' r [] with
          | Ok (str, r') => Ok (PStr str, r')
          | Raise e => Raise e
          end
      | "{" :: r =>
          match skip_ws r with
          | "}" :: r' => Ok (PDict [], r')
          | r' => parse_object fuel' r' []
          end
      | "[" :: r =>
          match skip_ws r with
          | "]" :: r' => Ok (PList [], r')
          | r' => parse_array fuel' r' []
          end
      | _ =>
          match
            first_some (literal "null" PNone s)
           (first_some (literal "true" (PBool true) s)
           (first_some (literal "false" (PBool false) s)
           (first_some (number s)
           (first_some (literal "NaN" (PFloat "NaN") s)
           (first_some (literal "Infinity" (PFloat "Infinity") s)
                       (literal "-Infinity" (PFloat "-Infinity") s))))))
          with
          | Some (v, r) => Ok (v, r)
          | None => Raise JSONDecodeError
          end
      end
  end

(** The items of an array; [acc] holds the items read so far, last first. *)
with parse_array (fuel : nat) (s : list ascii) (acc : list pyval)
  : result (pyval * list ascii) :=
  match fuel with
  | O => Raise OutsideModel
  | S fuel' =>
      match scan_once fuel' s with
      | Raise e => Raise e
      | Ok (v, r) =>
          match skip_ws r with
          | "]" :: r' => Ok (PList (rev (v :: acc)), r')
          | "," :: r' => parse_array fuel' (skip_ws r') (v :: acc)
          | _ => Raise JSONDecodeError
          end
      end
  end

(** The members of an object; a repeated key keeps its place and takes the
    later value. *)
with parse_object (fuel : nat) (s : list ascii) (acc : list (string * pyval))
  : result (pyval * list ascii) :=
  match fuel with
  | O => Raise OutsideModel
  | S fuel' =>
      match s with
      | "034" :: r =>
          match scanstring fuel' r [] with
          | Raise e => Raise e
          | Ok (key, r1) =>
              match skip_ws r1 with
              | ":" :: r2 =>
                  match scan_once fuel' (skip_ws r2) with
                  | Raise e => Raise e
                  | Ok (v, r3) =>
                      let acc' := dict_set key v acc in
                      match skip_ws r3 with
                      | "}" :: r4 => Ok (PDict acc', r4)
                      | "," :: r4 => parse_object fuel' (skip_ws r4) acc'
                      | _ => Raise JSONDecodeError
                      end
                  end
              | _ => Raise JSONDecodeError
              end
          end
      | _ => Raise JSONDecodeError
      end
  end.

(** [json.loads(text)] *)
Definition loads (text : string) : result pyval :=
  let s := list_ascii_of_string text in
  match scan_once (S (length s)) (skip_ws s) with
  | Raise e => Raise e
  | Ok (v, r) =>
      match skip_ws r with
      | [] => Ok v
      | _ :: _ => Raise JSONDecodeError
      end
  end.

End Json.

(** ** [re.search(r"```(\w+)?\n(.*?)```", text, re.DOTALL)] *)

Module Re.

(** [\w] on one character. *)
Definition is_word (c : ascii) : bool :=
  let n := N_of_ascii c in
  ((48 <=? n) && (n <=? 57) || (65 <=? n) && (n <=? 90) || (n =? 95)
   || (97 <=? n) && (n <=? 122)
   || (n =? 170) || (n =? 178) || (n =? 179) || (n =? 181) || (n =? 185)
   || (n =? 186) || (188 <=? n) && (n <=? 190)
   || (192 <=? n) && (n <=? 214) || (216 <=? n) && (n <=? 246)
   || (248 <=? n) && (n <=? 255))%N.

Definition fence : string := "```".

Fixpoint span_word (s : string) : string * string :=
  match s with
  | String c s' =>
      if is_word c
      then let '(w, r) := span_word s' in (String c w, r)
      else (EmptyString, s)
  | EmptyString => (EmptyString, EmptyString)
  end.

(** The text before the first fence of [s], when there is one. *)
Fixpoint before_fence (s : string) : option string :=
  if PyStr.startswith fence s then Some EmptyString
  else match s with
       | String c s' =>
           match before_fence s' with
           | Some b => Some (String c b)
           | None => None
           end
       | EmptyString => None
       end.

(** A match that starts at the head of [s]: the groups 1 and 2.  After the
    opening fence the word characters are taken greedily and a newline must
    follow (a shorter run is followed by a word character, so backtracking
    finds nothing else); the body runs to the first closing fence. *)
Definition match_here (s : string) : option (option string * string) :=
  match PyStr.drop_prefix fence s with
  | None => None
  | Some r =>
      let '(w, r1) := span_word r in
      match r1 with
      | String "010"%char r2 =>
          match before_fence r2 with
          | Some body =>
              Some (if PyStr.is_empty w then None else Some w, body)
          | None => None
          end
      | _ => None
      end
  end.

Record code_match : Type :=
  { prefix : string; group1 : option string; group2 : string }.

(** The leftmost match; [prefix] is [text[:code_match.start()]]. *)
Fixpoint search_str (s : string) : option code_match :=
  match match_here s with
  | Some (g1, g2) =>
      Some {| prefix := EmptyString; group1 := g1; group2 := g2 |}
  | None =>
      match s with
      | String c s' =>
          match search_str s' with
          | Some m =>
              Some {| prefix := String c (prefix m);
                      group1 := group1 m; group2 := group2 m |}
          | None => None
          end
      | EmptyString => None
      end
  end.

(** [re.search] on a cell: anything but a string is a [TypeError]. *)
Definition search (text : pyval) : result (string * option code_match) :=
  match text with
  | PStr s => Ok (s, search_str s)
  | _ => Raise TypeError
  end.

End Re.

(** ** [pandas.DataFrame] *)

(** A frame built from a list of records: the column labels, and the records
    in row order.  The row labels are [0 .. len - 1]. *)
Record DataFrame : Type :=
  { columns : list string;
    records : list (list (string * pyval)) }.

(** A row of a frame, [mcq_df.iloc[i]]: the frame's column labels and the
    record's own cells. *)
Record Series : Type :=
  { labels : list string;
    cells : list (string * pyval) }.

Module Pandas.

(** [len(df)] *)
Definition len (df : DataFrame) : Z := Z.of_nat (length (records df)).

(** [df.empty]: no row or no column. *)
Definition empty (df : DataFrame) : bool :=
  match columns df, records df with
  | [], _ => true
  | _, [] => true
  | _ :: _, _ :: _ => false
  end.

Definition row_of (df : DataFrame) (r : list (string * pyval)) : Series :=
  {| labels := columns df; cells := r |}.

(** [df.iloc[i]]: positional, a negative position counts from the end. *)
Definition iloc (df : DataFrame) (i : Z) : result Series :=
  let n := len df in
  if (0 <=? i) && (i <? n) then
    match nth_error (records df) (Z.to_nat i) with
    | Some r => Ok (row_of df r)
    | None => Raise IndexError
    end
  else if (- n <=? i) && (i <? 0) then
    match nth_error (records df) (Z.to_nat (n + i)) with
    | Some r => Ok (row_of df r)
    | None => Raise IndexError
    end
  else Raise IndexError.

Definition has_label (key : string) (cols : list string) : bool :=
  existsb (String.eqb key) cols.

(** The cell of a row under a label of the frame; [nan] where the record
    did not have the key. *)
Definition cell (key : string) (row : Series) : pyval :=
  match dict_get key (cells row) with
  | Some v => v
  | None => nan
  end.

(** [row[key]] *)
Definition getitem (row : Series) (key : string) : result pyval :=
  if has_label key (labels row) then Ok (cell key row)
  else Raise (KeyError key).

(** [row.get(key, default)] *)
Definition get (row : Series) (key : string) (default : pyval) : pyval :=
  if has_label key (labels row) then cell key row else default.

(** The pairs [(i, row)] of [df.iterrows()], from label [start]. *)
Fixpoint rows_from (df : DataFrame) (start : Z)
    (rs : list (list (string * pyval))) : list (Z * Series) :=
  match rs with
  | [] => []
  | r :: rs' => (start, row_of df r) :: rows_from df (start + 1) rs'
  end.

(** [df.iterrows()] *)
Definition iterrows (df : DataFrame) : list (Z * Series) :=
  rows_from df 0 (records df).

(** The column labels of a list of records: the keys in the order in which
    they first appear. *)
Definition add_keys (cols : list string) (r : list (string * pyval))
  : list string :=
  fold_left (fun cs kv => if has_label (fst kv) cs then cs else (cs ++ [fst kv])%list)
            r cols.

Definition keys_union (rs : list (list (string * pyval))) : list string :=
  fold_left add_keys rs [].

Fixpoint as_records (items : list pyval)
  : option (list (list (string * pyval))) :=
  match items with
  | [] => Some []
  | PDict d :: items' =>
      match as_records items' with
      | Some rs => Some (d :: rs)
      | None => None
      end
  | _ :: _ => None
  end.

(** [pd.DataFrame(data)] for the shapes modelled here: a list of objects
    (one row per object), [None] (an empty frame) and a bare scalar (a
    [ValueError]).  The other shapes are reported as [OutsideModel]. *)
Definition DataFrame_of (data : pyval) : result DataFrame :=
  match data with
  | PNone => Ok {| columns := []; records := [] |}
  | PList items =>
      match as_records items with
      | Some rs => Ok {| columns := keys_union rs; records := rs |}
      | None => Raise OutsideModel
      end
  | PDict _ => Raise OutsideModel
  | PBool _ | PInt _ | PFloat _ | PStr _ => Raise ValueError
  end.

End Pandas.

(** ** The session, the page and the script monad *)

(** [st.session_state] *)
Record Session : Type :=
  { mcq_df : option DataFrame;
    current_index : Z;
    saved_answers : gmap Z string;
    selected_level : option string }.

(** The session a browser tab starts with (lines 15-22). *)
Definition initial_session : Session :=
  {| mcq_df := None; current_index := 0; saved_answers := ∅;
     selected_level := None |}.

(** The buttons of the page.  A button is identified by its [key] when it has
    one and by its label otherwise: [BtnLevel d] is [key="btn_<d.lower()>"],
    [BtnOption i o] is [key="option_<i>_<o>"], [BtnReset i] is
    [key="reset_<i>"], [BtnSave i] is [key="save_<i>"]; the others have no key. *)
Inductive widget : Type :=
| BtnLevel (diff : string)
| BtnGenerate
| BtnOption (index : Z) (option : string)
| BtnReset (index : Z)
| BtnSave (index : Z)
| BtnPrev
| BtnNext
| BtnSubmit.

Global Instance widget_eq_dec : EqDecision widget.
Proof. solve_decision. Defined.

(** What a run draws on the page, in order. *)
Inductive ui : Type :=
| Title
| TextInput
| Heading (text : string)
| Subheader (number : Z) (text : string)
| Code (snippet language : string)
| Button (w : widget)
| Note (msg : string)
| Warning (msg : string)
| Error (msg : string)
| Success (correct_count total : Z)
| IncorrectHeading
| MissedQuestion (number : Z) (question : pyval)
| YourAnswer (given : string)
| CorrectAnswer (correct : pyval)
| Separator.

(** How a computation ends: normally, with an exception, or with
    [st.rerun()], which stops the run and starts the script again. *)
Inductive outcome (A : Type) : Type :=
| Done (a : A)
| Raised (e : exn)
| Rerun.
Arguments Done {A} a.
Arguments Raised {A} e.
Arguments Rerun {A}.

Definition M (A : Type) : Type :=
  Session -> list ui -> outcome A * Session * list ui.

Definition ret {A} (a : A) : M A := fun s page => (Done a, s, page).

Definition bind {A B} (m : M A) (k : A -> M B) : M B :=
  fun s page =>
    match m s page with
    | (Done a, s', page') => k a s' page'
    | (Raised e, s', page') => (Raised e, s', page')
    | (Rerun, s', page') => (Rerun, s', page')
    end.

Global Instance M_ret : MRet M := @ret.
Global Instance M_bind : MBind M := fun A B k m => bind m k.

Definition get_session : M Session := fun s page => (Done s, s, page).
Definition put_session (s' : Session) : M unit := fun _ page => (Done tt, s', page).
Definition draw (u : ui) : M unit := fun s page => (Done tt, s, (page ++ [u])%list).
Definition raise {A} (e : exn) : M A := fun s page => (Raised e, s, page).
Definition rerun {A} : M A := fun s page => (Rerun, s, page).

Definition lift {A} (r : result A) : M A :=
  match r with
  | Ok a => ret a
  | Raise e => raise e
  end.

Definition when (b : bool) (m : M unit) : M unit := if b then m else ret tt.

(** The session and the page a computation leaves, and how it ended. *)
Definition session_of {A} (r : outcome A * Session * list ui) : Session := snd (fst r).
Definition page_of {A} (r : outcome A * Session * list ui) : list ui := snd r.
Definition outcome_of {A} (r : outcome A * Session * list ui) : outcome A := fst (fst r).

Definition on_page (w : widget) (page : list ui) : bool :=
  existsb (fun u => match u with
                    | Button w' => bool_decide (w = w')
                    | _ => false
                    end) page.

(** [st.button(label, key=...)] in a run in which [click] was clicked: a
    second button with the identity of one already on the page is refused;
    otherwise the button is drawn and the call is true for the clicked one. *)
Definition button (click : option widget) (w : widget) : M bool :=
  fun s page =>
    if on_page w page then (Raised DuplicateWidgetID, s, page)
    else (Done (bool_decide (click = Some w)), s, (page ++ [Button w])%list).

(** ** [display_mcq] (lines 72-131) *)

Definition placeholder : string := "Option not available".

Definition no_questions : string :=
  "No questions available. Please generate MCQs first.".

(** Lines 88-97: the question, with its code block when it has one. *)
Definition show_question (index : Z) (question_text : string)
    (code_match : option Re.code_match) : M unit :=
  match code_match with
  | Some m =>
      let explanation_text := PyStr.strip (Re.prefix m) in
      let code_language :=
        match Re.group1 m with
        | Some l => if PyStr.truthy l then l else "python"
        | None => "python"
        end in
      let code_snippet := PyStr.strip (Re.group2 m) in
      when (PyStr.truthy explanation_text)
           (draw (Subheader (index + 1) explanation_text));;
      draw (Code code_snippet code_language)
  | None => draw (Subheader (index + 1) question_text)
  end.

(** [for opt in options]: the items of a list, the characters of a string,
    the keys of a dict; nothing else can be iterated. *)
Definition iterate (options : pyval) : result (list pyval) :=
  match options with
  | PList items => Ok items
  | PStr s => Ok (map PStr (PyStr.chars s))
  | PDict pairs => Ok (map (fun kv => PStr (fst kv)) pairs)
  | _ => Raise TypeError
  end.

(** [opt if opt.strip() else "Option not available"]: only a string has
    [strip]. *)
Definition option_text (opt : pyval) : result string :=
  match opt with
  | PStr s => Ok (if PyStr.truthy (PyStr.strip s) then s else placeholder)
  | _ => Raise AttributeError
  end.

Fixpoint option_texts (opts : list pyval) : result (list string) :=
  match opts with
  | [] => Ok []
  | opt :: opts' =>
      match option_text opt with
      | Raise e => Raise e
      | Ok t =>
          match option_texts opts' with
          | Raise e => Raise e
          | Ok ts => Ok (t :: ts)
          end
      end
  end.

(** Line 101: the list the name [options] is rebound to. *)
Definition valid_options (options : pyval) : result (list string) :=
  match iterate options with
  | Raise e => Raise e
  | Ok opts => option_texts opts
  end.

(** [st.session_state.saved_answers[index] = option] *)
Definition save_answer (index : Z) (option : string) : M unit :=
  s ← get_session;
  put_session {| mcq_df := mcq_df s; current_index := current_index s;
                 saved_answers := <[index := option]> (saved_answers s);
                 selected_level := selected_level s |}.

(** [del st.session_state.saved_answers[index]] *)
Definition delete_answer (index : Z) : M unit :=
  s ← get_session;
  put_session {| mcq_df := mcq_df s; current_index := current_index s;
                 saved_answers := delete index (saved_answers s);
                 selected_level := selected_level s |}.

Definition set_current_index (i : Z) : M unit :=
  s ← get_session;
  put_session {| mcq_df := mcq_df s; current_index := i;
                 saved_answers := saved_answers s;
                 selected_level := selected_level s |}.

(** [index in st.session_state.saved_answers] *)
Definition is_saved (index : Z) (s : Session) : bool :=
  match saved_answers s !! index with
  | Some _ => true
  | None => false
  end.

Section Display.

(** The button clicked in the run, if any. *)
Variable click : option widget.

(** Lines 104-106: one button per entry of the rebound [options]. *)
Fixpoint option_buttons (index : Z) (options : list string) : M unit :=
  match options with
  | [] => ret tt
  | option :: options' =>
      b ← button click (BtnOption index option);
      when b (save_answer index option);;
      option_buttons index options'
  end.

(** Lines 109-116: Reset and Save. *)
Definition reset_and_save (index : Z) : M unit :=
  b ← button click (BtnReset index);
  when b (s ← get_session;
          when (is_saved index s) (delete_answer index));;
  b ← button click (BtnSave index);
  when b (ret tt).

(** Lines 119-131: Previous and Next. *)
Definition navigation (df : DataFrame) : M unit :=
  s ← get_session;
  when (0 <? current_index s)
       (b ← button click BtnPrev;
        when b (s ← get_session;
                set_current_index (current_index s - 1);;
                rerun));;
  s ← get_session;
  when (current_index s <? Pandas.len df - 1)
       (b ← button click BtnNext;
        when b (s ← get_session;
                set_current_index (current_index s + 1);;
                rerun));;
  draw Separator.

Definition display_mcq : M unit :=
  s ← get_session;
  let index := current_index s in
  match mcq_df s with
  | None => draw (Warning no_questions)
  | Some df =>
      if Pandas.empty df then draw (Warning no_questions)
      else
        row ← lift (Pandas.iloc df index);
        question_text ← lift (Pandas.getitem row "question");
        language ← lift (Pandas.getitem row "language");
        let options := Pandas.get row "options" (PList []) in
        found ← lift (Re.search question_text);
        show_question index (fst found) (snd found);;
        options ← lift (valid_options options);
        option_buttons index options;;
        reset_and_save index;;
        navigation df
  end.

End Display.

(** ** [submit_test] (lines 135-161) *)

Definition no_mcqs : string := "No MCQs available. Please generate MCQs first.".

(** Lines 143-145: [sum(1 for i, row in mcq_df.iterrows()
    if i in saved_answers and saved_answers[i] == row["answer"])]. *)
Fixpoint count_correct (rows : list (Z * Series)) (saved_answers : gmap Z string)
  : result Z :=
  match rows with
  | [] => Ok 0
  | (i, row) :: rows' =>
      match saved_answers !! i with
      | None => count_correct rows' saved_answers
      | Some given =>
          match Pandas.getitem row "answer" with
          | Raise e => Raise e
          | Ok answer =>
              match count_correct rows' saved_answers with
              | Raise e => Raise e
              | Ok n => Ok ((if str_eq given answer then 1 else 0) + n)
              end
          end
      end
  end.

(** Lines 156-161: the questions answered wrongly, in row order. *)
Fixpoint show_incorrect (rows : list (Z * Series)) (saved_answers : gmap Z string)
  : M unit :=
  match rows with
  | [] => ret tt
  | (i, row) :: rows' =>
      match saved_answers !! i with
      | None => ret tt
      | Some given =>
          answer ← lift (Pandas.getitem row "answer");
          when (negb (str_eq given answer))
               (question ← lift (Pandas.getitem row "question");
                draw (MissedQuestion (i + 1) question);;
                draw (YourAnswer given);;
                answer' ← lift (Pandas.getitem row "answer");
                draw (CorrectAnswer answer');;
                draw Separator)
      end;;
      show_incorrect rows' saved_answers
  end.

Definition submit_test : M unit :=
  s ← get_session;
  let saved_answers := saved_answers s in
  match mcq_df s with
  | None => draw (Warning no_mcqs)
  | Some df =>
      if Pandas.empty df then draw (Warning no_mcqs)
      else
        correct_count ← lift (count_correct (Pandas.iterrows df) saved_answers);
        put_session {| mcq_df := None; current_index := 0; saved_answers := ∅;
                       selected_level := selected_level s |};;
        draw (Success correct_count (Pandas.len df));;
        draw IncorrectHeading;;
        show_incorrect (Pandas.iterrows df) saved_answers
  end.

(** ** The generator and the script (lines 25-70 and 164-204) *)

Definition generating : string := "Generating MCQs... Please wait.".
Definition generation_failed : string := "Error generating MCQs. Please try again.".
Definition missing_input : string :=
  "Please enter a topic and select a difficulty level.".

Definition difficulty_levels : list string :=
  ["Beginner"; "Intermediate"; "Advanced"].

(** Lines 59-62: the response text with its code fence trimmed.  [strip] with
    an argument removes characters of a set from both ends. *)
Definition trim_fence (text : string) : string :=
  let response_text := PyStr.strip text in
  if PyStr.startswith "```json" response_text
     || PyStr.startswith "```" response_text
  then PyStr.strip (PyStr.strip_chars "```"
                      (PyStr.strip_chars "```json" response_text))
  else response_text.

(** [try: ... except json.JSONDecodeError: ...] *)
Definition except_JSONDecodeError {A} (body handler : result A) : result A :=
  match body with
  | Raise JSONDecodeError => handler
  | _ => body
  end.

Section Script.

(** The two library calls of the generator: [json.loads] and
    [pd.DataFrame]. *)
Variable json_loads : string -> result pyval.
Variable pd_DataFrame : pyval -> result DataFrame.

(** [generate_question_bank(topic, level)].  The prompt is built from the
    topic and the level and sent to the model; [response] is what
    [model.generate_content(prompt).text] gives: the text of the reply, or
    the exception of a failed call.  [None] is the result [None] of the
    [except] branch ([print] writes to the console, not to the page). *)
Definition generate_question_bank (topic level : string)
    (response : result string) : result (option DataFrame) :=
  match response with
  | Raise e => Raise e
  | Ok text =>
      let response_text := trim_fence text in
      except_JSONDecodeError
        (match json_loads response_text with
         | Raise e => Raise e
         | Ok mcq_list =>
             match pd_DataFrame mcq_list with
             | Raise e => Raise e
             | Ok df => Ok (Some df)
             end
         end)
        (Ok None)
  end.

(** The topic typed in the text input, the button clicked in the run and
    the model's response to a generation request made in the run. *)
Variable topic : string.
Variable click : option widget.
Variable response : result string.

(** Lines 177-181: the three difficulty buttons. *)
Fixpoint level_buttons (levels : list string) : M unit :=
  match levels with
  | [] => ret tt
  | diff :: levels' =>
      b ← button click (BtnLevel diff);
      when b (s ← get_session;
              put_session {| mcq_df := mcq_df s;
                             current_index := current_index s;
                             saved_answers := saved_answers s;
                             selected_level := Some diff |});;
      level_buttons levels'
  end.

Definition level_chosen (s : Session) : bool :=
  match selected_level s with
  | Some level => PyStr.truthy level
  | None => false
  end.

(** Lines 185-196: the body of [if st.button("Generate MCQs")]. *)
Definition generate_handler : M unit :=
  s ← get_session;
  if PyStr.truthy topic && level_chosen s then
    draw (Note generating);;
    mcq_df ← lift (generate_question_bank topic
                     (default EmptyString (selected_level s)) response);
    match mcq_df with
    | Some df =>
        if negb (Pandas.empty df) then
          put_session {| mcq_df := Some df; current_index := 0;
                         saved_answers := ∅;
                         selected_level := selected_level s |};;
          rerun
        else draw (Error generation_failed)
    | None => draw (Error generation_failed)
    end
  else draw (Warning missing_input).

(** One execution of the script, from the title to the Submit button. *)
Definition script : M unit :=
  draw Title;;
  draw TextInput;;
  draw (Heading "### Select Difficulty");;
  level_buttons difficulty_levels;;
  b ← button click BtnGenerate;
  when b generate_handler;;
  s ← get_session;
  when (bool_decide (mcq_df s ≠ None)) (display_mcq click);;
  b ← button click BtnSubmit;
  when b submit_test.

End Script.

(** What one interaction does to the session: the script runs on an empty
    page with the clicked button; when it ends with [st.rerun()] it runs
    again, with no button clicked. *)
Definition interaction (json_loads : string -> result pyval)
    (pd_DataFrame : pyval -> result DataFrame)
    (topic : string) (click : option widget) (response : result string)
    (s : Session) : outcome unit * Session * list ui :=
  match script json_loads pd_DataFrame topic click response s [] with
  | (Rerun, s', _) => script json_loads pd_DataFrame topic None response s' []
  | r => r
  end.

(** Double quotes for the apostrophes of a text, to write JSON down. *)
Definition quoted (text : string) : string :=
  string_of_list_ascii
    (map (fun c => if Ascii.eqb c "'"%char then "034"%char else c)
         (list_ascii_of_string text)).


(** ** Views: what the question page draws when nothing is clicked *)

(** The session with one field replaced. *)
Definition with_saved_answers (m : gmap Z string) (s : Session) : Session :=
  {| mcq_df := mcq_df s; current_index := current_index s;
     saved_answers := m; selected_level := selected_level s |}.

Definition with_current_index (i : Z) (s : Session) : Session :=
  {| mcq_df := mcq_df s; current_index := i;
     saved_answers := saved_answers s; selected_level := selected_level s |}.

(** The session [submit_test] leaves (lines 148-150). *)
Definition cleared (s : Session) : Session :=
  {| mcq_df := None; current_index := 0; saved_answers := ∅;
     selected_level := selected_level s |}.

(** The session the Generate handler installs (lines 189-191). *)
Definition installed (df : DataFrame) (s : Session) : Session :=
  {| mcq_df := Some df; current_index := 0; saved_answers := ∅;
     selected_level := selected_level s |}.

(** Drawing buttons one after the other on a page. *)
Fixpoint draw_all (ws : list widget) (page : list ui) : outcome unit * list ui :=
  match ws with
  | [] => (Done tt, page)
  | w :: ws' =>
      if on_page w page then (Raised DuplicateWidgetID, page)
      else draw_all ws' (page ++ [Button w])%list
  end.

Definition question_view (index : Z) (question_text : string)
    (code_match : option Re.code_match) : list ui :=
  match code_match with
  | Some m =>
      let explanation_text := PyStr.strip (Re.prefix m) in
      ((if PyStr.truthy explanation_text
        then [Subheader (index + 1) explanation_text] else [])
       ++ [Code (PyStr.strip (Re.group2 m))
                (match Re.group1 m with
                 | Some l => if PyStr.truthy l then l else "python"
                 | None => "python"
                 end)])%list
  | None => [Subheader (index + 1) question_text]
  end.

(** The navigation buttons offered at position [i] of a bank of [n] rows. *)
Definition nav_widgets (n i : Z) : list widget :=
  ((if 0 <? i then [BtnPrev] else []) ++ (if i <? n - 1 then [BtnNext] else []))%list.

(** Lines 80-86: what [display_mcq] reads from row [index] before it draws
    anything: the question text, the code block found in it, and the cell
    [options]. *)
Definition question_of (df : DataFrame) (index : Z)
  : result (string * option Re.code_match * pyval) :=
  match Pandas.iloc df index with
  | Raise e => Raise e
  | Ok row =>
      match Pandas.getitem row "question" with
      | Raise e => Raise e
      | Ok question_text =>
          match Pandas.getitem row "language" with
          | Raise e => Raise e
          | Ok _ =>
              match Re.search question_text with
              | Raise e => Raise e
              | Ok found =>
                  Ok (fst found, snd found,
                      Pandas.get row "options" (PList []))
              end
          end
      end
  end.

(** The buttons under a question: the options, Reset and Save, Previous and
    Next. *)
Definition quiz_widgets (df : DataFrame) (index : Z) (options : list string)
  : list widget :=
  (map (BtnOption index) options ++ [BtnReset index; BtnSave index]
   ++ nav_widgets (Pandas.len df) index)%list.

(** The page of question [index] of a bank, drawn after [page]. *)
Definition quiz_view (df : DataFrame) (index : Z) (page : list ui)
  : outcome unit * list ui :=
  match question_of df index with
  | Raise e => (Raised e, page)
  | Ok (question_text, code_match, options) =>
      let page1 := (page ++ question_view index question_text code_match)%list in
      match valid_options options with
      | Raise e => (Raised e, page1)
      | Ok options =>
          match draw_all (quiz_widgets df index options) page1 with
          | (Done _, page2) => (Done tt, (page2 ++ [Separator])%list)
          | r => r
          end
      end
  end.

(** The options offered under question [index]: the texts of its buttons. *)
Definition offered (df : DataFrame) (index : Z) : list string :=
  match question_of df index with
  | Ok (_, _, options) =>
      match valid_options options with
      | Ok options => options
      | Raise _ => []
      end
  | Raise _ => []
  end.

(** The blocks under the question, in the order of the code. *)
Definition quiz_buttons (click : option widget) (df : DataFrame)
    (index : Z) (options : list string) : M unit :=
  option_buttons click index options;;
  reset_and_save click index;;
  navigation click df.

(** ** The navigator of the specification

    The transitions of section 4.2, in the specification's words: selecting
    an option sets [savedAnswers[currentIndex]]; Reset clears it; Previous is
    enabled iff [currentIndex > 0] and decrements; Next is enabled iff
    [currentIndex < len(bank) - 1] and increments; a transition that moves
    re-renders the page.  A click on anything that is not on the page of the
    current question changes nothing. *)
Definition navigator (click : option widget) (s : Session)
  : outcome unit * Session :=
  let i := current_index s in
  match mcq_df s, click with
  | Some df, Some (BtnOption index option) =>
      if bool_decide (index = i /\ option ∈ offered df i)
      then (Done tt, with_saved_answers (<[i := option]> (saved_answers s)) s)
      else (Done tt, s)
  | Some df, Some (BtnReset index) =>
      if bool_decide (index = i)
      then (Done tt, with_saved_answers (delete i (saved_answers s)) s)
      else (Done tt, s)
  | Some df, Some BtnPrev =>
      if 0 <? i then (Rerun, with_current_index (i - 1) s) else (Done tt, s)
  | Some df, Some BtnNext =>
      if i <? Pandas.len df - 1
      then (Rerun, with_current_index (i + 1) s) else (Done tt, s)
  | _, _ => (Done tt, s)
  end.

(** ** The scorer of the specification

    Section 4.3 in the specification's words, over the positions of the bank:
    index [i] is counted correct iff [savedAnswers[i]] exists and equals
    [bank[i].correctAnswer]; the score is the count of correct matches; the
    incorrect list has every index where an answer was saved but did not
    match, with the question, the given and the correct answer. *)
Module Scorer.

Definition indices (bank : DataFrame) : list Z :=
  map Z.of_nat (seq 0 (length (records bank))).

(** [bank[i].correctAnswer] and [bank[i].text] *)
Definition correctAnswer (bank : DataFrame) (i : Z) : pyval :=
  match Pandas.iloc bank i with
  | Ok row => Pandas.cell "answer" row
  | Raise _ => nan
  end.

Definition text (bank : DataFrame) (i : Z) : pyval :=
  match Pandas.iloc bank i with
  | Ok row => Pandas.cell "question" row
  | Raise _ => nan
  end.

Definition correct (bank : DataFrame) (savedAnswers : gmap Z string)
    (i : Z) : bool :=
  match savedAnswers !! i with
  | Some given => str_eq given (correctAnswer bank i)
  | None => false
  end.

Definition score (bank : DataFrame) (savedAnswers : gmap Z string) : Z :=
  Z.of_nat (length (List.filter (correct bank savedAnswers) (indices bank))).

Record missed : Type :=
  { index : Z; question : pyval; given : string; correctly : pyval }.

Definition missed_at (bank : DataFrame) (savedAnswers : gmap Z string)
    (i : Z) : list missed :=
  match savedAnswers !! i with
  | Some given =>
      if str_eq given (correctAnswer bank i) then []
      else [{| index := i; question := text bank i; given := given;
               correctly := correctAnswer bank i |}]
  | None => []
  end.

Definition incorrect (bank : DataFrame) (savedAnswers : gmap Z string)
  : list missed :=
  flat_map (missed_at bank savedAnswers) (indices bank).

(** The report of one missed question, as the page shows it. *)
Definition entry (m : missed) : list ui :=
  [MissedQuestion (index m + 1) (question m); YourAnswer (given m);
   CorrectAnswer (correctly m); Separator].

Definition report (bank : DataFrame) (savedAnswers : gmap Z string)
  : list ui :=
  (Success (score bank savedAnswers) (Pandas.len bank) :: IncorrectHeading
   :: flat_map entry (incorrect bank savedAnswers))%list.

End Scorer.

(** The bank has the columns the scorer reads. *)
Definition scorable (df : DataFrame) : Prop :=
  Pandas.has_label "answer" (columns df) = true
  /\ Pandas.has_label "question" (columns df) = true.

(** The sessions a user can reach: from the initial session, by any sequence
    of interactions. *)
Inductive reachable (json_loads : string -> result pyval)
    (pd_DataFrame : pyval -> result DataFrame) : Session -> Prop :=
| reachable_initial : reachable json_loads pd_DataFrame initial_session
| reachable_interaction s topic click response :
    reachable json_loads pd_DataFrame s ->
    reachable json_loads pd_DataFrame
      (session_of (interaction json_loads pd_DataFrame topic click response s)).

(** ** A sample bank

    The bank of the specification's scoring example: ten questions with four
    options each, the first option being the correct one. *)
Definition sample_record (k : nat) : list (string * pyval) :=
  [("question", PStr (String (ascii_of_nat (48 + k)) "?"));
   ("options", PList [PStr "a"; PStr "b"; PStr "c"; PStr "d"]);
   ("answer", PStr "a");
   ("language", PBool false)].

Definition sample_bank : DataFrame :=
  {| columns := ["question"; "options"; "answer"; "language"];
     records := map sample_record (seq 0 10) |}.

(** The first answer right, the second wrong, the others not given. *)
Definition sample_session : Session :=
  {| mcq_df := Some sample_bank; current_index := 0;
     saved_answers := <[0 := "a"]> (<[1 := "wrong"]> ∅);
     selected_level := Some "Beginner" |}.

(** The page before the question: what the script has drawn when it reaches
    [display_mcq]. *)
Definition script_header : list ui :=
  [Title; TextInput; Heading "### Select Difficulty";
   Button (BtnLevel "Beginner"); Button (BtnLevel "Intermediate");
   Button (BtnLevel "Advanced"); Button BtnGenerate].

(** A bank of one question whose second option is a blank string, which is
    also the recorded answer. *)
Definition blank_bank : DataFrame :=
  {| columns := ["question"; "options"; "answer"; "language"];
     records := [[("question", PStr "Which one is blank?");
                  ("options", PList [PStr "yes"; PStr " "]);
                  ("answer", PStr " ");
                  ("language", PBool false)]] |}.

Definition blank_session : Session :=
  {| mcq_df := Some blank_bank; current_index := 0; saved_answers := ∅;
     selected_level := Some "Beginner" |}.

(** A bank of one question whose second option is a number. *)
Definition mixed_bank : DataFrame :=
  {| columns := ["question"; "options"; "answer"; "language"];
     records := [[("question", PStr "How many?");
                  ("options", PList [PStr "one"; PInt 2]);
                  ("answer", PStr "one");
                  ("language", PBool false)]] |}.

Definition mixed_session : Session :=
  {| mcq_df := Some mixed_bank; current_index := 0; saved_answers := ∅;
     selected_level := Some "Beginner" |}.

(** ** A short reply of the model

    A well-formed JSON reply with two questions, the first of which names an
    answer that is none of its options; and the sessions of a user who picks
    a level, generates from that reply and moves to the second question. *)
Definition short_reply : string :=
  quoted "[{'question': 'Capital of France?', 'options': ['Paris', 'Rome'], 'answer': 'Berlin', 'language': false}, {'question': 'Capital of Italy?', 'options': ['Paris', 'Rome'], 'answer': 'Rome', 'language': false}]".

Definition short_bank : DataFrame :=
  {| columns := ["question"; "options"; "answer"; "language"];
     records := [[("question", PStr "Capital of France?");
                  ("options", PList [PStr "Paris"; PStr "Rome"]);
                  ("answer", PStr "Berlin");
                  ("language", PBool false)];
                 [("question", PStr "Capital of Italy?");
                  ("options", PList [PStr "Paris"; PStr "Rome"]);
                  ("answer", PStr "Rome");
                  ("language", PBool false)]] |}.

Definition level_session : Session :=
  session_of (interaction Json.loads Pandas.DataFrame_of "geography"
                (Some (BtnLevel "Beginner")) (Raise ConnectionError)
                initial_session).

Definition short_session : Session :=
  session_of (interaction Json.loads Pandas.DataFrame_of "geography"
                (Some BtnGenerate) (Ok short_reply) level_session).


(** ** Predicates on sessions and clicks *)

(** A click that is not on a button under the current question. *)
Definition idle_click (click : option widget) (index : Z) : Prop :=
  (forall o, click ≠ Some (BtnOption index o))
  /\ click ≠ Some (BtnReset index)
  /\ click ≠ Some BtnPrev /\ click ≠ Some BtnNext.

(** Two sessions with the same bank, position and level: they differ at most
    in the saved answers. *)
Definition same_bank (s s' : Session) : Prop :=
  mcq_df s' = mcq_df s /\ current_index s' = current_index s
  /\ selected_level s' = selected_level s.

(** A loaded bank is not empty and the position is inside it. *)
Definition in_bounds (s : Session) : Prop :=
  forall df, mcq_df s = Some df ->
    Pandas.empty df = false /\ 0 <= current_index s < Pandas.len df.

(** No bank to show: the bank is absent or empty. *)
Definition no_bank (s : Session) : Prop :=
  match mcq_df s with
  | None => True
  | Some df => Pandas.empty df = true
  end.

(** A computation keeps a property of the session, however it ends. *)
Definition preserves {A} (P : Session -> Prop) (m : M A) : Prop :=
  forall s page, P s -> P (session_of (m s page)).

(** A button is drawn between two states of the page. *)
Definition drawn (w : widget) (page page' : list ui) : bool :=
  on_page w page' && negb (on_page w page).

(** A button the user can click: the question page, run after [page] with
    nothing clicked, draws it. *)
Definition clickable (s : Session) (page : list ui) (w : widget) : Prop :=
  drawn w page (page_of (display_mcq None s page)) = true.

(** The buttons that change the saved answers, and what a click on one does
    to the session. *)
Definition answer_button (w : widget) : Prop :=
  match w with
  | BtnOption _ _ | BtnReset _ => True
  | _ => False
  end.

Definition answer_update (w : widget) (s : Session) : Session :=
  match w with
  | BtnOption i o => with_saved_answers (<[i := o]> (saved_answers s)) s
  | BtnReset i => with_saved_answers (delete i (saved_answers s)) s
  | _ => s
  end.

(** The position a button was drawn for. *)
Definition widget_index (w : widget) : option Z :=
  match w with
  | BtnOption i _ | BtnReset i | BtnSave i => Some i
  | _ => None
  end.

(** ** Banks with a field missing or of another type *)

(** No language column. *)
Definition no_language_bank : DataFrame :=
  {| columns := ["question"; "options"; "answer"];
     records := [[("question", PStr "Why?");
                  ("options", PList [PStr "a"]);
                  ("answer", PStr "a")]] |}.

(** A number for a question. *)
Definition numeric_question_bank : DataFrame :=
  {| columns := ["question"; "options"; "answer"; "language"];
     records := [[("question", PInt 42);
                  ("options", PList [PStr "a"]);
                  ("answer", PStr "a");
                  ("language", PBool false)]] |}.

(** No options column. *)
Definition no_options_bank : DataFrame :=
  {| columns := ["question"; "answer"; "language"];
     records := [[("question", PStr "Why?");
                  ("answer", PStr "a");
                  ("language", PBool false)]] |}.

(** No answer column. *)
Definition no_answer_bank : DataFrame :=
  {| columns := ["question"; "options"; "language"];
     records := [[("question", PStr "Why?");
                  ("options", PList [PStr "a"; PStr "b"]);
                  ("language", PBool false)]] |}.

(** ** The effect of the level buttons (lines 177-181) *)

(** The session with the level replaced. *)
Definition with_level (d : string) (s : Session) : Session :=
  {| mcq_df := mcq_df s; current_index := current_index s;
     saved_answers := saved_answers s; selected_level := Some d |}.

(** What a click does to the session while the script draws the three level
    buttons. *)
Definition level_click (click : option widget) (s : Session) : Session :=
  match click with
  | Some (BtnLevel d) =>
      if bool_decide (d ∈ difficulty_levels) then with_level d s else s
  | _ => s
  end.

(** ** Saved answers and the options on offer *)

(** Every saved answer belongs to a question of the loaded bank and is one of
    the options offered under it. *)
Definition answers_offered (s : Session) : Prop :=
  forall i o, saved_answers s !! i = Some o ->
    exists df, mcq_df s = Some df /\ 0 <= i < Pandas.len df
               /\ o ∈ offered df i.

(** The session of a user who has picked the first option of the first
    question of the short bank. *)
Definition answered_session : Session :=
  session_of (interaction Json.loads Pandas.DataFrame_of "geography"
                (Some (BtnOption 0 "Paris")) (Raise ConnectionError)
                short_session).

(** ** Replies without options *)

(** A reply whose only question has no options, and the session of a user
    who generates from it. *)
Definition no_options_reply : string :=
  quoted "[{'question': 'Why?', 'answer': 'a', 'language': false}]".

Definition no_options_session : Session :=
  session_of (interaction Json.loads Pandas.DataFrame_of "geography"
                (Some BtnGenerate) (Ok no_options_reply) level_session).

(** A reply whose first question lacks the options the second one has: the
    table has the column, and the first row has no cell in it. *)
Definition ragged_reply : string :=
  quoted "[{'question': 'Why?', 'answer': 'a', 'language': false}, {'question': 'How?', 'options': ['a', 'b'], 'answer': 'a', 'language': false}]".

Definition ragged_bank : DataFrame :=
  {| columns := ["question"; "answer"; "language"; "options"];
     records := [[("question", PStr "Why?");
                  ("answer", PStr "a");
                  ("language", PBool false)];
                 [("question", PStr "How?");
                  ("options", PList [PStr "a"; PStr "b"]);
                  ("answer", PStr "a");
                  ("language", PBool false)]] |}.

Definition ragged_session : Session :=
  session_of (interaction Json.loads Pandas.DataFrame_of "geography"
                (Some BtnGenerate) (Ok ragged_reply) level_session).

(** ** What a computation does to the page and how it ends *)

(** A computation only adds to the page, and never adds [u]. *)
Definition never_draws {A} (u : ui) (m : M A) : Prop :=
  forall s page, exists rest,
    page_of (m s page) = (page ++ rest)%list /\ u ∉ rest.

(** A computation does not end with [st.rerun()]. *)
Definition never_reruns {A} (m : M A) : Prop :=
  forall s page, outcome_of (m s page) ≠ Rerun.

(** ** A question with the same option twice *)

Definition twin_bank : DataFrame :=
  {| columns := ["question"; "options"; "answer"; "language"];
     records := [[("question", PStr "Which one?");
                  ("options", PList [PStr "a"; PStr "b"; PStr "a"]);
                  ("answer", PStr "a");
                  ("language", PBool false)]] |}.

Definition twin_session : Session :=
  {| mcq_df := Some twin_bank; current_index := 0; saved_answers := ∅;
     selected_level := Some "Beginner" |}.

(** ** Counting the report *)


(** * Properties *)

Ltac munfold :=
  unfold mbind, M_bind, bind, mret, M_ret, ret, get_session, put_session,
    draw, raise, rerun, lift, when, save_answer, delete_answer,
    set_current_index in *.

(** ** Buttons *)

Lemma on_page_app w page page' :
  on_page w (page ++ page') = on_page w page || on_page w page'.
Proof. unfold on_page. apply existsb_app. Qed.

Lemma on_page_button w w' :
  on_page w [Button w'] = bool_decide (w = w').
Proof. unfold on_page. simpl. apply orb_false_r. Qed.

Lemma button_missed click w s page :
  click ≠ Some w -> button click w s page = button None w s page.
Proof.
  intros H. unfold button. destruct (on_page w page); [done|].
  rewrite !bool_decide_eq_false_2; [done| discriminate | done].
Qed.

Lemma button_None w s page :
  button None w s page =
    if on_page w page then (Raised DuplicateWidgetID, s, page)
    else (Done false, s, (page ++ [Button w])%list).
Proof. unfold button. destruct (on_page w page); done. Qed.

Lemma button_hit w s page :
  button (Some w) w s page =
    if on_page w page then (Raised DuplicateWidgetID, s, page)
    else (Done true, s, (page ++ [Button w])%list).
Proof.
  unfold button. destruct (on_page w page); [done|].
  by rewrite bool_decide_eq_true_2.
Qed.

(** A page only grows. *)
Lemma draw_all_grows ws : forall page w,
  on_page w page = true -> on_page w (snd (draw_all ws page)) = true.
Proof.
  induction ws as [|w' ws IH]; intros page w H; simpl; [done|].
  destruct (on_page w' page); [done|].
  apply IH. rewrite on_page_app, H. done.
Qed.

(** ** The option buttons (lines 104-106) *)

Lemma option_buttons_None index options : forall s page,
  option_buttons None index options s page =
    (fst (draw_all (map (BtnOption index) options) page), s,
     snd (draw_all (map (BtnOption index) options) page)).
Proof.
  induction options as [|o options IH]; intros s page; simpl; [done|].
  munfold. rewrite button_None.
  destruct (on_page (BtnOption index o) page); [done|].
  apply IH.
Qed.

Lemma option_buttons_idle click index options : forall s page,
  (forall o, click ≠ Some (BtnOption index o)) ->
  option_buttons click index options s page =
    option_buttons None index options s page.
Proof.
  induction options as [|o options IH]; intros s page H; simpl; [done|].
  munfold. rewrite (button_missed click) by apply H. rewrite button_None.
  destruct (on_page (BtnOption index o) page); [done|].
  by apply IH.
Qed.

(** Clicking the button of [option]: the loop draws what it draws when
    nothing is clicked, and stores [option] when it reaches that button. *)
Lemma option_buttons_click index option options : forall s page,
  option_buttons (Some (BtnOption index option)) index options s page =
    let w := BtnOption index option in
    let r := draw_all (map (BtnOption index) options) page in
    (fst r,
     if on_page w (snd r) && negb (on_page w page)
     then with_saved_answers (<[index := option]> (saved_answers s)) s
     else s,
     snd r).
Proof.
  induction options as [|o options IH]; intros s page; simpl.
  - destruct (on_page _ page); done.
  - munfold. destruct (decide (option = o)) as [->|Hne].
    + rewrite button_hit.
      destruct (on_page (BtnOption index o) page) eqn:Hon; simpl.
      { rewrite Hon. done. }
      rewrite IH. simpl.
      rewrite (draw_all_grows _ _ (BtnOption index o)).
      2:{ rewrite on_page_app, on_page_button, bool_decide_eq_true_2 by done.
          apply orb_true_r. }
      rewrite on_page_app, on_page_button, bool_decide_eq_true_2 by done.
      rewrite orb_true_r. simpl.
      done.
    + rewrite button_missed by congruence. rewrite button_None.
      destruct (on_page (BtnOption index o) page) eqn:Hon; simpl.
      { destruct (on_page (BtnOption index option) page); done. }
      rewrite IH. simpl.
      rewrite on_page_app, on_page_button, bool_decide_eq_false_2 by congruence.
      by rewrite orb_false_r.
Qed.

Lemma draw_all_app ws ws' : forall page,
  draw_all (ws ++ ws') page =
    match draw_all ws page with
    | (Done _, page') => draw_all ws' page'
    | r => r
    end.
Proof.
  induction ws as [|w ws IH]; intros page; simpl; [done|].
  destruct (on_page w page); [done|]. apply IH.
Qed.

(** Buttons drawn one after the other are all new and all different. *)
Lemma draw_all_Done ws : forall page page',
  draw_all ws page = (Done tt, page') ->
  page' = (page ++ map Button ws)%list
  /\ NoDup ws /\ (forall w, w ∈ ws -> on_page w page = false).
Proof.
  induction ws as [|w ws IH]; intros page page' H; simpl in *.
  - injection H as <-. rewrite app_nil_r. repeat split; [constructor|].
    intros w Hw. by apply elem_of_nil in Hw.
  - destruct (on_page w page) eqn:Hon; [discriminate|].
    apply IH in H as (-> & Hnd & Hnew). rewrite <- app_assoc. simpl.
    split; [done|]. split.
    + apply NoDup_cons. split; [|done]. intros Hin. apply Hnew in Hin.
      rewrite on_page_app, on_page_button, bool_decide_eq_true_2 in Hin by done.
      by rewrite orb_true_r in Hin.
    + intros w' [->|Hin]%elem_of_cons; [done|]. apply Hnew in Hin.
      rewrite on_page_app in Hin. by apply orb_false_elim in Hin as [? _].
Qed.

Lemma on_page_buttons w ws :
  on_page w (map Button ws) = bool_decide (w ∈ ws).
Proof.
  induction ws as [|w' ws IH]; simpl; [done|].
  change (on_page w (Button w' :: map Button ws))
    with (bool_decide (w = w') || on_page w (map Button ws)).
  rewrite IH, <- bool_decide_or. apply bool_decide_ext.
  rewrite elem_of_cons. done.
Qed.

(** ** Reset and Save (lines 109-116) *)

Lemma with_saved_answers_id s : with_saved_answers (saved_answers s) s = s.
Proof. by destruct s. Qed.

Lemma reset_and_save_eq click index s page :
  reset_and_save click index s page =
    let r := draw_all [BtnReset index; BtnSave index] page in
    (fst r,
     if bool_decide (click = Some (BtnReset index))
        && negb (on_page (BtnReset index) page)
     then with_saved_answers (delete index (saved_answers s)) s
     else s,
     snd r).
Proof.
  unfold reset_and_save. munfold. simpl. unfold button.
  destruct (on_page (BtnReset index) page) eqn:Hon; simpl.
  { by rewrite andb_false_r. }
  rewrite andb_true_r.
  assert (Hs : (if is_saved index s
                then with_saved_answers (delete index (saved_answers s)) s
                else s)
               = with_saved_answers (delete index (saved_answers s)) s).
  { unfold is_saved. destruct (saved_answers s !! index) eqn:E; [done|].
    rewrite delete_id by done. by rewrite with_saved_answers_id. }
  destruct (bool_decide (click = Some (BtnReset index))); simpl.
  - unfold is_saved in *.
    destruct (saved_answers s !! index) eqn:E; simpl.
    + destruct (on_page (BtnSave index) _);
        [done | destruct (bool_decide (click = Some (BtnSave index))); done].
    + rewrite <- Hs.
      destruct (on_page (BtnSave index) _);
        [done | destruct (bool_decide (click = Some (BtnSave index))); done].
  - destruct (on_page (BtnSave index) _);
      [done | destruct (bool_decide (click = Some (BtnSave index))); done].
Qed.

(** ** Previous and Next (lines 119-131) *)

Ltac decide_click :=
  repeat first
    [ rewrite bool_decide_eq_true_2 by congruence
    | rewrite bool_decide_eq_false_2 by congruence ].

Lemma navigation_eq click df s page :
  navigation click df s page =
    let i := current_index s in
    let r := draw_all (nav_widgets (Pandas.len df) i) page in
    if bool_decide (click = Some BtnPrev) && (0 <? i)
       && negb (on_page BtnPrev page)
    then (Rerun, with_current_index (i - 1) s, (page ++ [Button BtnPrev])%list)
    else if bool_decide (click = Some BtnNext) && (i <? Pandas.len df - 1)
            && match fst r with Done _ => true | _ => false end
    then (Rerun, with_current_index (i + 1) s, snd r)
    else (fst r, s,
          match fst r with
          | Done _ => (snd r ++ [Separator])%list
          | _ => snd r
          end).
Proof.
  unfold navigation, nav_widgets. munfold. simpl. unfold button.
  destruct (decide (click = Some BtnPrev)) as [->|Hp];
    [|destruct (decide (click = Some BtnNext)) as [->|Hn]];
    decide_click; simpl;
    destruct (0 <? current_index s) eqn:H0; simpl;
    destruct (on_page BtnPrev page) eqn:Hon; simpl; try done;
    destruct (current_index s <? Pandas.len df - 1) eqn:H1; simpl; try done;
    rewrite ?on_page_app, ?Hon; simpl;
    destruct (on_page BtnNext page) eqn:Hon'; simpl; done.
Qed.

(** ** [display_mcq] on a loaded bank *)

Lemma show_question_eq index question_text code_match s page :
  show_question index question_text code_match s page =
    (Done tt, s, (page ++ question_view index question_text code_match)%list).
Proof.
  unfold show_question, question_view. destruct code_match as [m|]; [|done].
  munfold. destruct (PyStr.truthy (PyStr.strip (Re.prefix m))); simpl.
  - by rewrite <- app_assoc.
  - done.
Qed.

Lemma bind_eq {A B} (m : M A) (k : A -> M B) s page :
  (m ≫= k) s page =
    match m s page with
    | (Done a, s', page') => k a s' page'
    | (Raised e, s', page') => (Raised e, s', page')
    | (Rerun, s', page') => (Rerun, s', page')
    end.
Proof. reflexivity. Qed.

Lemma lift_eq {A} (r : result A) s page :
  lift r s page =
    match r with
    | Ok a => (Done a, s, page)
    | Raise e => (Raised e, s, page)
    end.
Proof. by destruct r. Qed.

Lemma display_mcq_loaded click s page df :
  mcq_df s = Some df -> Pandas.empty df = false ->
  display_mcq click s page =
    match question_of df (current_index s) with
    | Raise e => (Raised e, s, page)
    | Ok (question_text, code_match, options) =>
        let page1 :=
          (page ++ question_view (current_index s) question_text code_match)%list in
        match valid_options options with
        | Raise e => (Raised e, s, page1)
        | Ok options => quiz_buttons click df (current_index s) options s page1
        end
    end.
Proof.
  intros Hdf Hne. unfold display_mcq, question_of, quiz_buttons.
  rewrite bind_eq. unfold get_session at 1. rewrite Hdf, Hne.
  rewrite bind_eq, lift_eq.
  destruct (Pandas.iloc df (current_index s)) as [row|e]; [|done].
  rewrite bind_eq, lift_eq.
  destruct (Pandas.getitem row "question") as [q|e]; [|done].
  rewrite bind_eq, lift_eq.
  destruct (Pandas.getitem row "language") as [l|e]; [|done].
  rewrite bind_eq, lift_eq.
  destruct (Re.search q) as [found|e]; [|done].
  rewrite bind_eq, show_question_eq.
  rewrite bind_eq, lift_eq.
  destruct (valid_options _) as [opts|e]; done.
Qed.

Lemma draw_all_app_Done ws ws' page page2 :
  draw_all (ws ++ ws') page = (Done tt, page2) ->
  exists page1, draw_all ws page = (Done tt, page1)
                /\ draw_all ws' page1 = (Done tt, page2).
Proof.
  rewrite draw_all_app. destruct (draw_all ws page) as [[[]| |] page1];
    intros H; try discriminate.
  by exists page1.
Qed.

Lemma quiz_buttons_None df index options s page :
  index = current_index s ->
  quiz_buttons None df index options s page =
    let r := draw_all (quiz_widgets df index options) page in
    (fst r, s,
     match fst r with
     | Done _ => (snd r ++ [Separator])%list
     | _ => snd r
     end).
Proof.
  intros ->. unfold quiz_buttons, quiz_widgets.
  rewrite draw_all_app, bind_eq, option_buttons_None.
  destruct (draw_all (map _ options) page) as [[[]|e|] pa]; try done.
  cbv beta iota. cbn [fst snd].
  rewrite (draw_all_app [_; _]), bind_eq, reset_and_save_eq. cbv zeta.
  destruct (draw_all [_; _] pa) as [[[]|e|] pb]; try done.
  cbv beta iota. cbn [fst snd]. rewrite navigation_eq. done.
Qed.

Lemma quiz_widgets_Done df index options page page2 :
  draw_all (quiz_widgets df index options) page = (Done tt, page2) ->
  exists pa pb,
    draw_all (map (BtnOption index) options) page = (Done tt, pa)
    /\ draw_all [BtnReset index; BtnSave index] pa = (Done tt, pb)
    /\ draw_all (nav_widgets (Pandas.len df) index) pb = (Done tt, page2).
Proof.
  unfold quiz_widgets. intros (pa & Ha & H)%draw_all_app_Done.
  apply draw_all_app_Done in H as (pb & Hb & Hc). eauto.
Qed.

Lemma quiz_buttons_idle click df index options s page :
  idle_click click index ->
  quiz_buttons click df index options s page =
    quiz_buttons None df index options s page.
Proof.
  intros (Ho & Hr & Hp & Hn). unfold quiz_buttons.
  rewrite !bind_eq, option_buttons_idle by done.
  destruct (option_buttons None _ _ _ _) as [[[[]|e|] s1] pa]; try done.
  rewrite !bind_eq, !reset_and_save_eq. cbv zeta.
  rewrite bool_decide_eq_false_2 by done.
  destruct (draw_all [_; _] pa) as [[[]|e|] pb]; try done.
  cbn [fst snd andb]. rewrite !navigation_eq. cbv zeta. cbn [fst snd andb].
  by rewrite !bool_decide_eq_false_2 by done.
Qed.

Section Clicks.

Variables (df : DataFrame) (options : list string) (s : Session).
Variables (page page2 : list ui).
Let index := current_index s.
Hypothesis Hdraw :
  draw_all (quiz_widgets df index options) page = (Done tt, page2).

Lemma quiz_buttons_shown :
  quiz_buttons None df index options s page =
    (Done tt, s, (page2 ++ [Separator])%list).
Proof. rewrite quiz_buttons_None by done. cbv zeta. by rewrite Hdraw. Qed.

Lemma quiz_buttons_option option :
  option ∈ options ->
  quiz_buttons (Some (BtnOption index option)) df index options s page =
    (Done tt, with_saved_answers (<[index := option]> (saved_answers s)) s,
     (page2 ++ [Separator])%list).
Proof.
  intros Hin. destruct (quiz_widgets_Done _ _ _ _ _ Hdraw) as (pa & pb & Ha & Hb & Hc).
  unfold quiz_buttons. rewrite bind_eq, option_buttons_click. cbv zeta.
  rewrite Ha. cbn [fst snd].
  destruct (draw_all_Done _ _ _ Ha) as (-> & _ & Hnew).
  rewrite Hnew by (apply list_elem_of_fmap; eauto).
  rewrite on_page_app, on_page_buttons, (bool_decide_eq_true_2 (_ ∈ _))
    by (apply list_elem_of_fmap; eauto).
  rewrite orb_true_r. cbn [andb negb].
  rewrite bind_eq, reset_and_save_eq. cbv zeta. rewrite Hb. cbn [fst snd].
  rewrite bool_decide_eq_false_2 by done. cbn [andb].
  rewrite navigation_eq. cbv zeta. cbn [current_index with_saved_answers].
  fold index. rewrite Hc.
  rewrite !bool_decide_eq_false_2 by done. done.
Qed.

Lemma quiz_buttons_not_offered i option :
  ~ (i = index /\ option ∈ options) ->
  quiz_buttons (Some (BtnOption i option)) df index options s page =
    (Done tt, s, (page2 ++ [Separator])%list).
Proof.
  intros Hno. rewrite <- quiz_buttons_shown.
  destruct (quiz_widgets_Done _ _ _ _ _ Hdraw) as (pa & pb & Ha & Hb & Hc).
  destruct (decide (i = index)) as [->|Hi].
  2:{ apply quiz_buttons_idle. repeat split; congruence. }
  unfold quiz_buttons. rewrite !bind_eq, option_buttons_click, option_buttons_None.
  cbv zeta. rewrite Ha. cbn [fst snd].
  destruct (draw_all_Done _ _ _ Ha) as (-> & _ & Hnew).
  assert (on_page (BtnOption index option)
            (page ++ map Button (map (BtnOption index) options))
          && negb (on_page (BtnOption index option) page) = false) as ->.
  { rewrite on_page_app, on_page_buttons.
    destruct (on_page _ page); [by rewrite andb_false_r|].
    rewrite bool_decide_eq_false_2; [done|].
    intros (o & [= ->] & Ho)%list_elem_of_fmap. tauto. }
  rewrite !bind_eq, !reset_and_save_eq. cbv zeta. rewrite Hb. cbn [fst snd].
  rewrite bool_decide_eq_false_2 by done. cbn [andb].
  rewrite !navigation_eq. cbv zeta.
  by rewrite !bool_decide_eq_false_2 by done.
Qed.

Lemma quiz_buttons_reset :
  quiz_buttons (Some (BtnReset index)) df index options s page =
    (Done tt, with_saved_answers (delete index (saved_answers s)) s,
     (page2 ++ [Separator])%list).
Proof.
  destruct (quiz_widgets_Done _ _ _ _ _ Hdraw) as (pa & pb & Ha & Hb & Hc).
  unfold quiz_buttons.
  rewrite bind_eq, option_buttons_idle, option_buttons_None by done.
  rewrite Ha. cbn [fst snd].
  rewrite bind_eq, reset_and_save_eq. cbv zeta. rewrite Hb. cbn [fst snd].
  destruct (draw_all_Done _ _ _ Hb) as (_ & _ & Hnew).
  rewrite Hnew by (apply elem_of_cons; by left).
  rewrite bool_decide_eq_true_2 by done. cbn [andb negb].
  rewrite navigation_eq. cbv zeta. cbn [current_index with_saved_answers].
  fold index. rewrite Hc.
  rewrite !bool_decide_eq_false_2 by done. done.
Qed.

Lemma quiz_buttons_prev :
  exists page',
    quiz_buttons (Some BtnPrev) df index options s page =
      if 0 <? index
      then (Rerun, with_current_index (index - 1) s, page')
      else (Done tt, s, (page2 ++ [Separator])%list).
Proof.
  destruct (quiz_widgets_Done _ _ _ _ _ Hdraw) as (pa & pb & Ha & Hb & Hc).
  exists (pb ++ [Button BtnPrev])%list.
  unfold quiz_buttons.
  rewrite bind_eq, option_buttons_idle, option_buttons_None by done.
  rewrite Ha. cbn [fst snd].
  rewrite bind_eq, reset_and_save_eq. cbv zeta. rewrite Hb. cbn [fst snd].
  rewrite bool_decide_eq_false_2 by done. cbn [andb].
  rewrite navigation_eq. cbv zeta. fold index. rewrite Hc.
  rewrite bool_decide_eq_true_2, bool_decide_eq_false_2 by done.
  cbn [andb fst snd].
  destruct (0 <? index) eqn:H0; [|done].
  destruct (draw_all_Done _ _ _ Hc) as (_ & _ & Hnew).
  rewrite Hnew; [done|]. unfold nav_widgets. rewrite H0.
  apply elem_of_app. left. apply elem_of_cons. by left.
Qed.

Lemma quiz_buttons_next :
  quiz_buttons (Some BtnNext) df index options s page =
    if index <? Pandas.len df - 1
    then (Rerun, with_current_index (index + 1) s, page2)
    else (Done tt, s, (page2 ++ [Separator])%list).
Proof.
  destruct (quiz_widgets_Done _ _ _ _ _ Hdraw) as (pa & pb & Ha & Hb & Hc).
  unfold quiz_buttons.
  rewrite bind_eq, option_buttons_idle, option_buttons_None by done.
  rewrite Ha. cbn [fst snd].
  rewrite bind_eq, reset_and_save_eq. cbv zeta. rewrite Hb. cbn [fst snd].
  rewrite bool_decide_eq_false_2 by done. cbn [andb].
  rewrite navigation_eq. cbv zeta. fold index. rewrite Hc.
  rewrite (bool_decide_eq_false_2 (Some BtnNext = Some BtnPrev)) by done.
  rewrite bool_decide_eq_true_2 by done.
  cbn [andb fst snd].
  destruct (index <? Pandas.len df - 1); done.
Qed.

End Clicks.

(** With nothing clicked, [display_mcq] draws the view of the current
    question and leaves the session alone. *)
Lemma display_mcq_None s page df :
  mcq_df s = Some df -> Pandas.empty df = false ->
  display_mcq None s page =
    (fst (quiz_view df (current_index s) page), s,
     snd (quiz_view df (current_index s) page)).
Proof.
  intros Hdf Hne. rewrite (display_mcq_loaded _ _ _ _ Hdf Hne). unfold quiz_view.
  destruct (question_of df (current_index s)) as [[[q m] options]|e]; [|done].
  cbv zeta. destruct (valid_options options) as [opts|e]; [|done].
  rewrite quiz_buttons_None by done. cbv zeta.
  destruct (draw_all _ _) as [[[]|e|] p2]; done.
Qed.

Lemma quiz_view_Done df index page p :
  quiz_view df index page = (Done tt, p) ->
  exists question_text code_match options page2,
    question_of df index = Ok (question_text, code_match, options)
    /\ valid_options options = Ok (offered df index)
    /\ draw_all (quiz_widgets df index (offered df index))
         (page ++ question_view index question_text code_match) = (Done tt, page2)
    /\ p = (page2 ++ [Separator])%list.
Proof.
  unfold quiz_view, offered.
  destruct (question_of df index) as [[[q m] options]|e]; [|discriminate].
  cbv zeta. destruct (valid_options options) as [opts|e] eqn:Hv; [|discriminate].
  destruct (draw_all _ _) as [[[]|e|] p2] eqn:Hd; try discriminate.
  intros [= <-]. by exists q, m, options, p2.
Qed.

(** [display_mcq] refines the navigator: on a question that is drawn without
    an error, a click ends the run and changes the session as the
    specification's transition says. *)
Lemma display_mcq_navigator click s page df p :
  mcq_df s = Some df -> Pandas.empty df = false ->
  display_mcq None s page = (Done tt, s, p) ->
  (outcome_of (display_mcq click s page), session_of (display_mcq click s page))
  = navigator click s.
Proof.
  intros Hdf Hne Hshown. rewrite (display_mcq_None _ _ _ Hdf Hne) in Hshown.
  assert (Hview : quiz_view df (current_index s) page = (Done tt, p)).
  { destruct (quiz_view _ _ _). simpl in Hshown. congruence. }
  apply quiz_view_Done in Hview as (q & m & options & p2 & Hq & Hv & Hd & ->).
  rewrite (display_mcq_loaded _ _ _ _ Hdf Hne), Hq. cbv zeta. rewrite Hv.
  unfold navigator. rewrite Hdf.
  assert (Hidle : idle_click click (current_index s) ->
                  quiz_buttons click df (current_index s)
                    (offered df (current_index s)) s
                    (page ++ question_view (current_index s) q m)%list
                  = (Done tt, s, (p2 ++ [Separator])%list)).
  { intros Hi. rewrite quiz_buttons_idle by done.
    by apply quiz_buttons_shown. }
  destruct click as [[d| |i o|i|i| | |]|].
  - rewrite Hidle; [done | repeat split; congruence].
  - rewrite Hidle; [done | repeat split; congruence].
  - case_bool_decide as Hoff.
    + destruct Hoff as [-> Hoff].
      by rewrite (quiz_buttons_option _ _ _ _ _ Hd).
    + by rewrite (quiz_buttons_not_offered _ _ _ _ _ Hd).
  - case_bool_decide as Hi.
    + subst i. by rewrite (quiz_buttons_reset _ _ _ _ _ Hd).
    + rewrite Hidle; [done | repeat split; congruence].
  - rewrite Hidle; [done | repeat split; congruence].
  - destruct (quiz_buttons_prev _ _ _ _ _ Hd) as [p' ->].
    by destruct (0 <? current_index s).
  - rewrite (quiz_buttons_next _ _ _ _ _ Hd).
    by destruct (current_index s <? Pandas.len df - 1).
  - rewrite Hidle; [done | repeat split; congruence].
  - rewrite Hidle; [done | repeat split; congruence].
Qed.

(** ** What the question page can change *)

Lemma same_bank_trans s1 s2 s3 :
  same_bank s1 s2 -> same_bank s2 s3 -> same_bank s1 s3.
Proof. unfold same_bank. intuition congruence. Qed.

Lemma option_buttons_same_bank click index options s page :
  same_bank s (session_of (option_buttons click index options s page)).
Proof.
  assert (Hidle : (forall o, click ≠ Some (BtnOption index o)) ->
            same_bank s (session_of (option_buttons click index options s page))).
  { intros H. by rewrite option_buttons_idle, option_buttons_None. }
  destruct click as [[d| |i o|i|i| | |]|]; try (by apply Hidle).
  destruct (decide (i = index)) as [->|Hi]; [|apply Hidle; congruence].
  rewrite option_buttons_click. cbv zeta. unfold session_of. cbn [fst snd].
  destruct (_ && _); done.
Qed.

Lemma reset_and_save_same_bank click index s page :
  same_bank s (session_of (reset_and_save click index s page)).
Proof.
  rewrite reset_and_save_eq. cbv zeta. unfold session_of. cbn [fst snd].
  destruct (_ && _); done.
Qed.

Lemma navigation_in_bounds click df s page :
  mcq_df s = Some df ->
  let s' := session_of (navigation click df s page) in
  mcq_df s' = mcq_df s /\ selected_level s' = selected_level s
  /\ (in_bounds s -> in_bounds s').
Proof.
  intros Hdf. rewrite navigation_eq. cbv zeta. unfold in_bounds.
  match goal with |- context [if ?c then _ else _] => destruct c eqn:Hp end;
    [|match goal with |- context [if ?c then _ else _] => destruct c eqn:Hn end];
    unfold session_of; cbn [fst snd]; (split; [done|split; [done|]]);
    try done.
  - intros Hin df' Hdf'. cbn in *. destruct (Hin _ Hdf') as [Hne Hi].
    apply andb_true_iff in Hp as [[_ Hp]%andb_true_iff _]. split; [done|lia].
  - intros Hin df' Hdf'. cbn in *. destruct (Hin _ Hdf') as [Hne Hi].
    apply andb_true_iff in Hn as [[_ Hn]%andb_true_iff _].
    assert (df' = df) as -> by congruence. split; [done|lia].
Qed.

Lemma in_bounds_same_bank s s' : same_bank s s' -> in_bounds s -> in_bounds s'.
Proof. intros (Hdf & Hi & _) H df. rewrite Hdf, Hi. apply H. Qed.

Lemma quiz_buttons_in_bounds click df index options s page :
  mcq_df s = Some df ->
  let s' := session_of (quiz_buttons click df index options s page) in
  mcq_df s' = mcq_df s /\ selected_level s' = selected_level s
  /\ (in_bounds s -> in_bounds s').
Proof.
  intros Hdf. unfold quiz_buttons. rewrite bind_eq.
  pose proof (option_buttons_same_bank click index options s page) as H1.
  destruct (option_buttons click index options s page) as [[o1 s1] p1].
  unfold session_of in H1. cbn [fst snd] in H1.
  assert (Hframe : forall s2, same_bank s s2 ->
            mcq_df s2 = mcq_df s /\ selected_level s2 = selected_level s
            /\ (in_bounds s -> in_bounds s2)).
  { intros s2 Hs. split; [apply Hs|]. split; [apply Hs|].
    by apply in_bounds_same_bank. }
  destruct o1 as [[]|e|]; [|by apply Hframe..].
  rewrite bind_eq.
  pose proof (reset_and_save_same_bank click index s1 p1) as H2.
  destruct (reset_and_save click index s1 p1) as [[o2 s2] p2].
  unfold session_of in H2. cbn [fst snd] in H2.
  pose proof (same_bank_trans _ _ _ H1 H2) as H12.
  destruct o2 as [[]|e|]; [|by apply Hframe..].
  destruct H12 as (Hd & Hi & Hl).
  destruct (navigation_in_bounds click df s2 p2) as (Hd' & Hl' & Hin);
    [congruence|].
  cbv zeta. split; [congruence|split; [congruence|]].
  intros Hb. apply Hin. intros df'. rewrite Hd, Hi. apply Hb.
Qed.

Lemma display_mcq_no_bank click s page :
  no_bank s ->
  display_mcq click s page =
    (Done tt, s, (page ++ [Warning no_questions])%list).
Proof.
  unfold no_bank, display_mcq. rewrite bind_eq. unfold get_session at 1.
  destruct (mcq_df s) as [df|]; [|done]. by intros ->.
Qed.

Lemma display_mcq_in_bounds click s page :
  let s' := session_of (display_mcq click s page) in
  mcq_df s' = mcq_df s /\ selected_level s' = selected_level s
  /\ (in_bounds s -> in_bounds s').
Proof.
  destruct (mcq_df s) as [df|] eqn:Hdf.
  2:{ rewrite display_mcq_no_bank by (unfold no_bank; by rewrite Hdf).
      by rewrite <- Hdf. }
  destruct (Pandas.empty df) eqn:Hne.
  { rewrite display_mcq_no_bank by (unfold no_bank; by rewrite Hdf).
    by rewrite <- Hdf. }
  rewrite (display_mcq_loaded _ _ _ _ Hdf Hne).
  destruct (question_of df (current_index s)) as [[[q m] options]|e];
    [|by rewrite <- Hdf].
  cbv zeta. destruct (valid_options options) as [opts|e]; [|by rewrite <- Hdf].
  rewrite <- Hdf. by apply quiz_buttons_in_bounds.
Qed.

(** ** [submit_test] *)


Lemma iloc_nth df pre r rs :
  records df = (pre ++ r :: rs)%list ->
  Pandas.iloc df (Z.of_nat (length pre)) = Ok (Pandas.row_of df r).
Proof.
  intros H. unfold Pandas.iloc, Pandas.len. rewrite H, length_app. simpl.
  rewrite Nat2Z.id.
  replace (nth_error (pre ++ r :: rs) (length pre)) with (Some r).
  2:{ symmetry. rewrite nth_error_app2 by lia.
      by rewrite Nat.sub_diag. }
  destruct (_ && _) eqn:E; [done|].
  apply andb_false_iff in E as [E|E]; [apply Z.leb_gt in E | apply Z.ltb_ge in E];
    lia.
Qed.

Lemma getitem_label key df r :
  Pandas.has_label key (columns df) = true ->
  Pandas.getitem (Pandas.row_of df r) key = Ok (Pandas.cell key (Pandas.row_of df r)).
Proof. intros H. unfold Pandas.getitem. simpl. by rewrite H. Qed.

Section Scoring.

Variables (df : DataFrame) (saved : gmap Z string).
Hypothesis Hanswer : Pandas.has_label "answer" (columns df) = true.
Hypothesis Hquestion : Pandas.has_label "question" (columns df) = true.

Lemma count_correct_rows rs : forall pre,
  records df = (pre ++ rs)%list ->
  count_correct (Pandas.rows_from df (Z.of_nat (length pre)) rs) saved =
    Ok (Z.of_nat (length (List.filter (Scorer.correct df saved)
                            (map Z.of_nat (seq (length pre) (length rs)))))).
Proof.
  induction rs as [|r rs IH]; intros pre Hpre; simpl; [done|].
  specialize (IH (pre ++ [r])%list).
  rewrite length_app, <- app_assoc in IH. simpl in IH.
  rewrite Nat.add_1_r, Nat2Z.inj_succ, <- Z.add_1_r in IH.
  specialize (IH Hpre). rewrite IH.
  assert (Hc : Scorer.correct df saved (Z.of_nat (length pre)) =
               match saved !! Z.of_nat (length pre) with
               | Some given =>
                   str_eq given (Pandas.cell "answer" (Pandas.row_of df r))
               | None => false
               end).
  { unfold Scorer.correct, Scorer.correctAnswer.
    by rewrite (iloc_nth _ _ _ _ Hpre). }
  rewrite Hc.
  destruct (saved !! Z.of_nat (length pre)) as [given|]; [|done].
  rewrite getitem_label by done.
  destruct (str_eq given _); simpl length; f_equal; lia.
Qed.

Lemma show_incorrect_rows rs : forall pre s page,
  records df = (pre ++ rs)%list ->
  show_incorrect (Pandas.rows_from df (Z.of_nat (length pre)) rs) saved s page =
    (Done tt, s,
     (page ++ flat_map Scorer.entry
                (flat_map (Scorer.missed_at df saved)
                   (map Z.of_nat (seq (length pre) (length rs)))))%list).
Proof.
  induction rs as [|r rs IH]; intros pre s page Hpre; simpl.
  { by rewrite app_nil_r. }
  specialize (IH (pre ++ [r])%list).
  rewrite length_app, <- app_assoc in IH. simpl in IH.
  rewrite Nat.add_1_r, Nat2Z.inj_succ, <- Z.add_1_r in IH.
  rewrite bind_eq.
  unfold Scorer.missed_at at 1, Scorer.correctAnswer, Scorer.text.
  rewrite (iloc_nth _ _ _ _ Hpre).
  destruct (saved !! Z.of_nat (length pre)) as [given|].
  2:{ munfold. by rewrite IH. }
  rewrite bind_eq, lift_eq, getitem_label by done.
  destruct (str_eq given _); simpl.
  { munfold. by rewrite IH. }
  rewrite bind_eq, lift_eq, getitem_label by done.
  munfold. rewrite IH by done. by rewrite <- !app_assoc.
Qed.

End Scoring.

Lemma submit_test_loaded s page df :
  mcq_df s = Some df -> Pandas.empty df = false -> scorable df ->
  submit_test s page =
    (Done tt, cleared s, (page ++ Scorer.report df (saved_answers s))%list).
Proof.
  intros Hdf Hne Hcols. unfold submit_test.
  rewrite bind_eq. unfold get_session at 1. rewrite Hdf, Hne.
  rewrite bind_eq, lift_eq. unfold Pandas.iterrows.
  destruct Hcols as [Ha Hq].
  pose proof (count_correct_rows df (saved_answers s) Ha (records df) [] eq_refl)
    as Hcount.
  pose proof (fun s' page' =>
    show_incorrect_rows df (saved_answers s) Ha Hq (records df) [] s' page' eq_refl)
    as Hshow.
  change (Z.of_nat (length [])) with 0 in Hcount, Hshow. rewrite Hcount.
  munfold. rewrite Hshow.
  unfold Scorer.report, Scorer.score, Scorer.incorrect, Scorer.indices, cleared.
  by rewrite <- !app_assoc.
Qed.

Lemma submit_test_no_bank s page :
  no_bank s ->
  submit_test s page = (Done tt, s, (page ++ [Warning no_mcqs])%list).
Proof.
  unfold no_bank, submit_test. rewrite bind_eq. unfold get_session at 1.
  destruct (mcq_df s) as [df|]; [|done]. by intros ->.
Qed.

(** ** The generator and its handler *)

Section Generation.

Variable json_loads : string -> result pyval.
Variable pd_DataFrame : pyval -> result DataFrame.
Variables (topic : string) (response : result string).

Local Abbreviation handler :=
  (generate_handler json_loads pd_DataFrame topic response).
Local Abbreviation generated s :=
  (generate_question_bank json_loads pd_DataFrame topic
     (default EmptyString (selected_level s)) response).

(** The handler, case by case. *)
Lemma generate_handler_eq s page :
  handler s page =
    if PyStr.truthy topic && level_chosen s then
      match generated s with
      | Raise e => (Raised e, s, (page ++ [Note generating])%list)
      | Ok (Some df) =>
          if Pandas.empty df
          then (Done tt, s,
                (page ++ [Note generating; Error generation_failed])%list)
          else (Rerun, installed df s, (page ++ [Note generating])%list)
      | Ok None =>
          (Done tt, s,
           (page ++ [Note generating; Error generation_failed])%list)
      end
    else (Done tt, s, (page ++ [Warning missing_input])%list).
Proof.
  unfold generate_handler. rewrite bind_eq. unfold get_session at 1.
  destruct (_ && _); [|done].
  rewrite bind_eq. unfold draw at 1. rewrite bind_eq, lift_eq.
  destruct (generated s) as [[df|]|e]; try done.
  - destruct (Pandas.empty df); simpl; munfold; by rewrite <- ?app_assoc.
  - munfold. by rewrite <- app_assoc.
Qed.

Lemma nonempty_len df : Pandas.empty df = false -> 0 < Pandas.len df.
Proof.
  unfold Pandas.empty, Pandas.len.
  destruct (columns df), (records df); try discriminate. simpl. lia.
Qed.

Lemma generate_handler_in_bounds s page :
  in_bounds s -> in_bounds (session_of (handler s page)).
Proof.
  intros Hs. rewrite generate_handler_eq.
  destruct (_ && _); [|done].
  destruct (generated s) as [[df|]|e]; try done.
  destruct (Pandas.empty df) eqn:Hne; [done|].
  intros df' [= <-]. simpl. pose proof (nonempty_len _ Hne). split; [done|lia].
Qed.

End Generation.

(** ** One run of the script keeps the position inside the bank *)

Lemma preserves_bind {A B} P (m : M A) (k : A -> M B) :
  preserves P m -> (forall a, preserves P (k a)) -> preserves P (m ≫= k).
Proof.
  intros Hm Hk s page Hs. rewrite bind_eq. specialize (Hm s page Hs).
  destruct (m s page) as [[[a|e|] s1] p1]; unfold session_of in *; simpl in *;
    [by apply Hk | done | done].
Qed.

Lemma preserves_when P b (m : M unit) :
  preserves P m -> preserves P (when b m).
Proof. intros Hm. destruct b; [done|]. by intros s page. Qed.

Lemma preserves_draw P u : preserves P (draw u).
Proof. by intros s page. Qed.

Lemma preserves_button P click w : preserves P (button click w).
Proof. intros s page Hs. unfold button. by destruct (on_page w page). Qed.

Lemma preserves_get P : preserves P get_session.
Proof. by intros s page. Qed.

Lemma show_incorrect_session rows saved : forall s page,
  session_of (show_incorrect rows saved s page) = s.
Proof.
  induction rows as [|[i row] rows IH]; intros s page; simpl; [done|].
  rewrite bind_eq.
  assert (H : exists o p, (match saved !! i with
              | Some given =>
                  answer ← lift (Pandas.getitem row "answer");
                  when (negb (str_eq given answer))
                    (question ← lift (Pandas.getitem row "question");
                     draw (MissedQuestion (i + 1) question);;
                     draw (YourAnswer given);;
                     answer' ← lift (Pandas.getitem row "answer");
                     draw (CorrectAnswer answer');;
                     draw Separator)
              | None => ret tt
              end) s page = (o, s, p)).
  { destruct (saved !! i) as [given|]; [|by eexists _, _].
    rewrite bind_eq, lift_eq.
    destruct (Pandas.getitem row "answer") as [a|e]; [|by eexists _, _].
    destruct (str_eq given a); simpl; [by eexists _, _|].
    rewrite bind_eq, lift_eq.
    destruct (Pandas.getitem row "question") as [q|e]; by eexists _, _. }
  destruct H as (o & p & ->). destruct o as [[]|e|]; [apply IH|done..].
Qed.

Lemma submit_test_session s page :
  session_of (submit_test s page) = s
  \/ session_of (submit_test s page) = cleared s.
Proof.
  remember (submit_test s page) as r eqn:Hr.
  unfold submit_test in Hr. rewrite bind_eq in Hr. unfold get_session at 1 in Hr.
  destruct (mcq_df s) as [df|]; [|left; by subst r].
  destruct (Pandas.empty df); [left; by subst r|].
  rewrite bind_eq, lift_eq in Hr.
  destruct (count_correct _ _) as [n|e]; [|left; by subst r].
  right. subst r. munfold.
  exact (show_incorrect_session (Pandas.iterrows df) (saved_answers s)
           (cleared s)
           ((page ++ [Success n (Pandas.len df)]) ++ [IncorrectHeading])%list).
Qed.

Lemma draw_grows u s page : exists rest,
  page_of (draw u s page) = (page ++ rest)%list.
Proof. by exists [u]. Qed.

Lemma show_incorrect_grows rows saved : forall s page,
  exists rest, page_of (show_incorrect rows saved s page) = (page ++ rest)%list.
Proof.
  induction rows as [|[i row] rows IH]; intros s page; simpl.
  { exists []. by rewrite app_nil_r. }
  rewrite bind_eq.
  assert (H : exists o s1 rest, (match saved !! i with
              | Some given =>
                  answer ← lift (Pandas.getitem row "answer");
                  when (negb (str_eq given answer))
                    (question ← lift (Pandas.getitem row "question");
                     draw (MissedQuestion (i + 1) question);;
                     draw (YourAnswer given);;
                     answer' ← lift (Pandas.getitem row "answer");
                     draw (CorrectAnswer answer');;
                     draw Separator)
              | None => ret tt
              end) s page = (o, s1, (page ++ rest)%list)).
  { destruct (saved !! i) as [given|].
    2:{ exists (Done tt), s, []. by rewrite app_nil_r. }
    rewrite bind_eq, lift_eq.
    destruct (Pandas.getitem row "answer") as [a|e].
    2:{ exists (Raised e), s, []. by rewrite app_nil_r. }
    destruct (str_eq given a); simpl.
    { exists (Done tt), s, []. by rewrite app_nil_r. }
    rewrite bind_eq, lift_eq.
    destruct (Pandas.getitem row "question") as [q|e].
    2:{ exists (Raised e), s, []. by rewrite app_nil_r. }
    munfold. eexists _, _, _. by rewrite <- !app_assoc. }
  destruct H as (o & s1 & rest & ->). destruct o as [[]|e|].
  - destruct (IH s1 (page ++ rest)%list) as [rest' ->].
    exists (rest ++ rest')%list. by rewrite app_assoc.
  - by exists rest.
  - by exists rest.
Qed.

(** With the answer column the score is computed, and then the session is
    cleared whatever the report does. *)
Lemma submit_test_scored s page df :
  mcq_df s = Some df -> Pandas.empty df = false ->
  Pandas.has_label "answer" (columns df) = true ->
  session_of (submit_test s page) = cleared s
  /\ exists rest,
       page_of (submit_test s page) =
         (page ++ Success (Scorer.score df (saved_answers s)) (Pandas.len df)
               :: IncorrectHeading :: rest)%list.
Proof.
  intros Hdf Hne Ha.
  remember (submit_test s page) as r eqn:Hr.
  unfold submit_test in Hr. rewrite bind_eq in Hr. unfold get_session at 1 in Hr.
  rewrite Hdf, Hne, bind_eq, lift_eq in Hr. unfold Pandas.iterrows in Hr.
  pose proof (count_correct_rows df (saved_answers s) Ha (records df) [] eq_refl)
    as Hcount.
  change (Z.of_nat (length [])) with 0 in Hcount. rewrite Hcount in Hr.
  munfold. subst r. split.
  - apply show_incorrect_session.
  - destruct (show_incorrect_grows (Pandas.rows_from df 0 (records df))
                (saved_answers s) (cleared s)
                ((page ++ [Success (Scorer.score df (saved_answers s)) (Pandas.len df)])
                 ++ [IncorrectHeading])%list) as [rest Hrest].
    exists rest. unfold Scorer.score, Scorer.indices, cleared in *.
    etransitivity; [exact Hrest|]. by rewrite <- !app_assoc.
Qed.

Lemma submit_test_in_bounds : preserves in_bounds submit_test.
Proof.
  intros s page Hs. destruct (submit_test_session s page) as [->| ->]; [done|].
  intros df. discriminate.
Qed.

Lemma level_buttons_in_bounds click levels :
  preserves in_bounds (level_buttons click levels).
Proof.
  induction levels as [|d levels IH]; simpl; [by intros s page|].
  apply preserves_bind; [apply preserves_button|]. intros b.
  apply preserves_bind; [|done].
  apply preserves_when. by intros s page Hs.
Qed.

Lemma script_in_bounds json_loads pd_DataFrame topic click response :
  preserves in_bounds (script json_loads pd_DataFrame topic click response).
Proof.
  unfold script.
  repeat (apply preserves_bind; [apply preserves_draw|]; intros _).
  apply preserves_bind; [apply level_buttons_in_bounds|]. intros _.
  apply preserves_bind; [apply preserves_button|]. intros b.
  apply preserves_bind.
  { apply preserves_when. intros s page. apply generate_handler_in_bounds. }
  intros _. apply preserves_bind; [apply preserves_get|]. intros s0.
  apply preserves_bind.
  { apply preserves_when. intros s page. apply display_mcq_in_bounds. }
  intros _. apply preserves_bind; [apply preserves_button|]. intros b'.
  apply preserves_when, submit_test_in_bounds.
Qed.


(** ** A click on an answer button, in general *)

Lemma draw_all_other ws : forall page w,
  w ∉ ws -> on_page w (snd (draw_all ws page)) = on_page w page.
Proof.
  induction ws as [|w' ws IH]; intros page w Hw; simpl; [done|].
  apply not_elem_of_cons in Hw as [Hne Hw].
  destruct (on_page w' page); [done|].
  rewrite IH, on_page_app, on_page_button by done.
  rewrite bool_decide_eq_false_2 by done. apply orb_false_r.
Qed.

Lemma on_page_separator w page :
  on_page w (page ++ [Separator]) = on_page w page.
Proof. rewrite on_page_app. apply orb_false_r. Qed.

(** The page after the navigation buttons, with nothing clicked. *)
Lemma drawn_after_nav w n i r :
  w ≠ BtnPrev -> w ≠ BtnNext ->
  forall pb, r = draw_all (nav_widgets n i) pb ->
  on_page w match fst r with
            | Done _ => (snd r ++ [Separator])%list
            | _ => snd r
            end = on_page w pb.
Proof.
  intros Hp Hn pb ->.
  assert (Hw : w ∉ nav_widgets n i).
  { unfold nav_widgets. intros [H|H]%elem_of_app.
    - destruct (0 <? i); [|by apply elem_of_nil in H].
      apply elem_of_cons in H as [->|H]; [done|by apply elem_of_nil in H].
    - destruct (i <? n - 1); [|by apply elem_of_nil in H].
      apply elem_of_cons in H as [->|H]; [done|by apply elem_of_nil in H]. }
  destruct (fst _); rewrite ?on_page_separator; by apply draw_all_other.
Qed.

(** Clicking an option button changes neither what is drawn nor how the run
    ends; it stores the option when its button is drawn. *)
Lemma quiz_buttons_select df options s page o :
  let i := current_index s in
  let w := BtnOption i o in
  let r0 := quiz_buttons None df i options s page in
  quiz_buttons (Some w) df i options s page =
    (outcome_of r0,
     if drawn w page (page_of r0)
     then with_saved_answers (<[i := o]> (saved_answers s)) s else s,
     page_of r0).
Proof.
  cbv zeta. rewrite quiz_buttons_None by done. cbv zeta.
  unfold outcome_of, page_of, drawn. cbn [fst snd].
  unfold quiz_buttons, quiz_widgets.
  rewrite draw_all_app, bind_eq, option_buttons_click. cbv zeta.
  set (w := BtnOption (current_index s) o).
  set (s1 := with_saved_answers _ s).
  destruct (draw_all (map _ options) page) as [oa pa] eqn:Ha.
  cbn [fst snd].
  set (s' := if on_page w pa && negb (on_page w page) then s1 else s).
  assert (Hi : current_index s' = current_index s).
  { unfold s'. by destruct (_ && _). }
  destruct oa as [[]|e|]; [|done..].
  rewrite (draw_all_app [_; _]), bind_eq, reset_and_save_eq. cbv zeta.
  rewrite bool_decide_eq_false_2 by done. cbn [andb].
  assert (Hb : on_page w (snd (draw_all [BtnReset (current_index s);
                                           BtnSave (current_index s)] pa))
               = on_page w pa).
  { apply draw_all_other. intros H.
    repeat (apply elem_of_cons in H as [H|H]; [done|]).
    by apply elem_of_nil in H. }
  destruct (draw_all [_; _] pa) as [ob pb]. cbn [fst snd] in *.
  destruct ob as [[]|e|]; cbn [fst snd]; [|by rewrite Hb..].
  rewrite navigation_eq. cbv zeta. rewrite Hi.
  rewrite !bool_decide_eq_false_2 by done. cbn [andb].
  rewrite (drawn_after_nav w _ _ _ ltac:(done) ltac:(done) pb eq_refl).
  by rewrite Hb.
Qed.

(** Clicking Reset changes neither what is drawn nor how the run ends; it
    removes the answer of the current position when its button is drawn. *)
Lemma quiz_buttons_reset_any df options s page :
  let i := current_index s in
  let w := BtnReset i in
  let r0 := quiz_buttons None df i options s page in
  quiz_buttons (Some w) df i options s page =
    (outcome_of r0,
     if drawn w page (page_of r0)
     then with_saved_answers (delete i (saved_answers s)) s else s,
     page_of r0).
Proof.
  cbv zeta. rewrite quiz_buttons_None by done. cbv zeta.
  unfold outcome_of, page_of, drawn. cbn [fst snd].
  unfold quiz_buttons, quiz_widgets.
  rewrite draw_all_app, bind_eq, option_buttons_idle, option_buttons_None by done.
  set (w := BtnReset (current_index s)).
  set (s1 := with_saved_answers _ s).
  assert (Ha : on_page w (snd (draw_all (map (BtnOption (current_index s)) options)
                                 page)) = on_page w page).
  { apply draw_all_other. by intros (o & ? & _)%list_elem_of_fmap. }
  destruct (draw_all (map _ options) page) as [oa pa]. cbn [fst snd] in *.
  destruct oa as [[]|e|]; cbn [fst snd];
    [|rewrite Ha; by destruct (on_page w page)..].
  rewrite (draw_all_app [_; _]), bind_eq, reset_and_save_eq. cbv zeta.
  fold w. rewrite bool_decide_eq_true_2 by done. cbn [andb]. rewrite Ha.
  simpl draw_all. fold w. rewrite Ha.
  destruct (on_page w page) eqn:Hw; cbn [negb fst snd].
  { by rewrite Ha. }
  assert (Hb : on_page w (snd (draw_all [BtnSave (current_index s)]
                                 (pa ++ [Button w])%list)) = true).
  { apply draw_all_grows.
    rewrite on_page_app, on_page_button, bool_decide_eq_true_2 by done.
    apply orb_true_r. }
  change (if on_page (BtnSave (current_index s)) (pa ++ [Button w])
          then (Raised DuplicateWidgetID, (pa ++ [Button w])%list)
          else (Done tt, ((pa ++ [Button w]) ++ [Button (BtnSave (current_index s))])%list))
    with (draw_all [BtnSave (current_index s)] (pa ++ [Button w])%list).
  destruct (draw_all [BtnSave _] _) as [ob pb]. cbn [fst snd] in *.
  destruct ob as [[]|e|]; cbn [fst snd]; [|by rewrite Hb..].
  rewrite navigation_eq. cbv zeta.
  change (current_index s1) with (current_index s).
  rewrite !bool_decide_eq_false_2 by done. cbn [andb].
  rewrite (drawn_after_nav w _ _ _ ltac:(done) ltac:(done) pb eq_refl).
  by rewrite Hb.
Qed.

Lemma on_page_question_view w index question_text code_match :
  on_page w (question_view index question_text code_match) = false.
Proof.
  unfold question_view. destruct code_match as [m|]; [|done].
  by destruct (PyStr.truthy _).
Qed.

Lemma on_page_note w page u :
  (forall w', u ≠ Button w') -> on_page w (page ++ [u]) = on_page w page.
Proof.
  intros Hu. rewrite on_page_app. unfold on_page at 2. simpl.
  destruct u; try by rewrite !orb_false_r. by destruct (Hu w0).
Qed.

Lemma drawn_nothing w page page' :
  on_page w page' = on_page w page -> drawn w page page' = false.
Proof. unfold drawn. intros ->. by destruct (on_page w page). Qed.

Lemma drawn_from w page page1 page' :
  on_page w page1 = on_page w page -> drawn w page1 page' = drawn w page page'.
Proof. unfold drawn. by intros ->. Qed.

Lemma quiz_buttons_other w df index options s page :
  index = current_index s -> w ∉ quiz_widgets df index options ->
  on_page w (page_of (quiz_buttons None df index options s page))
  = on_page w page.
Proof.
  intros Hi Hw. rewrite quiz_buttons_None by done. cbv zeta.
  unfold page_of. cbn [snd].
  pose proof (draw_all_other _ page w Hw) as H.
  destruct (draw_all _ page) as [[[]|e|] p]; cbn [fst snd] in *;
    by rewrite ?on_page_separator.
Qed.

Lemma quiz_widgets_index w df index options :
  w ∈ quiz_widgets df index options -> answer_button w ->
  widget_index w = Some index.
Proof.
  unfold quiz_widgets. intros [H|[H|H]%elem_of_app]%elem_of_app Hw.
  - by apply list_elem_of_fmap in H as (o & -> & _).
  - apply elem_of_cons in H as [->|H]; [done|].
    apply elem_of_cons in H as [->|H]; [done|]. by apply elem_of_nil in H.
  - unfold nav_widgets in H. apply elem_of_app in H as [H|H].
    + destruct (0 <? index); [|by apply elem_of_nil in H].
      apply elem_of_cons in H as [->|H]; [done|by apply elem_of_nil in H].
    + destruct (index <? Pandas.len df - 1); [|by apply elem_of_nil in H].
      apply elem_of_cons in H as [->|H]; [done|by apply elem_of_nil in H].
Qed.

Lemma quiz_buttons_answer w df options s page :
  answer_button w ->
  let r0 := quiz_buttons None df (current_index s) options s page in
  quiz_buttons (Some w) df (current_index s) options s page =
    (outcome_of r0,
     if drawn w page (page_of r0) then answer_update w s else s,
     page_of r0).
Proof.
  intros Hw. cbv zeta.
  destruct (decide (widget_index w = Some (current_index s))) as [Hi|Hi].
  - destruct w as [| |i o|i| | | |]; try done; injection Hi as ->.
    + apply quiz_buttons_select.
    + apply quiz_buttons_reset_any.
  - rewrite quiz_buttons_idle.
    2:{ destruct w; try done; simpl in Hi; repeat split; try done;
        intros; congruence. }
    rewrite drawn_nothing.
    + by rewrite quiz_buttons_None.
    + apply quiz_buttons_other; [done|]. intros Hin. apply Hi.
      by eapply quiz_widgets_index.
Qed.

(** The same at the level of [display_mcq], for any session and page. *)
Lemma display_mcq_answer w s page :
  answer_button w ->
  let r0 := display_mcq None s page in
  display_mcq (Some w) s page =
    (outcome_of r0,
     if drawn w page (page_of r0) then answer_update w s else s,
     page_of r0).
Proof.
  intros Hw. cbv zeta.
  destruct (mcq_df s) as [df|] eqn:Hdf.
  2:{ rewrite !display_mcq_no_bank by (unfold no_bank; by rewrite Hdf).
      unfold outcome_of, page_of. cbn [fst snd].
      by rewrite drawn_nothing by by apply on_page_note. }
  destruct (Pandas.empty df) eqn:Hne.
  { rewrite !display_mcq_no_bank by (unfold no_bank; by rewrite Hdf).
    unfold outcome_of, page_of. cbn [fst snd].
    by rewrite drawn_nothing by by apply on_page_note. }
  rewrite !(display_mcq_loaded _ _ _ _ Hdf Hne).
  destruct (question_of df (current_index s)) as [[[q m] options]|e].
  2:{ unfold outcome_of, page_of. cbn [fst snd]. by rewrite drawn_nothing. }
  cbv zeta.
  assert (Hq : on_page w (page ++ question_view (current_index s) q m)
               = on_page w page).
  { by rewrite on_page_app, on_page_question_view, orb_false_r. }
  destruct (valid_options options) as [opts|e].
  2:{ unfold outcome_of, page_of. cbn [fst snd]. by rewrite drawn_nothing. }
  rewrite quiz_buttons_answer by done. cbv zeta.
  by rewrite (drawn_from _ _ _ _ Hq).
Qed.

(** A clickable answer button belongs to the current position, of a loaded
    bank. *)
Lemma clickable_current w s page :
  answer_button w -> clickable s page w ->
  widget_index w = Some (current_index s).
Proof.
  intros Hw. unfold clickable.
  destruct (decide (widget_index w = Some (current_index s))) as [|Hi]; [done|].
  rewrite drawn_nothing; [done|].
  destruct (mcq_df s) as [df|] eqn:Hdf.
  2:{ rewrite display_mcq_no_bank by (unfold no_bank; by rewrite Hdf).
      by apply on_page_note. }
  destruct (Pandas.empty df) eqn:Hne.
  { rewrite display_mcq_no_bank by (unfold no_bank; by rewrite Hdf).
    by apply on_page_note. }
  rewrite (display_mcq_loaded _ _ _ _ Hdf Hne).
  destruct (question_of df (current_index s)) as [[[q m] options]|e]; [|done].
  cbv zeta.
  assert (Hq : on_page w (page ++ question_view (current_index s) q m)
               = on_page w page).
  { by rewrite on_page_app, on_page_question_view, orb_false_r. }
  destruct (valid_options options) as [opts|e]; [|done].
  rewrite quiz_buttons_other; [done..|].
  intros Hin. apply Hi. by eapply quiz_widgets_index.
Qed.

(** * The claims *)

(** ** Submitting *)

(** C6. When no bank is loaded (the bank is absent or empty), [submit_test]
    draws the warning and nothing else, performs no scoring, ends normally
    and leaves the session as it was. *)
Theorem submit_without_bank_warns (s : Session) (page : list ui) :
  (mcq_df s = None \/ exists df, mcq_df s = Some df /\ Pandas.empty df = true) ->
  submit_test s page = (Done tt, s, (page ++ [Warning no_mcqs])%list).
Proof.
  intros H. apply submit_test_no_bank. unfold no_bank.
  destruct H as [-> | (df & -> & H)]; done.
Qed.

Lemma submit_without_bank_warns_witness :
  submit_test initial_session [] = (Done tt, initial_session, [Warning no_mcqs]).
Proof. apply (submit_without_bank_warns initial_session []). by left. Defined.







(** ** Selecting and resetting an answer *)

Lemma display_mcq_click click s page df p :
  mcq_df s = Some df -> Pandas.empty df = false ->
  display_mcq None s page = (Done tt, s, p) ->
  outcome_of (display_mcq click s page) = fst (navigator click s)
  /\ session_of (display_mcq click s page) = snd (navigator click s).
Proof.
  intros Hdf Hne Hp.
  pose proof (display_mcq_navigator click _ _ _ _ Hdf Hne Hp) as H.
  destruct (navigator click s). by injection H as -> ->.
Qed.

(** With nothing clicked, the question page depends on the bank and the
    position only. *)
Lemma display_mcq_None_same_bank s s' page :
  same_bank s s' ->
  outcome_of (display_mcq None s' page) = outcome_of (display_mcq None s page)
  /\ page_of (display_mcq None s' page) = page_of (display_mcq None s page).
Proof.
  intros (Hdf & Hi & _).
  destruct (mcq_df s) as [df|] eqn:Hs.
  2:{ by rewrite !display_mcq_no_bank by (unfold no_bank; by rewrite ?Hdf, ?Hs). }
  destruct (Pandas.empty df) eqn:Hne.
  { by rewrite !display_mcq_no_bank by (unfold no_bank; by rewrite ?Hdf, ?Hs). }
  rewrite (display_mcq_None _ _ _ Hs Hne).
  rewrite (display_mcq_None s' _ df) by congruence.
  by rewrite Hi.
Qed.

Lemma clickable_same_bank s s' page w :
  same_bank s s' -> clickable s page w -> clickable s' page w.
Proof.
  intros Hs. unfold clickable.
  by destruct (display_mcq_None_same_bank _ _ page Hs) as [_ ->].
Qed.

Lemma display_mcq_clicked w s page :
  answer_button w -> clickable s page w ->
  display_mcq (Some w) s page =
    (outcome_of (display_mcq None s page), answer_update w s,
     page_of (display_mcq None s page)).
Proof.
  intros Hw Hc. rewrite display_mcq_answer by done. cbv zeta.
  unfold clickable in Hc. by rewrite Hc.
Qed.

(** C9. Reset can be clicked only for the current position.  Clicking it
    draws what is drawn without the click and ends as that run ends, so it
    raises no error of its own; it removes the answer saved at the current
    position, and when none is saved the session does not change at all; the
    answers at the other positions, the bank and the position are
    unchanged. *)
Theorem reset_removes_current_answer (s : Session) (page : list ui) (i : Z) :
  clickable s page (BtnReset i) ->
  let r := display_mcq (Some (BtnReset i)) s page in
  i = current_index s
  /\ outcome_of r = outcome_of (display_mcq None s page)
  /\ page_of r = page_of (display_mcq None s page)
  /\ saved_answers (session_of r) = delete i (saved_answers s)
  /\ saved_answers (session_of r) !! i = None
  /\ (saved_answers s !! i = None -> session_of r = s)
  /\ (forall j, j ≠ i ->
        saved_answers (session_of r) !! j = saved_answers s !! j)
  /\ mcq_df (session_of r) = mcq_df s
  /\ current_index (session_of r) = current_index s.
Proof.
  intros Hc. cbv zeta.
  pose proof (clickable_current (BtnReset i) _ _ I Hc) as [= Hi].
  rewrite (display_mcq_clicked (BtnReset i) _ _ I Hc).
  unfold outcome_of, page_of, session_of. cbn [fst snd answer_update].
  do 4 (split; [done|]). simpl.
  split; [apply lookup_delete_eq|]. split.
  { intros Hnone. rewrite delete_id by done. apply with_saved_answers_id. }
  split; [|done]. intros j Hj. by apply lookup_delete_ne.
Qed.

(** C8. An option button can be clicked only for the current position.
    Clicking it stores its option there; clicking the same button again
    leaves the session as it is; and clicking the button of another option
    of the question replaces the stored one.  The bank and the position do
    not change. *)
Theorem select_is_idempotent_and_overwrites (s : Session) (page : list ui)
    (i : Z) (option option' : string) :
  clickable s page (BtnOption i option) ->
  clickable s page (BtnOption i option') ->
  let s1 := session_of (display_mcq (Some (BtnOption i option)) s page) in
  let s2 := session_of (display_mcq (Some (BtnOption i option)) s1 page) in
  let s3 := session_of (display_mcq (Some (BtnOption i option')) s1 page) in
  i = current_index s
  /\ saved_answers s1 = <[i := option]> (saved_answers s)
  /\ s2 = s1
  /\ saved_answers s3 = <[i := option']> (saved_answers s)
  /\ saved_answers s3 !! i = Some option'
  /\ same_bank s s1.
Proof.
  intros Hc Hc'. cbv zeta.
  pose proof (clickable_current (BtnOption i option) _ _ I Hc) as [= Hi].
  set (s1 := answer_update (BtnOption i option) s).
  assert (H1 : session_of (display_mcq (Some (BtnOption i option)) s page) = s1).
  { by rewrite (display_mcq_clicked (BtnOption i option) _ _ I Hc). }
  assert (Hsame : same_bank s s1) by done.
  rewrite H1.
  rewrite (display_mcq_clicked (BtnOption i option) s1 page I
             (clickable_same_bank _ _ _ _ Hsame Hc)).
  rewrite (display_mcq_clicked (BtnOption i option') s1 page I
             (clickable_same_bank _ _ _ _ Hsame Hc')).
  unfold session_of. cbn [fst snd]. unfold s1. simpl.
  split; [done|]. split; [done|]. split.
  { unfold with_saved_answers. simpl. by rewrite insert_insert_eq. }
  rewrite insert_insert_eq. split; [done|]. split; [apply lookup_insert_eq|done].
Qed.

Lemma reset_removes_current_answer_witness :
  saved_answers
    (session_of (display_mcq (Some (BtnReset 0)) sample_session script_header))
  = delete 0 (saved_answers sample_session).
Proof.
  assert (Hc : clickable sample_session script_header (BtnReset 0))
    by (vm_compute; reflexivity).
  apply (reset_removes_current_answer sample_session script_header 0 Hc).
Defined.

Lemma select_is_idempotent_and_overwrites_witness :
  let s1 := session_of (display_mcq (Some (BtnOption 0 "b")) sample_session
                          script_header) in
  saved_answers s1 = <[0 := "b"]> (saved_answers sample_session)
  /\ session_of (display_mcq (Some (BtnOption 0 "b")) s1 script_header) = s1
  /\ saved_answers
       (session_of (display_mcq (Some (BtnOption 0 "c")) s1 script_header)) !! 0
     = Some "c".
Proof.
  assert (Hb : clickable sample_session script_header (BtnOption 0 "b"))
    by (vm_compute; reflexivity).
  assert (Hc : clickable sample_session script_header (BtnOption 0 "c"))
    by (vm_compute; reflexivity).
  destruct (select_is_idempotent_and_overwrites sample_session script_header
              0 "b" "c" Hb Hc) as (_ & H1 & H2 & _ & H4 & _).
  exact (conj H1 (conj H2 H4)).
Defined.

(** ** Options: the placeholder and the entries that are not strings *)

Lemma option_texts_elem opts : forall texts o,
  option_texts opts = Ok texts -> o ∈ texts ->
  PyStr.truthy (PyStr.strip o) = true.
Proof.
  induction opts as [|opt opts IH]; intros texts o H Ho; simpl in H.
  { injection H as <-. by apply elem_of_nil in Ho. }
  destruct opt as [| | | |t| |]; simpl in H; try discriminate.
  destruct (option_texts opts) as [ts|e]; [|discriminate].
  injection H as <-. apply elem_of_cons in Ho as [->|Ho]; [|by eapply IH].
  destruct (PyStr.truthy (PyStr.strip t)) eqn:Ht; [done|]. by vm_compute.
Qed.

Lemma option_texts_blank opts : forall texts blank,
  option_texts opts = Ok texts -> PStr blank ∈ opts ->
  PyStr.strip blank = EmptyString -> placeholder ∈ texts.
Proof.
  induction opts as [|opt opts IH]; intros texts blank H Hb Hs; simpl in H.
  { by apply elem_of_nil in Hb. }
  destruct (option_text opt) as [t|e] eqn:Ht; [|discriminate].
  destruct (option_texts opts) as [ts|e]; [|discriminate].
  injection H as <-. apply elem_of_cons in Hb as [<-|Hb].
  - simpl in Ht. rewrite Hs in Ht. injection Ht as <-. apply elem_of_cons. by left.
  - apply elem_of_cons. right. by eapply IH.
Qed.

Lemma option_texts_non_string opts : forall opt,
  opt ∈ opts -> (forall t, opt ≠ PStr t) ->
  option_texts opts = Raise AttributeError.
Proof.
  induction opts as [|o opts IH]; intros opt Hin Hns.
  { by apply elem_of_nil in Hin. }
  apply elem_of_cons in Hin as [<-|Hin]; simpl.
  - destruct opt; try done. by destruct (Hns s).
  - rewrite (IH _ Hin Hns). by destruct o.
Qed.

Lemma question_of_options df i row question_text code_match options :
  Pandas.iloc df i = Ok row ->
  question_of df i = Ok (question_text, code_match, options) ->
  options = Pandas.get row "options" (PList []).
Proof.
  intros Hrow. unfold question_of. rewrite Hrow.
  destruct (Pandas.getitem row "question"); [|discriminate].
  destruct (Pandas.getitem row "language"); [|discriminate].
  destruct (Re.search _); [|discriminate]. congruence.
Qed.

(** On a question drawn without an error, the option buttons that can be
    clicked are those of the offered options. *)
Lemma clickable_offered s page p df o :
  mcq_df s = Some df -> Pandas.empty df = false ->
  display_mcq None s page = (Done tt, s, p) ->
  clickable s page (BtnOption (current_index s) o)
  <-> o ∈ offered df (current_index s).
Proof.
  intros Hdf Hne Hp. unfold clickable, drawn. rewrite Hp.
  unfold page_of. cbn [snd].
  rewrite (display_mcq_None _ _ _ Hdf Hne) in Hp.
  assert (Hview : quiz_view df (current_index s) page = (Done tt, p)).
  { destruct (quiz_view df (current_index s) page). simpl in Hp. congruence. }
  apply quiz_view_Done in Hview as (q & m & options & p2 & _ & _ & Hd & ->).
  apply draw_all_Done in Hd as (-> & _ & Hnew).
  set (w := BtnOption (current_index s) o).
  assert (Hw : w ∈ quiz_widgets df (current_index s) (offered df (current_index s))
               <-> o ∈ offered df (current_index s)).
  { unfold quiz_widgets. rewrite !elem_of_app, list_elem_of_fmap. split.
    - intros [(o' & [= ->] & H)|[H|H]]; [done| |].
      + repeat (apply elem_of_cons in H as [H|H]; [done|]).
        by apply elem_of_nil in H.
      + unfold nav_widgets in H. apply elem_of_app in H as [H|H].
        * destruct (0 <? _); [|by apply elem_of_nil in H].
          apply elem_of_cons in H as [H|H]; [done|by apply elem_of_nil in H].
        * destruct (_ <? _); [|by apply elem_of_nil in H].
          apply elem_of_cons in H as [H|H]; [done|by apply elem_of_nil in H].
    - intros H. left. by exists o. }
  rewrite !on_page_app, on_page_question_view, on_page_buttons.
  rewrite !orb_false_r. rewrite <- Hw. split.
  - intros H. apply andb_true_iff in H as [H Hn].
    apply negb_true_iff in Hn. rewrite Hn in H. simpl in H.
    by apply bool_decide_eq_true in H.
  - intros H. specialize (Hnew _ H).
    rewrite on_page_app, on_page_question_view, orb_false_r in Hnew.
    rewrite Hnew. simpl. rewrite andb_true_r. by apply bool_decide_eq_true.
Qed.

(** C1 (as the code has it). On a question that is drawn without an error
    and whose options hold a blank or whitespace-only string, the button of
    that option carries the placeholder: the button keyed by the placeholder
    can be clicked and none is keyed by the blank string; clicking the
    button stores the placeholder at the
    current position, never the blank string; a click keyed by the blank
    string changes nothing; and the scorer compares the stored placeholder
    with the correct answer. *)
Theorem blank_option_stores_placeholder (s : Session) (page p : list ui)
    (df : DataFrame) (row : Series) (opts : list pyval) (blank : string) :
  mcq_df s = Some df -> Pandas.empty df = false ->
  display_mcq None s page = (Done tt, s, p) ->
  let i := current_index s in
  Pandas.iloc df i = Ok row ->
  Pandas.get row "options" (PList []) = PList opts ->
  PStr blank ∈ opts -> PyStr.strip blank = EmptyString ->
  let s1 := session_of (display_mcq (Some (BtnOption i placeholder)) s page) in
  clickable s page (BtnOption i placeholder)
  /\ ~ clickable s page (BtnOption i blank)
  /\ session_of (display_mcq (Some (BtnOption i blank)) s page) = s
  /\ saved_answers s1 = <[i := placeholder]> (saved_answers s)
  /\ saved_answers s1 !! i ≠ Some blank
  /\ Scorer.correct df (saved_answers s1) i
     = str_eq placeholder (Scorer.correctAnswer df i)
  /\ (scorable df -> forall page',
        page_of (submit_test s1 page') =
          (page' ++ Scorer.report df (<[i := placeholder]> (saved_answers s)))%list).
Proof.
  intros Hdf Hne Hp i Hrow Hopts Hin Hblank. cbv zeta.
  assert (Hview : quiz_view df i page = (Done tt, p)).
  { rewrite (display_mcq_None _ _ _ Hdf Hne) in Hp. fold i in Hp.
    destruct (quiz_view df i page). simpl in Hp. congruence. }
  apply quiz_view_Done in Hview as (q & m & options & p2 & Hq & Hv & _ & _).
  rewrite (question_of_options _ _ _ _ _ _ Hrow Hq), Hopts in Hv.
  unfold valid_options in Hv. simpl in Hv.
  assert (Hoff : placeholder ∈ offered df i)
    by (eapply option_texts_blank; eauto).
  assert (Hnot : blank ∉ offered df i).
  { intros Hb. pose proof (option_texts_elem _ _ _ Hv Hb) as Ht.
    by rewrite Hblank in Ht. }
  assert (Hneq : placeholder ≠ blank) by (intros <-; done).
  destruct (display_mcq_click (Some (BtnOption i blank)) _ _ _ _ Hdf Hne Hp)
    as [_ ->].
  destruct (display_mcq_click (Some (BtnOption i placeholder)) _ _ _ _ Hdf Hne Hp)
    as [_ ->].
  unfold navigator. rewrite Hdf. fold i.
  rewrite bool_decide_eq_false_2 by tauto.
  rewrite bool_decide_eq_true_2 by done. simpl.
  split; [by apply (clickable_offered s page p df placeholder Hdf Hne Hp)|].
  split.
  { intros Hc. by apply (clickable_offered s page p df blank Hdf Hne Hp) in Hc. }
  split; [done|]. split; [done|].
  split. { rewrite lookup_insert_eq. congruence. }
  split. { unfold Scorer.correct. by rewrite lookup_insert_eq. }
  intros Hcols page'.
  by rewrite (submit_test_loaded _ _ df) by done.
Qed.

(** C10. When the options of the current question are a list with an entry
    that is not a string, [display_mcq] ends with an exception whatever was
    clicked, draws no button and leaves the session as it was; when the
    question itself can be read, the exception is the [AttributeError] of
    [strip], raised after the question has been drawn. *)
Theorem non_string_option_raises (click : option widget) (s : Session)
    (page : list ui) (df : DataFrame) (row : Series) (opts : list pyval)
    (opt : pyval) :
  mcq_df s = Some df -> Pandas.empty df = false ->
  let i := current_index s in
  Pandas.iloc df i = Ok row ->
  Pandas.get row "options" (PList []) = PList opts ->
  opt ∈ opts -> (forall t, opt ≠ PStr t) ->
  let r := display_mcq click s page in
  valid_options (PList opts) = Raise AttributeError
  /\ (exists e, outcome_of r = Raised e)
  /\ session_of r = s
  /\ (forall w, on_page w (page_of r) = on_page w page)
  /\ (forall question_text code_match options,
        question_of df i = Ok (question_text, code_match, options) ->
        outcome_of r = Raised AttributeError
        /\ page_of r = (page ++ question_view i question_text code_match)%list).
Proof.
  intros Hdf Hne i Hrow Hopts Hin Hns. cbv zeta.
  assert (Hv : valid_options (PList opts) = Raise AttributeError).
  { unfold valid_options. simpl. by rewrite (option_texts_non_string _ _ Hin Hns). }
  split; [done|].
  rewrite (display_mcq_loaded _ _ _ _ Hdf Hne). fold i.
  destruct (question_of df i) as [[[q m] options]|e] eqn:Hq.
  - rewrite (question_of_options _ _ _ _ _ _ Hrow Hq), Hopts. cbv zeta.
    rewrite Hv. unfold outcome_of, session_of, page_of. cbn [fst snd].
    split; [by eexists|]. split; [done|]. split.
    + intros w. by rewrite on_page_app, on_page_question_view, orb_false_r.
    + by intros ? ? ? [= <- <- _].
  - unfold outcome_of, session_of, page_of. cbn [fst snd].
    split; [by eexists|]. split; [done|]. split; [done|]. discriminate.
Qed.

(** C1 as stated fails: the second option of [blank_bank] is the blank
    string [" "]; its button is drawn with the placeholder, clicking it
    stores the placeholder and not [" "], and the submit that follows
    compares the placeholder with the answer [" "] and counts it wrong. *)
Lemma blank_option_counterexample :
  let s1 := session_of (display_mcq (Some (BtnOption 0 placeholder))
                          blank_session script_header) in
  page_of (display_mcq None blank_session script_header) =
    (script_header ++
     [Subheader 1 "Which one is blank?";
      Button (BtnOption 0 "yes"); Button (BtnOption 0 "Option not available");
      Button (BtnReset 0); Button (BtnSave 0); Separator])%list
  /\ saved_answers s1 !! 0 = Some "Option not available"
  /\ saved_answers s1 !! 0 ≠ Some " "
  /\ Scorer.correctAnswer blank_bank 0 = PStr " "
  /\ submit_test s1 [] =
       (Done tt, cleared blank_session,
        [Success 0 1; IncorrectHeading;
         MissedQuestion 1 (PStr "Which one is blank?");
         YourAnswer "Option not available"; CorrectAnswer (PStr " ");
         Separator]).
Proof.
  cbv zeta. split; [by vm_compute|]. split; [by vm_compute|].
  split; [by vm_compute|]. split; by vm_compute.
Qed.

(** Two blank options get the same placeholder and so the same button key:
    the second button is refused, after the first has been drawn. *)
Example two_blank_options_clash :
  let df := {| columns := ["question"; "options"; "answer"; "language"];
               records := [[("question", PStr "Which one?");
                            ("options", PList [PStr " "; PStr "  "]);
                            ("answer", PStr " ");
                            ("language", PBool false)]] |} in
  display_mcq None (installed df initial_session) [] =
    (Raised DuplicateWidgetID, installed df initial_session,
     [Subheader 1 "Which one?"; Button (BtnOption 0 placeholder)]).
Proof. by vm_compute. Qed.

Lemma blank_option_stores_placeholder_witness :
  let s1 := session_of (display_mcq (Some (BtnOption 0 placeholder))
                          blank_session script_header) in
  saved_answers s1 = <[0 := placeholder]> ∅
  /\ Scorer.correct blank_bank (saved_answers s1) 0 = false.
Proof.
  assert (Hp : display_mcq None blank_session script_header =
               (Done tt, blank_session,
                page_of (display_mcq None blank_session script_header)))
    by (vm_compute; reflexivity).
  assert (Hin : PStr " " ∈ [PStr "yes"; PStr " "])
    by (apply elem_of_cons; right; apply elem_of_cons; by left).
  destruct (blank_option_stores_placeholder blank_session script_header _
              blank_bank _ [PStr "yes"; PStr " "] " " eq_refl eq_refl Hp
              eq_refl eq_refl Hin eq_refl)
    as (_ & _ & _ & H1 & _ & H2 & _).
  split; [exact H1|]. etransitivity; [exact H2|reflexivity].
Defined.

Lemma non_string_option_raises_witness :
  outcome_of (display_mcq None mixed_session script_header)
  = Raised AttributeError
  /\ page_of (display_mcq None mixed_session script_header)
     = (script_header ++ [Subheader 1 "How many?"])%list.
Proof.
  assert (Hin : PInt 2 ∈ [PStr "one"; PInt 2])
    by (apply elem_of_cons; right; apply elem_of_cons; by left).
  destruct (non_string_option_raises None mixed_session script_header
              mixed_bank _ [PStr "one"; PInt 2] (PInt 2) eq_refl eq_refl
              eq_refl eq_refl Hin ltac:(discriminate))
    as (_ & _ & _ & _ & H).
  exact (H "How many?" None (PList [PStr "one"; PInt 2]) eq_refl).
Defined.

(** ** Navigation *)







(** ** Generating a bank *)

(** C2 as stated fails: [short_reply] is accepted by the parser, the
    generation succeeds and installs its bank, which has two questions and
    not ten, and whose first question has the answer [Berlin], which is none
    of its options. *)
Lemma generated_bank_counterexample :
  let r := generate_handler Json.loads Pandas.DataFrame_of "geography"
             (Ok short_reply) level_session script_header in
  Json.loads (trim_fence short_reply)
  = Ok (PList (map PDict (records short_bank)))
  /\ outcome_of r = Rerun
  /\ mcq_df (session_of r) = Some short_bank
  /\ Pandas.len short_bank = 2
  /\ Pandas.len short_bank ≠ 10
  /\ (exists row, Pandas.iloc short_bank 0 = Ok row
        /\ Pandas.getitem row "answer" = Ok (PStr "Berlin")
        /\ Pandas.getitem row "options" = Ok (PList [PStr "Paris"; PStr "Rome"]))
  /\ PStr "Berlin" ∉ [PStr "Paris"; PStr "Rome"].
Proof.
  cbv zeta. split; [by vm_compute|]. split; [by vm_compute|].
  split; [by vm_compute|]. split; [by vm_compute|]. split; [by vm_compute|].
  split. { eexists. split; [by vm_compute|]. split; by vm_compute. }
  intros H. repeat (apply elem_of_cons in H as [H|H]; [discriminate|]).
  by apply elem_of_nil in H.
Qed.

(** C2 (as the code has it). A generation that succeeds (the handler
    reaches [st.rerun()]) got a reply, parsed it, built a table from it, and
    installed that table as it is, after checking only that it is not empty:
    the bank has at least one row and one column, the position is 0 and no
    answer is saved. *)
Theorem generated_bank_is_nonempty (json_loads : string -> result pyval)
    (pd_DataFrame : pyval -> result DataFrame) (topic : string)
    (response : result string) (s : Session) (page : list ui) :
  let r := generate_handler json_loads pd_DataFrame topic response s page in
  outcome_of r = Rerun ->
  exists text mcq_list df,
    response = Ok text
    /\ json_loads (trim_fence text) = Ok mcq_list
    /\ pd_DataFrame mcq_list = Ok df
    /\ Pandas.empty df = false
    /\ 1 <= Pandas.len df
    /\ columns df ≠ []
    /\ session_of r = installed df s.
Proof.
  cbv zeta. rewrite generate_handler_eq.
  destruct (_ && _); [|discriminate].
  unfold generate_question_bank, except_JSONDecodeError.
  destruct response as [text|e]; [|discriminate].
  destruct (json_loads (trim_fence text)) as [mcq_list|e] eqn:Hj.
  2:{ by destruct e. }
  destruct (pd_DataFrame mcq_list) as [df|e] eqn:Hd.
  2:{ by destruct e. }
  destruct (Pandas.empty df) eqn:Hne; [discriminate|]. intros _.
  exists text, mcq_list, df. do 4 (split; [done|]).
  split; [|split; [|done]].
  - pose proof (nonempty_len _ Hne). lia.
  - intros Hc. unfold Pandas.empty in Hne. by rewrite Hc in Hne.
Qed.

Lemma generated_bank_is_nonempty_witness :
  exists text mcq_list df,
    Ok short_reply = Ok text
    /\ Json.loads (trim_fence text) = Ok mcq_list
    /\ Pandas.DataFrame_of mcq_list = Ok df
    /\ Pandas.empty df = false
    /\ 1 <= Pandas.len df
    /\ columns df ≠ []
    /\ session_of (generate_handler Json.loads Pandas.DataFrame_of "geography"
                     (Ok short_reply) level_session script_header)
       = installed df level_session.
Proof.
  apply (generated_bank_is_nonempty Json.loads Pandas.DataFrame_of "geography"
           (Ok short_reply) level_session script_header).
  by vm_compute.
Defined.

(** C3 as stated fails: when the call to the model fails, the generator
    does not catch the exception and the handler draws no error message; the
    exception ends the run of the script. *)
Lemma generation_failure_counterexample :
  generate_question_bank Json.loads Pandas.DataFrame_of "geography" "Beginner"
    (Raise ConnectionError) = Raise ConnectionError
  /\ script Json.loads Pandas.DataFrame_of "geography" (Some BtnGenerate)
       (Raise ConnectionError) level_session []
     = (Raised ConnectionError, level_session,
        (script_header ++ [Note generating])%list).
Proof. split; by vm_compute. Qed.

(** C3 (as the code has it). With a topic and a level chosen, the handler
    either leaves the session as it was or installs a bank that is not
    empty, never a partial or absent one.  A reply that is not JSON is caught
    in the generator, which returns no bank, and the handler draws the error
    message and changes nothing; so does a reply that gives an empty table.
    A failed call to the model is not caught: its exception ends the run,
    with the session unchanged and no error message drawn. *)
Theorem failed_generation_keeps_session (json_loads : string -> result pyval)
    (pd_DataFrame : pyval -> result DataFrame) (topic : string)
    (response : result string) (s : Session) (page : list ui) :
  PyStr.truthy topic = true -> level_chosen s = true ->
  let level := default EmptyString (selected_level s) in
  let bank := generate_question_bank json_loads pd_DataFrame topic level response in
  let r := generate_handler json_loads pd_DataFrame topic response s page in
  let failed := (page ++ [Note generating; Error generation_failed])%list in
  (session_of r = s
   \/ exists df, Pandas.empty df = false /\ outcome_of r = Rerun
                 /\ session_of r = installed df s)
  /\ (forall text, response = Ok text ->
        json_loads (trim_fence text) = Raise JSONDecodeError ->
        bank = Ok None /\ r = (Done tt, s, failed))
  /\ (forall text mcq_list df, response = Ok text ->
        json_loads (trim_fence text) = Ok mcq_list ->
        pd_DataFrame mcq_list = Ok df -> Pandas.empty df = true ->
        r = (Done tt, s, failed))
  /\ (forall e, response = Raise e ->
        bank = Raise e
        /\ r = (Raised e, s, (page ++ [Note generating])%list)).
Proof.
  intros Ht Hl. cbv zeta. rewrite generate_handler_eq, Ht, Hl. simpl andb. cbv iota.
  split; [|split; [|split]].
  - destruct (generate_question_bank _ _ _ _ _) as [[df|]|e]; try by left.
    destruct (Pandas.empty df) eqn:Hne; [by left|]. right. by exists df.
  - intros text -> Hj. unfold generate_question_bank. by rewrite Hj.
  - intros text mcq_list df -> Hj Hd He. unfold generate_question_bank.
    rewrite Hj, Hd. simpl. by rewrite He.
  - by intros e ->.
Qed.

Lemma failed_generation_keeps_session_witness :
  generate_handler Json.loads Pandas.DataFrame_of "geography"
    (Ok "Sorry, I cannot help with that.") level_session script_header
  = (Done tt, level_session,
     (script_header ++ [Note generating; Error generation_failed])%list).
Proof.
  destruct (failed_generation_keeps_session Json.loads Pandas.DataFrame_of
              "geography" (Ok "Sorry, I cannot help with that.") level_session
              script_header eq_refl eq_refl) as (_ & Hcaught & _).
  apply (Hcaught "Sorry, I cannot help with that." eq_refl). by vm_compute.
Defined.

(** * Beyond the claims *)

(** ** Clicks that are not on the question page *)

Lemma display_mcq_None_session s page :
  session_of (display_mcq None s page) = s.
Proof.
  destruct (mcq_df s) as [df|] eqn:Hdf.
  2:{ by rewrite display_mcq_no_bank by (unfold no_bank; by rewrite Hdf). }
  destruct (Pandas.empty df) eqn:Hne.
  { by rewrite display_mcq_no_bank by (unfold no_bank; by rewrite Hdf). }
  by rewrite (display_mcq_None _ _ _ Hdf Hne).
Qed.

Lemma display_mcq_idle click s page :
  idle_click click (current_index s) ->
  display_mcq click s page = display_mcq None s page.
Proof.
  intros Hidle.
  destruct (mcq_df s) as [df|] eqn:Hdf.
  2:{ by rewrite !display_mcq_no_bank by (unfold no_bank; by rewrite Hdf). }
  destruct (Pandas.empty df) eqn:Hne.
  { by rewrite !display_mcq_no_bank by (unfold no_bank; by rewrite Hdf). }
  rewrite !(display_mcq_loaded _ _ _ _ Hdf Hne).
  destruct (question_of df (current_index s)) as [[[q m] options]|e]; [|done].
  cbv zeta. destruct (valid_options options) as [opts|e]; [|done].
  by apply quiz_buttons_idle.
Qed.

(** X1. The Save button does nothing: in any session and on any page, a run
    in which Save was clicked (for any position) draws the same page, ends
    the same way and leaves the same session as a run with no click, which
    leaves the session as it was. *)
Theorem save_button_is_a_no_op (s : Session) (page : list ui) (i : Z) :
  display_mcq (Some (BtnSave i)) s page = display_mcq None s page
  /\ session_of (display_mcq (Some (BtnSave i)) s page) = s.
Proof.
  assert (H : display_mcq (Some (BtnSave i)) s page = display_mcq None s page).
  { apply display_mcq_idle. repeat split; congruence. }
  split; [done|]. rewrite H. apply display_mcq_None_session.
Qed.

Lemma quiz_buttons_move click df index options s page :
  index = current_index s ->
  click = Some BtnPrev \/ click = Some BtnNext ->
  session_of (quiz_buttons click df index options s page) = s
  \/ exists i, session_of (quiz_buttons click df index options s page)
               = with_current_index i s.
Proof.
  intros -> Hclick. unfold quiz_buttons.
  rewrite bind_eq, option_buttons_idle, option_buttons_None
    by (intros o; destruct Hclick; congruence).
  destruct (draw_all (map _ options) page) as [[[]|e|] pa]; cbn [fst snd];
    [|by left..].
  rewrite bind_eq, reset_and_save_eq. cbv zeta.
  rewrite bool_decide_eq_false_2 by (destruct Hclick; congruence). cbn [andb].
  destruct (draw_all [_; _] pa) as [[[]|e|] pb]; cbn [fst snd]; [|by left..].
  rewrite navigation_eq. cbv zeta.
  destruct (_ && _ && _); [right; by eexists|].
  destruct (_ && _ && _); [right; by eexists|]. by left.
Qed.

(** X2. Only an option button or Reset changes the saved answers: a run of
    the question page with any other click (Previous, Next, Save, a level,
    Generate, Submit, or none) leaves the saved answers, the bank and the
    level as they were, however the run ends. *)
Theorem only_answer_buttons_change_answers (click : option widget)
    (s : Session) (page : list ui) :
  (forall w, click = Some w -> ~ answer_button w) ->
  let s' := session_of (display_mcq click s page) in
  saved_answers s' = saved_answers s
  /\ mcq_df s' = mcq_df s
  /\ selected_level s' = selected_level s.
Proof.
  intros Hclick. cbv zeta.
  destruct (decide (click = Some BtnPrev \/ click = Some BtnNext)) as [Hnav|Hnav].
  - destruct (mcq_df s) as [df|] eqn:Hdf.
    2:{ rewrite display_mcq_no_bank by (unfold no_bank; by rewrite Hdf).
        by rewrite <- Hdf. }
    destruct (Pandas.empty df) eqn:Hne.
    { rewrite display_mcq_no_bank by (unfold no_bank; by rewrite Hdf).
      by rewrite <- Hdf. }
    rewrite (display_mcq_loaded _ _ _ _ Hdf Hne), <- Hdf.
    destruct (question_of df (current_index s)) as [[[q m] options]|e]; [|done].
    cbv zeta. destruct (valid_options options) as [opts|e]; [|done].
    destruct (quiz_buttons_move click df (current_index s) opts s
                (page ++ question_view (current_index s) q m) eq_refl Hnav)
      as [-> | [i ->]]; done.
  - rewrite display_mcq_idle, display_mcq_None_session; [done|].
    destruct click as [w|]; [|repeat split; congruence].
    specialize (Hclick w eq_refl).
    destruct w; simpl in Hclick; try done; repeat split; try congruence; tauto.
Qed.

Lemma only_answer_buttons_change_answers_witness :
  saved_answers
    (session_of (display_mcq (Some BtnNext) sample_session script_header))
  = saved_answers sample_session.
Proof.
  apply (only_answer_buttons_change_answers (Some BtnNext) sample_session
           script_header).
  intros w [= <-]. exact (fun H => H).
Defined.

(** ** Moving forth and back *)

Lemma with_current_index_id s : with_current_index (current_index s) s = s.
Proof. by destruct s. Qed.

(** X3. Next followed by Previous comes back: from a question that is not
    the last one, when both its page and the page of the next question are
    drawn without an error, clicking Next moves to the next position and
    clicking Previous there restores the very same session. *)
Theorem next_then_previous_returns (s : Session) (page page' p p' : list ui)
    (df : DataFrame) :
  mcq_df s = Some df -> Pandas.empty df = false ->
  0 <= current_index s < Pandas.len df - 1 ->
  display_mcq None s page = (Done tt, s, p) ->
  let s1 := session_of (display_mcq (Some BtnNext) s page) in
  display_mcq None s1 page' = (Done tt, s1, p') ->
  current_index s1 = current_index s + 1
  /\ saved_answers s1 = saved_answers s
  /\ session_of (display_mcq (Some BtnPrev) s1 page') = s.
Proof.
  intros Hdf Hne Hi Hp. cbv zeta.
  assert (Hlt : (current_index s <? Pandas.len df - 1) = true)
    by (apply Z.ltb_lt; lia).
  assert (H1 : session_of (display_mcq (Some BtnNext) s page)
               = with_current_index (current_index s + 1) s).
  { destruct (display_mcq_click (Some BtnNext) _ _ _ _ Hdf Hne Hp) as [_ ->].
    unfold navigator. by rewrite Hdf, Hlt. }
  rewrite H1. set (s1 := with_current_index (current_index s + 1) s).
  intros Hp1.
  destruct (display_mcq_click (Some BtnPrev) s1 page' df p') as [_ ->]; [done..|].
  unfold navigator. change (mcq_df s1) with (mcq_df s). rewrite Hdf.
  change (current_index s1) with (current_index s + 1).
  assert (Hpos : (0 <? current_index s + 1) = true) by (apply Z.ltb_lt; lia).
  rewrite Hpos. cbn [snd]. split; [done|]. split; [done|].
  unfold with_current_index, s1. simpl.
  replace (current_index s + 1 - 1) with (current_index s) by lia.
  by destruct s.
Qed.

Lemma next_then_previous_returns_witness :
  session_of
    (display_mcq (Some BtnPrev)
       (session_of (display_mcq (Some BtnNext) sample_session script_header))
       script_header)
  = sample_session.
Proof.
  eapply (next_then_previous_returns sample_session script_header script_header
            _ _ sample_bank eq_refl eq_refl).
  - by vm_compute.
  - by vm_compute.
  - by vm_compute.
Defined.

(** ** Rows that lack a field *)

Lemma iloc_labels df i row :
  Pandas.iloc df i = Ok row -> labels row = columns df.
Proof.
  unfold Pandas.iloc. destruct (_ && _).
  - destruct (nth_error _ _); [|discriminate]. by intros [= <-].
  - destruct (_ && _); [|discriminate].
    destruct (nth_error _ _); [|discriminate]. by intros [= <-].
Qed.

(** X4. A bank without the question column, or with it but without the
    language column, cannot be shown: whatever is clicked, [display_mcq]
    ends with the [KeyError] of the first missing column, draws nothing and
    leaves the session as it was. *)
Theorem missing_column_raises_KeyError (click : option widget) (s : Session)
    (page : list ui) (df : DataFrame) (row : Series) :
  mcq_df s = Some df -> Pandas.empty df = false ->
  Pandas.iloc df (current_index s) = Ok row ->
  (Pandas.has_label "question" (columns df)
   && Pandas.has_label "language" (columns df)) = false ->
  let key := if Pandas.has_label "question" (columns df)
             then "language" else "question" in
  display_mcq click s page = (Raised (KeyError key), s, page).
Proof.
  intros Hdf Hne Hrow Hcols. cbv zeta.
  rewrite (display_mcq_loaded _ _ _ _ Hdf Hne). unfold question_of.
  rewrite Hrow. unfold Pandas.getitem. rewrite (iloc_labels _ _ _ Hrow).
  destruct (Pandas.has_label "question" (columns df)); [|done].
  simpl in Hcols. by rewrite Hcols.
Qed.

Lemma missing_column_raises_KeyError_witness :
  display_mcq None (installed no_language_bank initial_session) script_header
  = (Raised (KeyError "language"), installed no_language_bank initial_session,
     script_header).
Proof.
  eapply (missing_column_raises_KeyError None
            (installed no_language_bank initial_session) script_header
            no_language_bank _ eq_refl eq_refl).
  - by vm_compute.
  - by vm_compute.
Defined.

(** X5. A question whose text is not a string cannot be shown: with both
    columns present, [re.search] raises [TypeError] before anything is
    drawn, whatever is clicked, and the session is left as it was. *)
Theorem non_string_question_raises_TypeError (click : option widget)
    (s : Session) (page : list ui) (df : DataFrame) (row : Series) :
  mcq_df s = Some df -> Pandas.empty df = false ->
  Pandas.iloc df (current_index s) = Ok row ->
  Pandas.has_label "question" (columns df) = true ->
  Pandas.has_label "language" (columns df) = true ->
  (forall t, Pandas.cell "question" row ≠ PStr t) ->
  display_mcq click s page = (Raised TypeError, s, page).
Proof.
  intros Hdf Hne Hrow Hq Hl Hns.
  rewrite (display_mcq_loaded _ _ _ _ Hdf Hne). unfold question_of.
  rewrite Hrow. unfold Pandas.getitem. rewrite (iloc_labels _ _ _ Hrow), Hq, Hl.
  destruct (Pandas.cell "question" row) as [| | | |t| |] eqn:Hc; try done.
  by destruct (Hns t).
Qed.

Lemma non_string_question_raises_TypeError_witness :
  display_mcq None (installed numeric_question_bank initial_session)
    script_header
  = (Raised TypeError, installed numeric_question_bank initial_session,
     script_header).
Proof.
  eapply (non_string_question_raises_TypeError None
            (installed numeric_question_bank initial_session) script_header
            numeric_question_bank _ eq_refl eq_refl).
  - by vm_compute.
  - by vm_compute.
  - by vm_compute.
  - by vm_compute.
Defined.

(** ** Submitting at the edges *)

Lemma rows_from_index df rs : forall k i row,
  (i, row) ∈ Pandas.rows_from df k rs ->
  k <= i < k + Z.of_nat (length rs) /\ labels row = columns df.
Proof.
  induction rs as [|r rs IH]; intros k i row H; simpl in H.
  { by apply elem_of_nil in H. }
  apply elem_of_cons in H as [[= -> ->]|H].
  - simpl. split; [lia|done].
  - apply IH in H as [H1 H2]. simpl length. split; [lia|done].
Qed.

Lemma rows_from_covers df rs : forall k i,
  k <= i < k + Z.of_nat (length rs) ->
  exists r, (i, Pandas.row_of df r) ∈ Pandas.rows_from df k rs.
Proof.
  induction rs as [|r rs IH]; intros k i Hi; simpl in *; [lia|].
  destruct (decide (i = k)) as [->|Hne].
  - exists r. apply elem_of_cons. by left.
  - destruct (IH (k + 1) i) as [r' Hr']; [lia|].
    exists r'. apply elem_of_cons. by right.
Qed.

Lemma count_correct_unanswered rows (saved : gmap Z string) :
  (forall i row, (i, row) ∈ rows -> saved !! i = None) ->
  count_correct rows saved = Ok 0.
Proof.
  induction rows as [|[i row] rows IH]; intros H; simpl; [done|].
  rewrite (H i row) by (apply elem_of_cons; by left).
  apply IH. intros j r Hj. apply (H j r). apply elem_of_cons. by right.
Qed.

Lemma show_incorrect_unanswered rows (saved : gmap Z string) s page :
  (forall i row, (i, row) ∈ rows -> saved !! i = None) ->
  show_incorrect rows saved s page = (Done tt, s, page).
Proof.
  revert s page. induction rows as [|[i row] rows IH]; intros s page H; simpl;
    [done|].
  rewrite (H i row) by (apply elem_of_cons; by left).
  rewrite bind_eq. unfold mret, M_ret, ret. cbn [fst snd].
  apply IH. intros j r Hj. apply (H j r). apply elem_of_cons. by right.
Qed.

(** X6. Submitting with no answer given for any question of the bank: the
    score is 0 out of the number of questions, nothing is listed as
    incorrect, the run ends normally and the session is cleared.  This needs
    no answer or question column: a row without a saved answer is never
    looked into.  Answers saved under positions outside the bank are
    ignored. *)
Theorem submit_unanswered_scores_zero (s : Session) (page : list ui)
    (df : DataFrame) :
  mcq_df s = Some df -> Pandas.empty df = false ->
  (forall i, 0 <= i < Pandas.len df -> saved_answers s !! i = None) ->
  submit_test s page =
    (Done tt, cleared s,
     (page ++ [Success 0 (Pandas.len df); IncorrectHeading])%list).
Proof.
  intros Hdf Hne Hnone.
  assert (Hrows : forall i row, (i, row) ∈ Pandas.iterrows df ->
                                saved_answers s !! i = None).
  { intros i row [Hi _]%rows_from_index. apply Hnone. unfold Pandas.len. lia. }
  unfold submit_test. rewrite bind_eq. unfold get_session at 1.
  rewrite Hdf, Hne, bind_eq, lift_eq, (count_correct_unanswered _ _ Hrows).
  munfold. rewrite (show_incorrect_unanswered _ _ _ _ Hrows).
  by rewrite <- app_assoc.
Qed.

Lemma submit_unanswered_scores_zero_witness :
  submit_test (installed no_answer_bank initial_session) []
  = (Done tt, cleared (installed no_answer_bank initial_session),
     [Success 0 1; IncorrectHeading]).
Proof.
  apply (submit_unanswered_scores_zero (installed no_answer_bank initial_session)
           [] no_answer_bank eq_refl eq_refl).
  intros i _. apply lookup_empty.
Defined.

Lemma count_correct_no_answer_column rows (saved : gmap Z string) cols :
  Pandas.has_label "answer" cols = false ->
  (forall i row, (i, row) ∈ rows -> labels row = cols) ->
  (exists i row, (i, row) ∈ rows /\ is_Some (saved !! i)) ->
  count_correct rows saved = Raise (KeyError "answer").
Proof.
  intros Hcol. induction rows as [|[i row] rows IH]; intros Hl (j & r & Hin & Hs).
  { by apply elem_of_nil in Hin. }
  simpl. destruct (saved !! i) as [given|] eqn:Hi.
  - unfold Pandas.getitem. rewrite (Hl i row) by (apply elem_of_cons; by left).
    by rewrite Hcol.
  - apply IH.
    + intros k r' Hk. apply (Hl k r'). apply elem_of_cons. by right.
    + apply elem_of_cons in Hin as [[= -> ->]|Hin].
      * rewrite Hi in Hs. by destruct Hs.
      * by exists j, r.
Qed.

(** X7. A bank without the answer column cannot be scored once an answer is
    saved for one of its questions: [submit_test] ends with
    [KeyError: 'answer'] before anything is drawn, and the session is not
    cleared: bank, position and answers stay as they were. *)
Theorem submit_without_answer_column_raises (s : Session) (page : list ui)
    (df : DataFrame) (i : Z) (given : string) :
  mcq_df s = Some df -> Pandas.empty df = false ->
  Pandas.has_label "answer" (columns df) = false ->
  0 <= i < Pandas.len df -> saved_answers s !! i = Some given ->
  submit_test s page = (Raised (KeyError "answer"), s, page).
Proof.
  intros Hdf Hne Hcol Hi Hs.
  unfold submit_test. rewrite bind_eq. unfold get_session at 1.
  rewrite Hdf, Hne, bind_eq, lift_eq.
  rewrite (count_correct_no_answer_column _ _ (columns df) Hcol); [done| |].
  - by intros j row [_ Hl]%rows_from_index.
  - destruct (rows_from_covers df (records df) 0 i) as [r Hr].
    { unfold Pandas.len in Hi. lia. }
    exists i, (Pandas.row_of df r). split; [done|]. by rewrite Hs.
Qed.

Lemma submit_without_answer_column_raises_witness :
  let s := with_saved_answers (<[0 := "a"]> ∅)
             (installed no_answer_bank initial_session) in
  submit_test s [] = (Raised (KeyError "answer"), s, []).
Proof.
  cbv zeta.
  apply (submit_without_answer_column_raises
           (with_saved_answers (<[0 := "a"]> ∅)
              (installed no_answer_bank initial_session))
           [] no_answer_bank 0 "a" eq_refl eq_refl eq_refl).
  - by vm_compute.
  - by vm_compute.
Defined.

Lemma count_correct_bounds rows (saved : gmap Z string) : forall n,
  count_correct rows saved = Ok n -> 0 <= n <= Z.of_nat (length rows).
Proof.
  induction rows as [|[i row] rows IH]; intros n H; simpl in *.
  { injection H as <-. lia. }
  destruct (saved !! i) as [given|].
  - destruct (Pandas.getitem row "answer") as [a|e]; [|discriminate].
    destruct (count_correct rows saved) as [m|e]; [|discriminate].
    injection H as <-. specialize (IH m eq_refl).
    destruct (str_eq given a); lia.
  - specialize (IH n H). lia.
Qed.

Lemma rows_from_length df rs : forall k,
  length (Pandas.rows_from df k rs) = length rs.
Proof. induction rs as [|r rs IH]; intros k; simpl; [done|]. by rewrite IH. Qed.

Lemma count_correct_ext rows (saved saved' : gmap Z string) :
  (forall i row, (i, row) ∈ rows -> saved !! i = saved' !! i) ->
  count_correct rows saved = count_correct rows saved'.
Proof.
  induction rows as [|[i row] rows IH]; intros H; simpl; [done|].
  rewrite <- (H i row) by (apply elem_of_cons; by left).
  rewrite IH; [done|].
  intros j r Hj. apply (H j r). apply elem_of_cons. by right.
Qed.

Lemma count_correct_answered df rs : forall k (saved : gmap Z string) n,
  count_correct (Pandas.rows_from df k rs) saved = Ok n ->
  n <= Z.of_nat (size saved).
Proof.
  induction rs as [|r rs IH]; intros k saved n H; simpl in H.
  { injection H as <-. lia. }
  destruct (saved !! k) as [given|] eqn:Hk; [|by apply (IH (k + 1))].
  destruct (Pandas.getitem _ "answer") as [a|e]; [|discriminate].
  rewrite (count_correct_ext _ saved (delete k saved)) in H.
  2:{ intros i row [Hi _]%rows_from_index. rewrite lookup_delete_ne; [done|lia]. }
  destruct (count_correct _ (delete k saved)) as [m|e] eqn:Hm; [|discriminate].
  injection H as <-. apply IH in Hm.
  rewrite map_size_delete_Some in Hm by by rewrite Hk.
  assert (size saved ≠ 0%nat).
  { intros H0. apply map_size_empty_inv in H0. subst saved.
    by rewrite lookup_empty in Hk. }
  destruct (str_eq given a); lia.
Qed.

(** X8. Whenever the score can be computed, [submit_test] draws it with the
    number of questions as the total, after the page as it was; the score
    is between 0 and that total, and is at most the number of answers
    saved; and the session is cleared whatever happens in the report. *)
Theorem score_is_within_total (s : Session) (page : list ui) (df : DataFrame)
    (n : Z) :
  mcq_df s = Some df -> Pandas.empty df = false ->
  count_correct (Pandas.iterrows df) (saved_answers s) = Ok n ->
  0 <= n <= Pandas.len df
  /\ n <= Z.of_nat (size (saved_answers s))
  /\ session_of (submit_test s page) = cleared s
  /\ exists rest,
       page_of (submit_test s page) =
         (page ++ Success n (Pandas.len df) :: IncorrectHeading :: rest)%list.
Proof.
  intros Hdf Hne Hn.
  pose proof (count_correct_bounds _ _ _ Hn) as Hb.
  unfold Pandas.iterrows in Hb. rewrite rows_from_length in Hb.
  split; [done|]. split; [by eapply count_correct_answered|].
  remember (submit_test s page) as r eqn:Hr.
  unfold submit_test in Hr. rewrite bind_eq in Hr. unfold get_session at 1 in Hr.
  rewrite Hdf, Hne, bind_eq, lift_eq, Hn in Hr. munfold. subst r. split.
  - apply show_incorrect_session.
  - destruct (show_incorrect_grows (Pandas.iterrows df) (saved_answers s)
                (cleared s)
                ((page ++ [Success n (Pandas.len df)]) ++ [IncorrectHeading])%list)
      as [rest Hrest].
    exists rest. etransitivity; [exact Hrest|]. by rewrite <- !app_assoc.
Qed.

Lemma score_is_within_total_witness :
  0 <= 1 <= Pandas.len sample_bank
  /\ 1 <= Z.of_nat (size (saved_answers sample_session)).
Proof.
  destruct (score_is_within_total sample_session [] sample_bank 1
              eq_refl eq_refl) as (H1 & H2 & _).
  - by vm_compute.
  - exact (conj H1 H2).
Defined.

(** ** The code fence around a reply (lines 59-62) *)

Lemma append_empty t : EmptyString +:+ t = t.
Proof. reflexivity. Qed.

Lemma append_String a s t : String a s +:+ t = String a (s +:+ t).
Proof. reflexivity. Qed.

Lemma rstrip_chars_app cs s t :
  PyStr.rstrip_chars cs (s +:+ t) =
    if PyStr.is_empty (PyStr.rstrip_chars cs t)
    then PyStr.rstrip_chars cs s
    else s +:+ PyStr.rstrip_chars cs t.
Proof.
  induction s as [|a s IH]; rewrite ?append_empty, ?append_String.
  - by destruct (PyStr.rstrip_chars cs t).
  - simpl. rewrite IH.
    destruct (PyStr.is_empty (PyStr.rstrip_chars cs t)) eqn:Ht; [done|].
    rewrite ?append_String.
    destruct (s +:+ PyStr.rstrip_chars cs t) eqn:Hs; [|done].
    destruct s; [|discriminate]. rewrite append_empty in Hs.
    by rewrite Hs in Ht.
Qed.

Lemma rstrip_app s t :
  PyStr.rstrip (s +:+ t) =
    if PyStr.is_empty (PyStr.rstrip t) then PyStr.rstrip s
    else s +:+ PyStr.rstrip t.
Proof.
  induction s as [|a s IH]; rewrite ?append_empty, ?append_String.
  - by destruct (PyStr.rstrip t).
  - simpl. rewrite IH.
    destruct (PyStr.is_empty (PyStr.rstrip t)) eqn:Ht; [done|].
    rewrite ?append_String.
    destruct (s +:+ PyStr.rstrip t) eqn:Hs; [|done].
    destruct s; [|discriminate]. rewrite append_empty in Hs.
    by rewrite Hs in Ht.
Qed.

Lemma lstrip_app_newline s :
  PyStr.lstrip (s +:+ String "010" EmptyString) =
    if PyStr.is_empty (PyStr.lstrip s) then EmptyString
    else PyStr.lstrip s +:+ String "010" EmptyString.
Proof.
  induction s as [|a s IH]; rewrite ?append_empty, ?append_String; [done|].
  simpl. by destruct (PyStr.isspace a).
Qed.

Lemma strip_between_newlines body :
  PyStr.strip (String "010" (body +:+ String "010" EmptyString))
  = PyStr.strip body.
Proof.
  unfold PyStr.strip.
  change (PyStr.lstrip (String "010" (body +:+ String "010" EmptyString)))
    with (PyStr.lstrip (body +:+ String "010" EmptyString)).
  rewrite lstrip_app_newline.
  destruct (PyStr.lstrip body) as [|c l] eqn:Hl; [done|].
  cbn [PyStr.is_empty]. by rewrite rstrip_app.
Qed.

(** What is left between the fences: the body between its two newlines. *)
Lemma rstrip_chars_closing_fence cs body :
  PyStr.mem "010" cs = false -> PyStr.mem "`" cs = true ->
  PyStr.rstrip_chars cs
    (String "010" (body +:+ String "010" EmptyString +:+ "```"))
  = String "010" (body +:+ String "010" EmptyString).
Proof.
  intros Hnl Hbt.
  change (String "010" (body +:+ String "010" EmptyString +:+ "```"))
    with (String "010" body +:+ String "010" "```").
  rewrite rstrip_chars_app.
  assert (Ht : PyStr.rstrip_chars cs (String "010" "```")
               = String "010" EmptyString).
  { simpl. by rewrite Hbt, Hnl. }
  rewrite Ht. cbn [PyStr.is_empty]. by rewrite append_String.
Qed.

Lemma rstrip_chars_newline_end cs body :
  PyStr.mem "010" cs = false ->
  PyStr.rstrip_chars cs (String "010" (body +:+ String "010" EmptyString))
  = String "010" (body +:+ String "010" EmptyString).
Proof.
  intros Hnl.
  change (String "010" (body +:+ String "010" EmptyString))
    with (String "010" body +:+ String "010" EmptyString).
  assert (Ht : PyStr.rstrip_chars cs (String "010" EmptyString)
               = String "010" EmptyString).
  { simpl. by rewrite Hnl. }
  by rewrite rstrip_chars_app, Ht.
Qed.

Lemma is_empty_app s c t : PyStr.is_empty (s +:+ String c t) = false.
Proof. by destruct s. Qed.

(** A fenced reply has no whitespace around it. *)
Lemma strip_fenced p body :
  PyStr.strip (String "`" (p +:+ body +:+ String "010" "```"))
  = String "`" (p +:+ body +:+ String "010" "```").
Proof.
  unfold PyStr.strip. simpl PyStr.lstrip.
  change (String "`" (p +:+ body +:+ String "010" "```"))
    with (String "`" p +:+ body +:+ String "010" "```").
  rewrite rstrip_app, rstrip_app.
  change (PyStr.rstrip (String "010" "```")) with (String "010" "```").
  cbn [PyStr.is_empty]. by rewrite is_empty_app.
Qed.

Lemma trim_fence_unwraps_fenced_reply_aux (body : string) :
  let nl := String "010" EmptyString in
  trim_fence ("```json" +:+ nl +:+ body +:+ nl +:+ "```") = PyStr.strip body
  /\ trim_fence ("```" +:+ nl +:+ body +:+ nl +:+ "```") = PyStr.strip body.
Proof.
  cbv zeta. split.
  - unfold trim_fence.
    change ("```json" +:+ String "010" EmptyString +:+ body
            +:+ String "010" EmptyString +:+ "```")
      with (String "`" (String "`" (String "`" (String "j" (String "s"
             (String "o" (String "n" (String "010" EmptyString))))))
                        +:+ body +:+ String "010" "```")).
    rewrite strip_fenced.
    change (String "`" (String "`" (String "`" (String "j" (String "s"
             (String "o" (String "n" (String "010" EmptyString))))))
                        +:+ body +:+ String "010" "```"))
      with ("```json" +:+ String "010" (body +:+ String "010" EmptyString +:+ "```")).
    change (PyStr.startswith "```json"
              ("```json" +:+ String "010" (body +:+ String "010" EmptyString +:+ "```")))
      with true.
    cbn [orb]. unfold PyStr.strip_chars at 2.
    change (PyStr.lstrip_chars "```json"
              ("```json" +:+ String "010" (body +:+ String "010" EmptyString +:+ "```")))
      with (String "010" (body +:+ String "010" EmptyString +:+ "```")).
    rewrite rstrip_chars_closing_fence by done.
    unfold PyStr.strip_chars.
    change (PyStr.lstrip_chars "```" (String "010" (body +:+ String "010" EmptyString)))
      with (String "010" (body +:+ String "010" EmptyString)).
    rewrite rstrip_chars_newline_end by done.
    apply strip_between_newlines.
  - unfold trim_fence.
    change ("```" +:+ String "010" EmptyString +:+ body
            +:+ String "010" EmptyString +:+ "```")
      with (String "`" (String "`" (String "`" (String "010" EmptyString))
                        +:+ body +:+ String "010" "```")).
    rewrite strip_fenced.
    change (String "`" (String "`" (String "`" (String "010" EmptyString))
                        +:+ body +:+ String "010" "```"))
      with ("```" +:+ String "010" (body +:+ String "010" EmptyString +:+ "```")).
    change (PyStr.startswith "```json"
              ("```" +:+ String "010" (body +:+ String "010" EmptyString +:+ "```")))
      with false.
    change (PyStr.startswith "```"
              ("```" +:+ String "010" (body +:+ String "010" EmptyString +:+ "```")))
      with true.
    cbn [orb]. unfold PyStr.strip_chars at 2.
    change (PyStr.lstrip_chars "```json"
              ("```" +:+ String "010" (body +:+ String "010" EmptyString +:+ "```")))
      with (String "010" (body +:+ String "010" EmptyString +:+ "```")).
    rewrite rstrip_chars_closing_fence by done.
    unfold PyStr.strip_chars.
    change (PyStr.lstrip_chars "```" (String "010" (body +:+ String "010" EmptyString)))
      with (String "010" (body +:+ String "010" EmptyString)).
    rewrite rstrip_chars_newline_end by done.
    apply strip_between_newlines.
Qed.

(** X9. A reply wrapped in a code fence on lines of its own, with the tag
    [json] or with no tag, is unwrapped to its body, stripped of the
    whitespace around it, whatever the body is. *)
Theorem trim_fence_unwraps_fenced_reply (body : string) :
  let nl := String "010" EmptyString in
  trim_fence ("```json" +:+ nl +:+ body +:+ nl +:+ "```") = PyStr.strip body
  /\ trim_fence ("```" +:+ nl +:+ body +:+ nl +:+ "```") = PyStr.strip body.
Proof. apply trim_fence_unwraps_fenced_reply_aux. Qed.

Lemma startswith_json_fence s :
  PyStr.startswith "```json" s = true -> PyStr.startswith "```" s = true.
Proof.
  destruct s as [|a [|b [|c s]]]; simpl; rewrite ?andb_false_r; try done.
  intros H. apply andb_true_iff in H as [-> H].
  apply andb_true_iff in H as [-> H].
  by apply andb_true_iff in H as [-> _].
Qed.

Lemma trim_fence_plain text :
  PyStr.startswith "```" (PyStr.strip text) = false ->
  trim_fence text = PyStr.strip text.
Proof.
  intros H. unfold trim_fence.
  destruct (PyStr.startswith "```json" (PyStr.strip text)) eqn:Hj.
  - apply startswith_json_fence in Hj. congruence.
  - by rewrite H.
Qed.

(** X10. Wrapping a reply in a [json] code fence (or a bare one) on lines of
    its own does not change what is generated from it: the generator gives
    the same result, bank or error, as for the bare reply, provided the bare
    reply does not itself begin with a fence. *)
Theorem fenced_reply_generates_the_same
    (json_loads : string -> result pyval)
    (pd_DataFrame : pyval -> result DataFrame) (topic level body : string) :
  PyStr.startswith "```" (PyStr.strip body) = false ->
  let nl := String "010" EmptyString in
  let generate := generate_question_bank json_loads pd_DataFrame topic level in
  generate (Ok ("```json" +:+ nl +:+ body +:+ nl +:+ "```")) = generate (Ok body)
  /\ generate (Ok ("```" +:+ nl +:+ body +:+ nl +:+ "```")) = generate (Ok body).
Proof.
  intros Hplain. cbv zeta. unfold generate_question_bank.
  destruct (trim_fence_unwraps_fenced_reply_aux body) as [-> ->].
  by rewrite (trim_fence_plain _ Hplain).
Qed.

Lemma fenced_reply_generates_the_same_witness :
  generate_question_bank Json.loads Pandas.DataFrame_of "geography" "Beginner"
    (Ok ("```json" +:+ String "010" EmptyString +:+ short_reply
         +:+ String "010" EmptyString +:+ "```"))
  = Ok (Some short_bank).
Proof.
  rewrite (proj1 (fenced_reply_generates_the_same Json.loads Pandas.DataFrame_of
                    "geography" "Beginner" short_reply eq_refl)).
  by vm_compute.
Defined.

(** X11. Only [json.JSONDecodeError] is caught: any other exception raised
    while the reply is decoded or the table is built leaves the generator,
    and the handler with it: the run ends with that exception, after the
    note that MCQs are being generated, with no error message and with the
    session as it was. *)
Theorem other_exceptions_leave_the_generator
    (json_loads : string -> result pyval)
    (pd_DataFrame : pyval -> result DataFrame) (topic text : string)
    (e : exn) (s : Session) (page : list ui) :
  e ≠ JSONDecodeError ->
  (json_loads (trim_fence text) = Raise e
   \/ exists mcq_list, json_loads (trim_fence text) = Ok mcq_list
                       /\ pd_DataFrame mcq_list = Raise e) ->
  PyStr.truthy topic = true -> level_chosen s = true ->
  generate_question_bank json_loads pd_DataFrame topic
    (default EmptyString (selected_level s)) (Ok text) = Raise e
  /\ generate_handler json_loads pd_DataFrame topic (Ok text) s page
     = (Raised e, s, (page ++ [Note generating])%list).
Proof.
  intros He Hfail Ht Hl.
  assert (Hg : generate_question_bank json_loads pd_DataFrame topic
                 (default EmptyString (selected_level s)) (Ok text) = Raise e).
  { unfold generate_question_bank, except_JSONDecodeError.
    destruct Hfail as [-> | (v & -> & ->)]; by destruct e. }
  split; [done|]. by rewrite generate_handler_eq, Ht, Hl, Hg.
Qed.

Lemma other_exceptions_leave_the_generator_witness :
  generate_handler Json.loads Pandas.DataFrame_of "geography" (Ok "5")
    level_session script_header
  = (Raised ValueError, level_session, (script_header ++ [Note generating])%list).
Proof.
  apply (other_exceptions_leave_the_generator Json.loads Pandas.DataFrame_of
           "geography" "5" ValueError level_session script_header).
  - discriminate.
  - right. exists (PInt 5). split; by vm_compute.
  - reflexivity.
  - by vm_compute.
Defined.

(** ** One run of the script, from the top *)

Lemma level_buttons_idle click levels : forall s page,
  (forall d, click ≠ Some (BtnLevel d)) ->
  level_buttons click levels s page =
    (fst (draw_all (map BtnLevel levels) page), s,
     snd (draw_all (map BtnLevel levels) page)).
Proof.
  induction levels as [|d levels IH]; intros s page H; simpl; [done|].
  munfold. rewrite (button_missed click) by apply H. rewrite button_None.
  destruct (on_page (BtnLevel d) page); [done|]. by apply IH.
Qed.

Lemma level_buttons_click d levels : forall s page,
  level_buttons (Some (BtnLevel d)) levels s page =
    let r := draw_all (map BtnLevel levels) page in
    (fst r,
     if on_page (BtnLevel d) (snd r) && negb (on_page (BtnLevel d) page)
     then with_level d s else s,
     snd r).
Proof.
  induction levels as [|d' levels IH]; intros s page; simpl.
  - destruct (on_page _ page); done.
  - munfold. destruct (decide (d = d')) as [->|Hne].
    + rewrite button_hit.
      destruct (on_page (BtnLevel d') page) eqn:Hon; simpl.
      { by rewrite Hon. }
      rewrite IH. simpl.
      rewrite (draw_all_grows _ _ (BtnLevel d')).
      2:{ rewrite on_page_app, on_page_button, bool_decide_eq_true_2 by done.
          apply orb_true_r. }
      rewrite on_page_app, on_page_button, bool_decide_eq_true_2 by done.
      by rewrite orb_true_r.
    + rewrite button_missed by congruence. rewrite button_None.
      destruct (on_page (BtnLevel d') page) eqn:Hon; simpl.
      { destruct (on_page (BtnLevel d) page); done. }
      rewrite IH. simpl.
      rewrite on_page_app, on_page_button, bool_decide_eq_false_2 by congruence.
      by rewrite orb_false_r.
Qed.

Lemma level_buttons_header click s :
  level_buttons click difficulty_levels s
    [Title; TextInput; Heading "### Select Difficulty"]
  = (Done tt, level_click click s,
     [Title; TextInput; Heading "### Select Difficulty";
      Button (BtnLevel "Beginner"); Button (BtnLevel "Intermediate");
      Button (BtnLevel "Advanced")]).
Proof.
  assert (Hd : draw_all (map BtnLevel difficulty_levels)
                 [Title; TextInput; Heading "### Select Difficulty"]
               = (Done tt,
                  ([Title; TextInput; Heading "### Select Difficulty"]
                   ++ map Button (map BtnLevel difficulty_levels))%list))
    by (by vm_compute).
  assert (Hidle : (forall d, click ≠ Some (BtnLevel d)) ->
            level_buttons click difficulty_levels s
              [Title; TextInput; Heading "### Select Difficulty"]
            = (Done tt, s,
               [Title; TextInput; Heading "### Select Difficulty";
                Button (BtnLevel "Beginner"); Button (BtnLevel "Intermediate");
                Button (BtnLevel "Advanced")])).
  { intros H. by rewrite level_buttons_idle, Hd. }
  destruct click as [[d| | | | | | |]|]; try (by apply Hidle).
  rewrite level_buttons_click. cbv zeta. rewrite Hd. cbn [fst snd].
  rewrite on_page_app, on_page_buttons. unfold level_click.
  change (on_page (BtnLevel d) [Title; TextInput; Heading "### Select Difficulty"])
    with false.
  cbn [orb negb]. rewrite andb_true_r.
  assert (bool_decide (BtnLevel d ∈ map BtnLevel difficulty_levels)
          = bool_decide (d ∈ difficulty_levels)) as ->; [|done].
  apply bool_decide_ext. split.
  - by intros (d' & [= ->] & H)%list_elem_of_fmap.
  - intros H. apply list_elem_of_fmap. eauto.
Qed.

(** The script after its header: the session is what the level buttons left,
    the page holds the title, the input, the level buttons and Generate. *)
Lemma script_eq json_loads pd_DataFrame topic click response s :
  script json_loads pd_DataFrame topic click response s [] =
    (when (bool_decide (click = Some BtnGenerate))
          (generate_handler json_loads pd_DataFrame topic response);;
     s' ← get_session;
     when (bool_decide (mcq_df s' ≠ None)) (display_mcq click);;
     b ← button click BtnSubmit;
     when b submit_test) (level_click click s) script_header.
Proof.
  unfold script.
  do 3 (rewrite bind_eq; unfold draw at 1; cbn [app]).
  rewrite bind_eq, level_buttons_header.
  rewrite bind_eq. unfold button at 1.
  change (on_page BtnGenerate _) with false. cbv iota.
  done.
Qed.

Lemma draw_all_ends ws : forall page, fst (draw_all ws page) ≠ Rerun.
Proof.
  induction ws as [|w ws IH]; intros page; simpl; [done|].
  destruct (on_page w page); [done|]. apply IH.
Qed.

Lemma draw_all_extends ws : forall page,
  exists rest, snd (draw_all ws page) = (page ++ rest)%list.
Proof.
  induction ws as [|w ws IH]; intros page; simpl.
  { exists []. by rewrite app_nil_r. }
  destruct (on_page w page).
  { exists []. by rewrite app_nil_r. }
  destruct (IH (page ++ [Button w])%list) as [rest ->].
  exists (Button w :: rest). by rewrite <- app_assoc.
Qed.

(** With nothing clicked the question page ends normally or with an
    exception, keeps the session and only adds to the page. *)
Lemma display_mcq_None_ends s page :
  exists o rest, display_mcq None s page = (o, s, (page ++ rest)%list)
                 /\ o ≠ Rerun.
Proof.
  destruct (mcq_df s) as [df|] eqn:Hdf.
  2:{ rewrite display_mcq_no_bank by (unfold no_bank; by rewrite Hdf).
      by eexists _, _. }
  destruct (Pandas.empty df) eqn:Hne.
  { rewrite display_mcq_no_bank by (unfold no_bank; by rewrite Hdf).
    by eexists _, _. }
  rewrite (display_mcq_None _ _ _ Hdf Hne). unfold quiz_view.
  destruct (question_of df (current_index s)) as [[[q m] options]|e].
  2:{ exists (Raised e), []. by rewrite app_nil_r. }
  cbv zeta. destruct (valid_options options) as [opts|e].
  2:{ by eexists _, _. }
  pose proof (draw_all_ends (quiz_widgets df (current_index s) opts)
                (page ++ question_view (current_index s) q m)) as Hend.
  destruct (draw_all_extends (quiz_widgets df (current_index s) opts)
              (page ++ question_view (current_index s) q m)) as [rest Hrest].
  destruct (draw_all _ _) as [[[]|e|] p2]; cbn [fst snd] in *; subst p2;
    [| |done].
  - eexists _, _. split; [|done]. by rewrite <- !app_assoc.
  - eexists _, _. split; [|done]. by rewrite <- !app_assoc.
Qed.

(** The rest of the script after the Generate button, in a run whose click
    is neither under the current question nor on Submit. *)
Lemma script_tail_idle click s page :
  idle_click click (current_index s) -> click ≠ Some BtnSubmit ->
  exists o rest,
    (s' ← get_session;
     when (bool_decide (mcq_df s' ≠ None)) (display_mcq click);;
     b ← button click BtnSubmit;
     when b submit_test) s page = (o, s, (page ++ rest)%list)
    /\ o ≠ Rerun.
Proof.
  intros Hidle Hsub. rewrite bind_eq. unfold get_session at 1.
  rewrite bind_eq.
  assert (Hshow : exists o rest,
            when (bool_decide (mcq_df s ≠ None)) (display_mcq click) s page
            = (o, s, (page ++ rest)%list) /\ o ≠ Rerun).
  { destruct (bool_decide (mcq_df s ≠ None)); simpl.
    - rewrite display_mcq_idle by done. apply display_mcq_None_ends.
    - exists (Done tt), []. by rewrite app_nil_r. }
  destruct Hshow as (o & rest & -> & Ho).
  destruct o as [[]|e|]; [|by eexists _, _|done].
  rewrite bind_eq, button_missed, button_None by done.
  destruct (on_page BtnSubmit (page ++ rest)); [by eexists _, _|].
  simpl. munfold. eexists _, _. split; [|done]. by rewrite <- app_assoc.
Qed.

Lemma with_level_current_index d s :
  current_index (with_level d s) = current_index s.
Proof. done. Qed.

(** X12. Clicking one of the three level buttons records that level and
    changes nothing else in the session (bank, position and saved answers
    stay), whatever the rest of the run does. *)
Theorem level_click_sets_only_the_level
    (json_loads : string -> result pyval)
    (pd_DataFrame : pyval -> result DataFrame) (topic : string)
    (response : result string) (s : Session) (d : string) :
  d ∈ difficulty_levels ->
  session_of (interaction json_loads pd_DataFrame topic (Some (BtnLevel d))
                response s)
  = with_level d s.
Proof.
  intros Hd. unfold interaction. rewrite script_eq.
  unfold level_click. rewrite (bool_decide_eq_true_2 (d ∈ _)) by done.
  rewrite (bool_decide_eq_false_2 (Some (BtnLevel d) = _)) by done.
  rewrite bind_eq. unfold when at 1. unfold mret, M_ret, ret at 1.
  destruct (script_tail_idle (Some (BtnLevel d)) (with_level d s) script_header)
    as (o & rest & -> & Ho); [repeat split; congruence | done |].
  by destruct o as [[]|e|].
Qed.

Lemma level_click_sets_only_the_level_witness :
  session_of (interaction Json.loads Pandas.DataFrame_of "geography"
                (Some (BtnLevel "Advanced")) (Raise ConnectionError)
                sample_session)
  = with_level "Advanced" sample_session.
Proof.
  apply (level_click_sets_only_the_level Json.loads Pandas.DataFrame_of
           "geography" (Raise ConnectionError) sample_session "Advanced").
  compute_done.
Defined.

(** X13. Generate with no topic typed or no level chosen only warns: the
    run shows the warning right after the Generate button, writes no
    generating note there, leaves the session as it was, and is the same
    whatever the model would have replied. *)
Theorem generate_needs_topic_and_level
    (json_loads : string -> result pyval)
    (pd_DataFrame : pyval -> result DataFrame) (topic : string)
    (response : result string) (s : Session) :
  PyStr.truthy topic && level_chosen s = false ->
  let r := interaction json_loads pd_DataFrame topic (Some BtnGenerate)
             response s in
  session_of r = s
  /\ (exists rest,
        page_of r = (script_header ++ Warning missing_input :: rest)%list)
  /\ forall response',
       interaction json_loads pd_DataFrame topic (Some BtnGenerate) response' s
       = r.
Proof.
  intros Hin. cbv zeta.
  assert (Hrun : forall response0,
            script json_loads pd_DataFrame topic (Some BtnGenerate) response0 s []
            = (s' ← get_session;
               when (bool_decide (mcq_df s' ≠ None))
                    (display_mcq (Some BtnGenerate));;
               b ← button (Some BtnGenerate) BtnSubmit;
               when b submit_test) s (script_header ++ [Warning missing_input])%list).
  { intros response0. rewrite script_eq. unfold level_click.
    rewrite bool_decide_eq_true_2 by done.
    rewrite bind_eq. unfold when at 1. by rewrite generate_handler_eq, Hin. }
  unfold interaction. rewrite Hrun.
  destruct (script_tail_idle (Some BtnGenerate) s
              (script_header ++ [Warning missing_input])%list)
    as (o & rest & Htail & Ho); [repeat split; congruence | done |].
  assert (Hr : forall response0,
            match script json_loads pd_DataFrame topic (Some BtnGenerate)
                    response0 s [] with
            | (Rerun, s', _) =>
                script json_loads pd_DataFrame topic None response0 s' []
            | r => r
            end = (o, s, ((script_header ++ [Warning missing_input]) ++ rest)%list)).
  { intros response0. rewrite Hrun, Htail. by destruct o as [[]|e|]. }
  rewrite <- Hrun with (response0 := response), (Hr response).
  split; [done|]. split.
  - exists rest. unfold page_of. cbn [snd]. by rewrite <- app_assoc.
  - intros response'. apply Hr.
Qed.

Lemma generate_needs_topic_and_level_witness :
  session_of (interaction Json.loads Pandas.DataFrame_of "geography"
                (Some BtnGenerate) (Ok short_reply) initial_session)
  = initial_session.
Proof.
  apply (generate_needs_topic_and_level Json.loads Pandas.DataFrame_of
           "geography" (Ok short_reply) initial_session).
  reflexivity.
Defined.

(** X14. A run in which no button is clicked (the page is only drawn again,
    as after typing in the topic field) leaves the whole session as it was,
    however the run ends. *)
Theorem run_without_click_keeps_session
    (json_loads : string -> result pyval)
    (pd_DataFrame : pyval -> result DataFrame) (topic : string)
    (response : result string) (s : Session) :
  session_of (interaction json_loads pd_DataFrame topic None response s) = s.
Proof.
  unfold interaction. rewrite script_eq. unfold level_click.
  rewrite bool_decide_eq_false_2 by done.
  rewrite bind_eq. unfold when at 1. unfold mret, M_ret, ret at 1.
  destruct (script_tail_idle None s script_header)
    as (o & rest & -> & Ho); [repeat split; congruence | done |].
  by destruct o as [[]|e|].
Qed.

(** A run in which Generate is not clicked. *)
Lemma script_idle json_loads pd_DataFrame topic click response s :
  click ≠ Some BtnGenerate ->
  script json_loads pd_DataFrame topic click response s [] =
    (s' ← get_session;
     when (bool_decide (mcq_df s' ≠ None)) (display_mcq click);;
     b ← button click BtnSubmit;
     when b submit_test) (level_click click s) script_header.
Proof.
  intros Hclick. rewrite script_eq.
  by rewrite (bool_decide_eq_false_2 (click = Some BtnGenerate)) by done.
Qed.

(** X15. The generator is used only when Generate is clicked: with any other
    click, or none, the interaction ends the same way, with the same page and
    the same session, whatever the topic, the reply of the model and the
    behaviour of the JSON and table libraries are. *)
Theorem generator_runs_only_on_generate
    (json_loads json_loads' : string -> result pyval)
    (pd_DataFrame pd_DataFrame' : pyval -> result DataFrame)
    (topic topic' : string) (response response' : result string)
    (click : option widget) (s : Session) :
  click ≠ Some BtnGenerate ->
  interaction json_loads pd_DataFrame topic click response s
  = interaction json_loads' pd_DataFrame' topic' click response' s.
Proof.
  intros Hclick. unfold interaction.
  rewrite (script_idle json_loads pd_DataFrame topic click response s Hclick).
  rewrite (script_idle json_loads' pd_DataFrame' topic' click response' s Hclick).
  destruct ((s' ← get_session;
             when (bool_decide (mcq_df s' ≠ None)) (display_mcq click);;
             b ← button click BtnSubmit;
             when b submit_test) (level_click click s) script_header)
    as [[[[]|e|] s1] p1]; [done..|].
  by rewrite !script_idle by done.
Qed.

Lemma generator_runs_only_on_generate_witness :
  interaction Json.loads Pandas.DataFrame_of "geography" (Some BtnNext)
    (Ok short_reply) short_session
  = interaction (fun _ => Raise ValueError) (fun _ => Raise ValueError)
      EmptyString (Some BtnNext) (Raise ConnectionError) short_session.
Proof.
  apply (generator_runs_only_on_generate Json.loads (fun _ => Raise ValueError)
           Pandas.DataFrame_of (fun _ => Raise ValueError)
           "geography" EmptyString (Ok short_reply) (Raise ConnectionError)
           (Some BtnNext) short_session).
  discriminate.
Defined.

(** X16. A test whose current question cannot be drawn cannot be submitted:
    the question page is drawn before the Submit button, so when it ends with
    an exception a click on Submit ends with the same exception and the same
    page, and the bank, the position and the saved answers are kept. *)
Theorem submit_needs_a_drawable_question
    (json_loads : string -> result pyval)
    (pd_DataFrame : pyval -> result DataFrame) (topic : string)
    (response : result string) (s : Session) (df : DataFrame) (e : exn)
    (p : list ui) :
  mcq_df s = Some df ->
  display_mcq None s script_header = (Raised e, s, p) ->
  interaction json_loads pd_DataFrame topic (Some BtnSubmit) response s
  = (Raised e, s, p).
Proof.
  intros Hdf Hshow. unfold interaction. rewrite script_eq. unfold level_click.
  rewrite bool_decide_eq_false_2 by done.
  rewrite bind_eq. unfold when at 1. unfold mret, M_ret, ret at 1.
  rewrite bind_eq. unfold get_session at 1.
  rewrite bool_decide_eq_true_2 by (rewrite Hdf; done).
  rewrite bind_eq. unfold when at 1.
  rewrite display_mcq_idle by (repeat split; congruence).
  by rewrite Hshow.
Qed.

Lemma submit_needs_a_drawable_question_witness :
  interaction Json.loads Pandas.DataFrame_of "geography" (Some BtnSubmit)
    (Raise ConnectionError) mixed_session
  = (Raised AttributeError, mixed_session,
     (script_header ++ [Subheader 1 "How many?"])%list).
Proof.
  apply (submit_needs_a_drawable_question Json.loads Pandas.DataFrame_of
           "geography" (Raise ConnectionError) mixed_session mixed_bank).
  - reflexivity.
  - by vm_compute.
Defined.

(** The level after a run of the script is the one the level buttons left. *)
Lemma script_level json_loads pd_DataFrame topic click response s :
  selected_level
    (session_of (script json_loads pd_DataFrame topic click response s []))
  = selected_level (level_click click s).
Proof.
  rewrite script_eq.
  set (l := selected_level (level_click click s)).
  assert (Hl : selected_level (level_click click s) = l) by done.
  revert Hl. generalize (level_click click s) script_header.
  change (preserves (fun s' => selected_level s' = l)
            (when (bool_decide (click = Some BtnGenerate))
                  (generate_handler json_loads pd_DataFrame topic response);;
             s' ← get_session;
             when (bool_decide (mcq_df s' ≠ None)) (display_mcq click);;
             b ← button click BtnSubmit;
             when b submit_test)).
  apply preserves_bind.
  { apply preserves_when. intros s0 page H. rewrite generate_handler_eq.
    destruct (_ && _); [|done].
    destruct (generate_question_bank _ _ _ _ _) as [[df|]|e]; try done.
    by destruct (Pandas.empty df). }
  intros _. apply preserves_bind; [apply preserves_get|]. intros s0.
  apply preserves_bind.
  { apply preserves_when. intros s1 page H.
    by destruct (display_mcq_in_bounds click s1 page) as (_ & -> & _). }
  intros _. apply preserves_bind; [apply preserves_button|]. intros b.
  apply preserves_when. intros s1 page H.
  by destruct (submit_test_session s1 page) as [-> | ->].
Qed.

Lemma interaction_level json_loads pd_DataFrame topic click response s :
  selected_level
    (session_of (interaction json_loads pd_DataFrame topic click response s))
  = selected_level (level_click click s).
Proof.
  unfold interaction.
  pose proof (script_level json_loads pd_DataFrame topic click response s) as H.
  destruct (script _ _ _ click _ s []) as [[[[]|e|] s1] p1]; try done.
  unfold session_of in H. cbn [fst snd] in H. rewrite <- H.
  apply (script_level json_loads pd_DataFrame topic None response s1).
Qed.

(** X17. A chosen level is kept until another level is clicked: an
    interaction with any click that is not on a level button (Generate,
    Submit, an answer, Previous, Next, or none) leaves the selected level as
    it was, also when the test is submitted or a new bank is installed. *)
Theorem level_survives_other_clicks
    (json_loads : string -> result pyval)
    (pd_DataFrame : pyval -> result DataFrame) (topic : string)
    (click : option widget) (response : result string) (s : Session) :
  (forall d, click ≠ Some (BtnLevel d)) ->
  selected_level
    (session_of (interaction json_loads pd_DataFrame topic click response s))
  = selected_level s.
Proof.
  intros Hclick. rewrite interaction_level.
  destruct click as [[d| | | | | | |]|]; try done.
  by destruct (Hclick d).
Qed.

Lemma level_survives_other_clicks_witness :
  selected_level
    (session_of (interaction Json.loads Pandas.DataFrame_of "geography"
                   (Some BtnSubmit) (Raise ConnectionError) sample_session))
  = Some "Beginner".
Proof.
  apply (level_survives_other_clicks Json.loads Pandas.DataFrame_of
           "geography" (Some BtnSubmit) (Raise ConnectionError) sample_session).
  intros d. discriminate.
Defined.

(** X18. In every session a user can reach, the selected level is absent or
    one of Beginner, Intermediate and Advanced; so the test of line 185 on
    the level holds exactly when a level has been clicked. *)
Theorem reachable_level_is_listed
    (json_loads : string -> result pyval)
    (pd_DataFrame : pyval -> result DataFrame) (s : Session) :
  reachable json_loads pd_DataFrame s ->
  match selected_level s with
  | Some d => d ∈ difficulty_levels /\ level_chosen s = true
  | None => level_chosen s = false
  end.
Proof.
  induction 1 as [|s topic click response Hs IH]; [done|].
  unfold level_chosen in *. rewrite interaction_level.
  destruct click as [[d| | | | | | |]|]; try exact IH.
  unfold level_click. case_bool_decide as Hd; [|exact IH].
  cbn [selected_level with_level]. split; [done|].
  unfold difficulty_levels in Hd.
  repeat (apply elem_of_cons in Hd as [->|Hd]; [done|]).
  by apply elem_of_nil in Hd.
Qed.

Lemma reachable_level_is_listed_witness :
  selected_level level_session = Some "Beginner"
  /\ "Beginner" ∈ difficulty_levels /\ level_chosen level_session = true.
Proof.
  split; [reflexivity|].
  apply (reachable_level_is_listed Json.loads Pandas.DataFrame_of level_session).
  unfold level_session. apply reachable_interaction, reachable_initial.
Defined.

(** ** Saved answers are options on offer *)

Lemma option_buttons_answers click index options s page i o :
  saved_answers (session_of (option_buttons click index options s page)) !! i
    = Some o ->
  saved_answers s !! i = Some o \/ (i = index /\ o ∈ options).
Proof.
  assert (Hidle : (forall o', click ≠ Some (BtnOption index o')) ->
            saved_answers (session_of (option_buttons click index options s page)) !! i
              = Some o -> saved_answers s !! i = Some o \/ (i = index /\ o ∈ options)).
  { intros H. rewrite option_buttons_idle, option_buttons_None by done. by left. }
  destruct click as [[d| |j o'|j|j| | |]|]; try (by apply Hidle).
  destruct (decide (j = index)) as [->|Hj]; [|apply Hidle; congruence].
  rewrite option_buttons_click. cbv zeta. unfold session_of. cbn [fst snd].
  destruct (decide (o' ∈ options)) as [Hin|Hout].
  - destruct (_ && _); [|by left].
    cbn [saved_answers with_saved_answers].
    intros [[<- <-]|[_ H]]%lookup_insert_Some; [by right | by left].
  - rewrite draw_all_other.
    2:{ intros (o2 & [= ->] & H)%list_elem_of_fmap. done. }
    rewrite andb_negb_r. by left.
Qed.

Lemma reset_and_save_answers click index s page i o :
  saved_answers (session_of (reset_and_save click index s page)) !! i = Some o ->
  saved_answers s !! i = Some o.
Proof.
  rewrite reset_and_save_eq. cbv zeta. unfold session_of. cbn [fst snd].
  destruct (_ && _); [|done].
  cbn [saved_answers with_saved_answers].
  by intros [_ H]%lookup_delete_Some.
Qed.

Lemma navigation_answers click df s page :
  saved_answers (session_of (navigation click df s page)) = saved_answers s.
Proof.
  rewrite navigation_eq. cbv zeta.
  destruct (_ && _ && _); [done|]. by destruct (_ && _ && _).
Qed.

Lemma quiz_buttons_answers click df index options s page i o :
  saved_answers (session_of (quiz_buttons click df index options s page)) !! i
    = Some o ->
  saved_answers s !! i = Some o \/ (i = index /\ o ∈ options).
Proof.
  unfold quiz_buttons. rewrite bind_eq.
  pose proof (option_buttons_answers click index options s page i o) as H1.
  destruct (option_buttons click index options s page) as [[o1 s1] p1].
  unfold session_of in H1. cbn [fst snd] in H1.
  destruct o1 as [[]|e|]; [|exact H1..].
  rewrite bind_eq.
  pose proof (reset_and_save_answers click index s1 p1 i o) as H2.
  destruct (reset_and_save click index s1 p1) as [[o2 s2] p2].
  unfold session_of in H2. cbn [fst snd] in H2.
  destruct o2 as [[]|e|]; [|intros H; apply H1, H2, H..].
  rewrite navigation_answers. intros H. apply H1, H2, H.
Qed.

Lemma display_mcq_answers click s page :
  in_bounds s -> answers_offered s ->
  answers_offered (session_of (display_mcq click s page)).
Proof.
  intros Hb Ha.
  destruct (display_mcq_in_bounds click s page) as (Hdf' & _ & _).
  destruct (mcq_df s) as [df|] eqn:Hdf.
  2:{ by rewrite display_mcq_no_bank by (unfold no_bank; by rewrite Hdf). }
  destruct (Hb df Hdf) as [Hne Hi].
  revert Hdf'. rewrite (display_mcq_loaded _ _ _ _ Hdf Hne).
  pose proof (eq_refl : offered df (current_index s) = offered df (current_index s))
    as Hoff. unfold offered at 2 in Hoff.
  destruct (question_of df (current_index s)) as [[[q m] options]|e]; [|done].
  cbv zeta. destruct (valid_options options) as [opts|e]; [|done].
  intros Hdf' i o Hsaved. rewrite Hdf'.
  apply quiz_buttons_answers in Hsaved as [Hold|[-> Hin]].
  - destruct (Ha i o Hold) as (df0 & Hdf0 & H). exists df. split; [done|].
    assert (df0 = df) as -> by congruence. done.
  - exists df. split; [done|]. split; [done|]. by rewrite Hoff.
Qed.

Lemma answers_offered_empty s : saved_answers s = ∅ -> answers_offered s.
Proof. intros H i o. by rewrite H, lookup_empty. Qed.

Lemma script_answers json_loads pd_DataFrame topic click response s :
  in_bounds s /\ answers_offered s ->
  let s' := session_of (script json_loads pd_DataFrame topic click response s [])
  in in_bounds s' /\ answers_offered s'.
Proof.
  intros Hs. cbv zeta. rewrite script_eq.
  assert (Hl : in_bounds (level_click click s)
               /\ answers_offered (level_click click s)).
  { unfold level_click. destruct click as [[d| | | | | | |]|]; try done.
    by destruct (bool_decide _). }
  revert Hl. generalize (level_click click s) script_header.
  change (preserves (fun s' => in_bounds s' /\ answers_offered s')
            (when (bool_decide (click = Some BtnGenerate))
                  (generate_handler json_loads pd_DataFrame topic response);;
             s' ← get_session;
             when (bool_decide (mcq_df s' ≠ None)) (display_mcq click);;
             b ← button click BtnSubmit;
             when b submit_test)).
  apply preserves_bind.
  { apply preserves_when. intros s0 page [Hb Ha]. split.
    - by apply generate_handler_in_bounds.
    - rewrite generate_handler_eq.
      destruct (_ && _); [|done].
      destruct (generate_question_bank _ _ _ _ _) as [[df|]|e]; try done.
      destruct (Pandas.empty df); [done|]. by apply answers_offered_empty. }
  intros _. apply preserves_bind; [apply preserves_get|]. intros s0.
  apply preserves_bind.
  { apply preserves_when. intros s1 page [Hb Ha]. split.
    - by apply display_mcq_in_bounds.
    - by apply display_mcq_answers. }
  intros _. apply preserves_bind; [apply preserves_button|]. intros b.
  apply preserves_when. intros s1 page [Hb Ha]. split.
  - by apply submit_test_in_bounds.
  - destruct (submit_test_session s1 page) as [-> | ->]; [done|].
    by apply answers_offered_empty.
Qed.

Lemma reachable_answers json_loads pd_DataFrame s :
  reachable json_loads pd_DataFrame s -> in_bounds s /\ answers_offered s.
Proof.
  induction 1 as [|s topic click response Hs IH].
  { split; [done|]. by apply answers_offered_empty. }
  unfold interaction.
  pose proof (script_answers json_loads pd_DataFrame topic click response s IH)
    as H.
  destruct (script _ _ _ click _ s []) as [[[[]|e|] s1] p1]; try done.
  by apply script_answers.
Qed.

(** X19. In every session a user can reach, each saved answer belongs to a
    question of the loaded bank (its position lies inside the bank) and is
    one of the option texts offered under that question; in particular
    nothing is saved while no bank is loaded. *)
Theorem saved_answers_are_offered_options
    (json_loads : string -> result pyval)
    (pd_DataFrame : pyval -> result DataFrame) (s : Session) (i : Z)
    (o : string) :
  reachable json_loads pd_DataFrame s ->
  saved_answers s !! i = Some o ->
  exists df, mcq_df s = Some df /\ 0 <= i < Pandas.len df /\ o ∈ offered df i.
Proof.
  intros Hs Hsaved.
  destruct (reachable_answers _ _ _ Hs) as [_ Ha]. by apply Ha.
Qed.

Lemma saved_answers_are_offered_options_witness :
  saved_answers answered_session !! 0 = Some "Paris"
  /\ exists df, mcq_df answered_session = Some df
                /\ 0 <= 0 < Pandas.len df /\ "Paris" ∈ offered df 0.
Proof.
  assert (H : saved_answers answered_session !! 0 = Some "Paris")
    by (by vm_compute).
  split; [exact H|].
  apply (saved_answers_are_offered_options Json.loads Pandas.DataFrame_of
           answered_session 0 "Paris"); [|exact H].
  unfold answered_session, short_session, level_session.
  repeat apply reachable_interaction. apply reachable_initial.
Defined.

(** ** The code block of a question (lines 86-97) *)

Lemma drop_prefix_Some p : forall s r,
  PyStr.drop_prefix p s = Some r -> s = p +:+ r.
Proof.
  induction p as [|a p IH]; intros s r; simpl.
  - intros [= ->]. by rewrite append_empty.
  - destruct s as [|b s]; [done|].
    destruct (Ascii.eqb a b) eqn:Hab; [|done].
    apply Ascii.eqb_eq in Hab as ->. intros ->%IH. by rewrite append_String.
Qed.

Lemma drop_prefix_app p : forall r, PyStr.drop_prefix p (p +:+ r) = Some r.
Proof.
  induction p as [|a p IH]; intros r.
  - by rewrite append_empty.
  - rewrite append_String. simpl. by rewrite Ascii.eqb_refl.
Qed.

Lemma search_str_no_fence s :
  (forall a b, s ≠ a +:+ Re.fence +:+ b) -> Re.search_str s = None.
Proof.
  induction s as [|c s IH]; intros Hno.
  - simpl. unfold Re.match_here.
    destruct (PyStr.drop_prefix Re.fence EmptyString) as [r|] eqn:Hd; [|done].
    apply drop_prefix_Some in Hd. destruct (Hno EmptyString r).
    by rewrite append_empty.
  - cbn [Re.search_str]. unfold Re.match_here.
    destruct (PyStr.drop_prefix Re.fence (String c s)) as [r|] eqn:Hd.
    { apply drop_prefix_Some in Hd. destruct (Hno EmptyString r).
      by rewrite append_empty. }
    rewrite IH; [done|]. intros a b ->. destruct (Hno (String c a) b).
    by rewrite append_String.
Qed.

(** X20. A question text that contains no code fence (three backticks) is
    shown whole and unchanged under its number, as one subheader and without
    a code block. *)
Theorem question_without_fence_is_shown_whole (index : Z) (q : string)
    (s : Session) (page : list ui) :
  (forall a b, q ≠ a +:+ "```" +:+ b) ->
  Re.search (PStr q) = Ok (q, None)
  /\ show_question index q (Re.search_str q) s page
     = (Done tt, s, (page ++ [Subheader (index + 1) q])%list).
Proof.
  intros Hno. unfold Re.search. by rewrite search_str_no_fence.
Qed.

Lemma startswith_app p : forall r, PyStr.startswith p (p +:+ r) = true.
Proof.
  induction p as [|a p IH]; intros r.
  - by rewrite append_empty.
  - rewrite append_String. simpl. by rewrite Ascii.eqb_refl, IH.
Qed.

Lemma before_fence_None a : forall s b,
  Re.before_fence s = None -> s ≠ a +:+ Re.fence +:+ b.
Proof.
  induction a as [|c a IH]; intros s b Hs ->.
  - rewrite append_empty in Hs.
    destruct (Re.fence +:+ b) eqn:E; cbn [Re.before_fence] in Hs;
      rewrite <- E, startswith_app in Hs; done.
  - rewrite append_String in Hs. cbn [Re.before_fence] in Hs.
    destruct (PyStr.startswith _ _); [done|].
    destruct (Re.before_fence (a +:+ Re.fence +:+ b)) eqn:E; [done|].
    by apply (IH _ b E).
Qed.

Lemma question_without_fence_is_shown_whole_witness :
  show_question 0 "What is 2 + 2?" (Re.search_str "What is 2 + 2?")
    sample_session script_header
  = (Done tt, sample_session,
     (script_header ++ [Subheader 1 "What is 2 + 2?"])%list).
Proof.
  apply (question_without_fence_is_shown_whole 0 "What is 2 + 2?"
           sample_session script_header).
  intros a b. by apply before_fence_None.
Defined.

Lemma span_word_line lang rest :
  forallb Re.is_word (list_ascii_of_string lang) = true ->
  Re.span_word (lang +:+ String "010" rest) = (lang, String "010" rest).
Proof.
  induction lang as [|c lang IH]; intros Hw.
  - by rewrite append_empty.
  - rewrite append_String. simpl in *.
    apply andb_true_iff in Hw as [-> Hw]. by rewrite IH.
Qed.

Lemma before_fence_body body : forall post,
  PyStr.mem "`" body = false ->
  Re.before_fence (body +:+ Re.fence +:+ post) = Some body.
Proof.
  induction body as [|c body IH]; intros post Hb.
  - rewrite append_empty.
    destruct (Re.fence +:+ post) eqn:E; cbn [Re.before_fence];
      by rewrite <- E, startswith_app.
  - rewrite append_String. cbn [PyStr.mem] in Hb.
    destruct (Ascii.eqb "`" c) eqn:Hc; [done|].
    cbn [Re.before_fence]. unfold Re.fence at 1. cbn [PyStr.startswith].
    rewrite Hc. cbn [andb]. by rewrite IH.
Qed.

Lemma search_str_after pre : forall block g1 g2,
  PyStr.mem "`" pre = false ->
  Re.match_here block = Some (g1, g2) ->
  Re.search_str (pre +:+ block)
  = Some {| Re.prefix := pre; Re.group1 := g1; Re.group2 := g2 |}.
Proof.
  induction pre as [|c pre IH]; intros block g1 g2 Hp Hm.
  - rewrite append_empty. destruct block; cbn [Re.search_str]; by rewrite Hm.
  - rewrite append_String. cbn [PyStr.mem] in Hp.
    destruct (Ascii.eqb "`" c) eqn:Hc; [done|].
    cbn [Re.search_str]. unfold Re.match_here at 1, Re.fence at 1.
    cbn [PyStr.drop_prefix]. rewrite Hc.
    by rewrite (IH block g1 g2 Hp Hm).
Qed.

Lemma search_str_block pre lang body post :
  PyStr.mem "`" pre = false -> PyStr.mem "`" body = false ->
  forallb Re.is_word (list_ascii_of_string lang) = true ->
  Re.search_str (pre +:+ "```" +:+ lang +:+ String "010" EmptyString
                 +:+ body +:+ "```" +:+ post)
  = Some {| Re.prefix := pre;
            Re.group1 := if PyStr.is_empty lang then None else Some lang;
            Re.group2 := body |}.
Proof.
  intros Hp Hb Hl. apply search_str_after; [done|].
  unfold Re.match_here. change "```" with Re.fence.
  rewrite drop_prefix_app.
  rewrite append_String, append_empty, span_word_line by done.
  by rewrite before_fence_body.
Qed.

(** X21. A question made of an explanation, a fenced code block with an
    optional language tag, and any text after it, where neither the
    explanation nor the code holds a backtick: the block is found; the
    stripped explanation is shown under the question number when it is not
    blank, then the stripped code in the tagged language, or in python when
    there is no tag; what follows the closing fence is not shown. *)
Theorem fenced_question_shows_code (index : Z) (pre lang body post : string)
    (s : Session) (page : list ui) :
  PyStr.mem "`" pre = false -> PyStr.mem "`" body = false ->
  forallb Re.is_word (list_ascii_of_string lang) = true ->
  let text := pre +:+ "```" +:+ lang +:+ String "010" EmptyString
              +:+ body +:+ "```" +:+ post in
  show_question index text (Re.search_str text) s page
  = (Done tt, s,
     (page
      ++ (if PyStr.truthy (PyStr.strip pre)
          then [Subheader (index + 1) (PyStr.strip pre)] else [])
      ++ [Code (PyStr.strip body)
               (if PyStr.is_empty lang then "python" else lang)])%list).
Proof.
  intros Hp Hb Hl. cbv zeta.
  rewrite search_str_block, show_question_eq by done.
  unfold question_view. cbn [Re.prefix Re.group1 Re.group2].
  by destruct lang.
Qed.

Lemma fenced_question_shows_code_witness :
  show_question 1
    ("What does this print? ```" +:+ String "010" EmptyString
     +:+ "print(1)" +:+ "``` Choose one.")
    (Re.search_str ("What does this print? ```" +:+ String "010" EmptyString
                    +:+ "print(1)" +:+ "``` Choose one."))
    sample_session script_header
  = (Done tt, sample_session,
     (script_header
      ++ [Subheader 2 "What does this print?"; Code "print(1)" "python"])%list).
Proof.
  apply (fenced_question_shows_code 1 "What does this print? " EmptyString
           "print(1)" " Choose one." sample_session script_header);
    reflexivity.
Defined.

(** ** Questions without options (lines 83 and 101) *)

Lemma offered_without_options_column df i :
  Pandas.has_label "options" (columns df) = false ->
  offered df i = []
  /\ forall q m options,
       question_of df i = Ok (q, m, options) -> options = PList [].
Proof.
  intros Hcol.
  assert (Hq : forall q m options,
            question_of df i = Ok (q, m, options) -> options = PList []).
  { intros q m options Hq.
    destruct (Pandas.iloc df i) as [row|e] eqn:Hrow.
    2:{ unfold question_of in Hq. by rewrite Hrow in Hq. }
    rewrite (question_of_options _ _ _ _ _ _ Hrow Hq).
    unfold Pandas.get. by rewrite (iloc_labels _ _ _ Hrow), Hcol. }
  split; [|done]. unfold offered.
  destruct (question_of df i) as [[[q m] options]|e] eqn:E; [|done].
  by rewrite (Hq q m options eq_refl).
Qed.

(** X22. A bank without an options column is shown without option buttons
    and takes no answers: the default of [row.get] makes the options of
    every question the empty list, nothing is offered under any question,
    and in every session a user can reach with such a bank the saved answers
    are empty. *)
Theorem bank_without_options_takes_no_answers
    (json_loads : string -> result pyval)
    (pd_DataFrame : pyval -> result DataFrame) (s : Session) (df : DataFrame) :
  reachable json_loads pd_DataFrame s -> mcq_df s = Some df ->
  Pandas.has_label "options" (columns df) = false ->
  (forall i q m options,
     question_of df i = Ok (q, m, options) -> options = PList [])
  /\ (forall i, offered df i = [])
  /\ saved_answers s = ∅.
Proof.
  intros Hs Hdf Hcol. split; [|split].
  - intros i. by apply offered_without_options_column.
  - intros i. by apply offered_without_options_column.
  - apply map_empty. intros i.
    destruct (saved_answers s !! i) as [o|] eqn:Hsaved; [|done].
    destruct (reachable_answers _ _ _ Hs) as [_ Ha].
    destruct (Ha i o Hsaved) as (df' & Hdf' & _ & Hin).
    assert (df' = df) as -> by congruence.
    rewrite (proj1 (offered_without_options_column df i Hcol)) in Hin.
    by apply elem_of_nil in Hin.
Qed.

Lemma bank_without_options_takes_no_answers_witness :
  mcq_df no_options_session = Some no_options_bank
  /\ saved_answers no_options_session = ∅.
Proof.
  assert (H : mcq_df no_options_session = Some no_options_bank)
    by (by vm_compute).
  split; [exact H|].
  apply (bank_without_options_takes_no_answers Json.loads Pandas.DataFrame_of
           no_options_session no_options_bank); [|exact H|reflexivity].
  unfold no_options_session, level_session.
  repeat apply reachable_interaction. apply reachable_initial.
Defined.

(** X23. The default of [row.get] does not cover a missing cell: when the
    bank has an options column and the record of the current question has no
    options, the cell is NaN, and the question page, whatever is clicked,
    shows the question and then ends with a [TypeError], with no button
    drawn and the session as it was. *)
Theorem missing_options_cell_raises_TypeError (click : option widget)
    (s : Session) (page : list ui) (df : DataFrame) (row : Series)
    (q : string) (m : option Re.code_match) (options : pyval) :
  mcq_df s = Some df -> Pandas.empty df = false ->
  Pandas.iloc df (current_index s) = Ok row ->
  Pandas.has_label "options" (columns df) = true ->
  dict_get "options" (cells row) = None ->
  question_of df (current_index s) = Ok (q, m, options) ->
  options = nan
  /\ display_mcq click s page
     = (Raised TypeError, s, (page ++ question_view (current_index s) q m)%list).
Proof.
  intros Hdf Hne Hrow Hcol Hcell Hq.
  assert (Ho : options = nan).
  { rewrite (question_of_options _ _ _ _ _ _ Hrow Hq).
    unfold Pandas.get, Pandas.cell.
    by rewrite (iloc_labels _ _ _ Hrow), Hcol, Hcell. }
  split; [done|].
  rewrite (display_mcq_loaded _ _ _ _ Hdf Hne), Hq. cbv zeta. by rewrite Ho.
Qed.

Lemma missing_options_cell_raises_TypeError_witness :
  mcq_df ragged_session = Some ragged_bank
  /\ display_mcq None ragged_session script_header
     = (Raised TypeError, ragged_session,
        (script_header ++ [Subheader 1 "Why?"])%list).
Proof.
  split; [by vm_compute|].
  apply (missing_options_cell_raises_TypeError None ragged_session
           script_header ragged_bank
           (Pandas.row_of ragged_bank
              [("question", PStr "Why?"); ("answer", PStr "a");
               ("language", PBool false)])
           "Why?" None nan); by vm_compute.
Defined.

(** ** Submitting, generating and moving, seen from the script *)

Lemma never_reruns_bind {A B} (m : M A) (k : A -> M B) :
  never_reruns m -> (forall a, never_reruns (k a)) -> never_reruns (m ≫= k).
Proof.
  intros Hm Hk s page. rewrite bind_eq. specialize (Hm s page).
  destruct (m s page) as [[[a|e|] s1] p1]; [apply Hk|done|done].
Qed.

Lemma never_reruns_when b (m : M unit) : never_reruns m -> never_reruns (when b m).
Proof. intros Hm. by destruct b. Qed.

Lemma never_reruns_lift {A} (r : result A) : never_reruns (lift r).
Proof. intros s page. rewrite lift_eq. by destruct r. Qed.

Lemma never_reruns_draw u : never_reruns (draw u).
Proof. by intros s page. Qed.

Lemma show_incorrect_never_reruns rows saved :
  never_reruns (show_incorrect rows saved).
Proof.
  induction rows as [|[i row] rows IH]; [by intros s page|].
  cbn [show_incorrect]. apply never_reruns_bind; [|done].
  destruct (saved !! i) as [given|]; [|by intros s page].
  apply never_reruns_bind; [apply never_reruns_lift|]. intros answer.
  apply never_reruns_when.
  apply never_reruns_bind; [apply never_reruns_lift|]. intros question.
  repeat (apply never_reruns_bind; [apply never_reruns_draw|]; intros _).
  apply never_reruns_bind; [apply never_reruns_lift|]. intros answer'.
  apply never_reruns_bind; [apply never_reruns_draw|]. intros _.
  apply never_reruns_draw.
Qed.

Lemma submit_test_never_reruns : never_reruns submit_test.
Proof.
  unfold submit_test. apply never_reruns_bind; [by intros s page|]. intros s.
  cbv zeta. destruct (mcq_df s) as [df|]; [|apply never_reruns_draw].
  destruct (Pandas.empty df); [apply never_reruns_draw|].
  apply never_reruns_bind; [apply never_reruns_lift|]. intros n.
  apply never_reruns_bind; [by intros s' page|]. intros _.
  repeat (apply never_reruns_bind; [apply never_reruns_draw|]; intros _).
  apply show_incorrect_never_reruns.
Qed.

Lemma quiz_widgets_kind w df index options :
  w ∈ quiz_widgets df index options ->
  w ≠ BtnSubmit /\ w ≠ BtnGenerate /\ forall d, w ≠ BtnLevel d.
Proof.
  unfold quiz_widgets. intros [H|[H|H]%elem_of_app]%elem_of_app.
  - by apply list_elem_of_fmap in H as (o & -> & _).
  - apply elem_of_cons in H as [->|H]; [done|].
    apply elem_of_cons in H as [->|H]; [done|]. by apply elem_of_nil in H.
  - unfold nav_widgets in H. apply elem_of_app in H as [H|H].
    + destruct (0 <? index); [|by apply elem_of_nil in H].
      apply elem_of_cons in H as [->|H]; [done|by apply elem_of_nil in H].
    + destruct (index <? Pandas.len df - 1); [|by apply elem_of_nil in H].
      apply elem_of_cons in H as [->|H]; [done|by apply elem_of_nil in H].
Qed.

(** The buttons on a question page drawn without an error: those that were
    there, and those of the question. *)
Lemma display_mcq_None_buttons s page df p w :
  mcq_df s = Some df -> Pandas.empty df = false ->
  display_mcq None s page = (Done tt, s, p) ->
  on_page w p
  = on_page w page
    || bool_decide (w ∈ quiz_widgets df (current_index s)
                          (offered df (current_index s))).
Proof.
  intros Hdf Hne Hshown. rewrite (display_mcq_None _ _ _ Hdf Hne) in Hshown.
  assert (Hview : quiz_view df (current_index s) page = (Done tt, p)).
  { destruct (quiz_view _ _ _). simpl in Hshown. congruence. }
  apply quiz_view_Done in Hview as (q & m & options & p2 & Hq & Hv & Hd & ->).
  apply draw_all_Done in Hd as (-> & _ & _).
  rewrite on_page_separator, !on_page_app, on_page_question_view, on_page_buttons.
  by rewrite orb_false_r.
Qed.

Lemma interaction_None json_loads pd_DataFrame topic response s :
  interaction json_loads pd_DataFrame topic None response s
  = script json_loads pd_DataFrame topic None response s [].
Proof.
  unfold interaction. rewrite script_idle by done. unfold level_click.
  destruct (script_tail_idle None s script_header)
    as (o & rest & -> & Ho); [repeat split; congruence | done |].
  by destruct o as [[]|e|].
Qed.

(** X24. Submit, seen from the script: when the page of the current question
    is drawn without an error and the bank has the answer column, a click on
    Submit runs [submit_test] on the unchanged session, below the question
    and the Submit button: the session is cleared and the score over the
    whole bank follows the button on the page. *)
Theorem submit_click_scores_below_the_question
    (json_loads : string -> result pyval)
    (pd_DataFrame : pyval -> result DataFrame) (topic : string)
    (response : result string) (s : Session) (df : DataFrame) (p : list ui) :
  mcq_df s = Some df -> Pandas.empty df = false ->
  Pandas.has_label "answer" (columns df) = true ->
  display_mcq None s script_header = (Done tt, s, p) ->
  let r := interaction json_loads pd_DataFrame topic (Some BtnSubmit)
             response s in
  r = submit_test s (p ++ [Button BtnSubmit])%list
  /\ session_of r = cleared s
  /\ exists rest,
       page_of r
       = (p ++ Button BtnSubmit
            :: Success (Scorer.score df (saved_answers s)) (Pandas.len df)
            :: IncorrectHeading :: rest)%list.
Proof.
  intros Hdf Hne Ha Hshown. cbv zeta.
  assert (Hr : interaction json_loads pd_DataFrame topic (Some BtnSubmit)
                 response s
               = submit_test s (p ++ [Button BtnSubmit])%list).
  { unfold interaction. rewrite script_idle by done. unfold level_click.
    rewrite bind_eq. unfold get_session at 1.
    rewrite bool_decide_eq_true_2 by (rewrite Hdf; done).
    rewrite bind_eq. unfold when at 1.
    rewrite display_mcq_idle by (repeat split; congruence).
    rewrite Hshown, bind_eq, button_hit.
    rewrite (display_mcq_None_buttons _ _ _ _ BtnSubmit Hdf Hne Hshown).
    rewrite bool_decide_eq_false_2.
    2:{ intros Hin. by apply quiz_widgets_kind in Hin as [? _]. }
    change (on_page BtnSubmit script_header) with false. cbn [orb].
    unfold when.
    pose proof (submit_test_never_reruns s (p ++ [Button BtnSubmit])%list) as He.
    unfold outcome_of in He.
    by destruct (submit_test s _) as [[[[]|e|] s1] p1]. }
  rewrite Hr. split; [done|].
  destruct (submit_test_scored s (p ++ [Button BtnSubmit])%list df Hdf Hne Ha)
    as [Hs [rest Hp]].
  split; [done|]. exists rest. rewrite Hp. by rewrite <- app_assoc.
Qed.

Lemma submit_click_scores_below_the_question_witness :
  session_of (interaction Json.loads Pandas.DataFrame_of "geography"
                (Some BtnSubmit) (Raise ConnectionError) sample_session)
  = cleared sample_session.
Proof.
  eapply (submit_click_scores_below_the_question Json.loads
            Pandas.DataFrame_of "geography" (Raise ConnectionError)
            sample_session sample_bank _ eq_refl eq_refl eq_refl).
  by vm_compute.
Defined.

(** X25. A successful generation shows the new bank from the top: with a
    topic, a level and a reply that gives a table that is not empty, a click
    on Generate leaves the session with that table, position 0 and no saved
    answer, and the interaction ends with the page of a plain run on that
    session: what the first run drew is gone. *)
Theorem generated_bank_is_shown_from_the_top
    (json_loads : string -> result pyval)
    (pd_DataFrame : pyval -> result DataFrame) (topic : string)
    (response : result string) (s : Session) (df : DataFrame) :
  PyStr.truthy topic = true -> level_chosen s = true ->
  generate_question_bank json_loads pd_DataFrame topic
    (default EmptyString (selected_level s)) response = Ok (Some df) ->
  Pandas.empty df = false ->
  let r := interaction json_loads pd_DataFrame topic (Some BtnGenerate)
             response s in
  r = interaction json_loads pd_DataFrame topic None response (installed df s)
  /\ session_of r = installed df s.
Proof.
  intros Ht Hl Hg Hne. cbv zeta.
  assert (Hr : interaction json_loads pd_DataFrame topic (Some BtnGenerate)
                 response s
               = interaction json_loads pd_DataFrame topic None response
                   (installed df s)).
  { rewrite interaction_None. unfold interaction at 1. rewrite script_eq.
    unfold level_click. rewrite bool_decide_eq_true_2 by done.
    rewrite bind_eq. unfold when at 1.
    by rewrite generate_handler_eq, Ht, Hl, Hg, Hne. }
  split; [done|]. rewrite Hr, interaction_None, script_idle by done.
  unfold level_click.
  destruct (script_tail_idle None (installed df s) script_header)
    as (o & rest & -> & Ho); [repeat split; congruence | done |].
  done.
Qed.

Lemma generated_bank_is_shown_from_the_top_witness :
  session_of (interaction Json.loads Pandas.DataFrame_of "geography"
                (Some BtnGenerate) (Ok short_reply) level_session)
  = installed short_bank level_session.
Proof.
  apply (generated_bank_is_shown_from_the_top Json.loads Pandas.DataFrame_of
           "geography" (Ok short_reply) level_session short_bank);
    by vm_compute.
Defined.

(** X26. Previous and Next, seen from the script: on a question drawn
    without an error, a click on Next before the last question, or on
    Previous after the first, ends with exactly the page, the outcome and
    the session of a plain run at the neighbouring position. *)
Theorem navigation_click_shows_the_neighbour
    (json_loads : string -> result pyval)
    (pd_DataFrame : pyval -> result DataFrame) (topic : string)
    (response : result string) (s : Session) (df : DataFrame) (p : list ui) :
  mcq_df s = Some df -> Pandas.empty df = false ->
  display_mcq None s script_header = (Done tt, s, p) ->
  let i := current_index s in
  let run click s0 :=
    interaction json_loads pd_DataFrame topic click response s0 in
  (i < Pandas.len df - 1 ->
   run (Some BtnNext) s = run None (with_current_index (i + 1) s))
  /\ (0 < i -> run (Some BtnPrev) s = run None (with_current_index (i - 1) s)).
Proof.
  intros Hdf Hne Hshown. cbv zeta.
  assert (Hmove : forall click s1,
            (click = Some BtnNext \/ click = Some BtnPrev) ->
            navigator click s = (Rerun, s1) ->
            interaction json_loads pd_DataFrame topic click response s
            = interaction json_loads pd_DataFrame topic None response s1).
  { intros click s1 Hclick Hnav. rewrite interaction_None.
    unfold interaction. rewrite script_idle by (destruct Hclick; congruence).
    assert (level_click click s = s) as ->
      by (destruct Hclick as [-> | ->]; done).
    rewrite bind_eq. unfold get_session at 1.
    rewrite bool_decide_eq_true_2 by (rewrite Hdf; done).
    rewrite bind_eq. unfold when at 1.
    pose proof (display_mcq_navigator click s script_header df p Hdf Hne Hshown)
      as H. rewrite Hnav in H. unfold outcome_of, session_of in H.
    destruct (display_mcq click s script_header) as [[o s2] p2].
    cbn [fst snd] in H. by injection H as -> ->. }
  split; intros Hi.
  - apply Hmove; [by left|]. unfold navigator. rewrite Hdf.
    by rewrite (proj2 (Z.ltb_lt _ _) Hi).
  - apply Hmove; [by right|]. unfold navigator. rewrite Hdf.
    by rewrite (proj2 (Z.ltb_lt _ _) Hi).
Qed.

Lemma navigation_click_shows_the_neighbour_witness :
  interaction Json.loads Pandas.DataFrame_of "geography" (Some BtnNext)
    (Raise ConnectionError) short_session
  = interaction Json.loads Pandas.DataFrame_of "geography" None
      (Raise ConnectionError)
      (with_current_index (current_index short_session + 1) short_session).
Proof.
  assert (H : exists p, display_mcq None short_session script_header
                        = (Done tt, short_session, p))
    by (eexists; by vm_compute).
  destruct H as [p Hp].
  apply (proj1 (navigation_click_shows_the_neighbour Json.loads
                  Pandas.DataFrame_of "geography" (Raise ConnectionError)
                  short_session short_bank p eq_refl eq_refl Hp)).
  by vm_compute.
Defined.

(** ** The warning of the question page *)

Lemma never_draws_bind {A B} u (m : M A) (k : A -> M B) :
  never_draws u m -> (forall a, never_draws u (k a)) -> never_draws u (m ≫= k).
Proof.
  intros Hm Hk s page. rewrite bind_eq. destruct (Hm s page) as (rest & Hp & Hn).
  destruct (m s page) as [[[a|e|] s1] p1]; unfold page_of in Hp; cbn [snd] in Hp;
    subst p1; [|by exists rest..].
  destruct (Hk a s1 (page ++ rest)%list) as (rest' & -> & Hn').
  exists (rest ++ rest')%list. split; [by rewrite app_assoc|].
  by apply not_elem_of_app.
Qed.

Lemma never_draws_nothing {A} u (m : M A) :
  (forall s page, page_of (m s page) = page) -> never_draws u m.
Proof.
  intros H s page. exists []. rewrite H, app_nil_r. split; [done|].
  apply not_elem_of_nil.
Qed.

Lemma never_draws_when u b (m : M unit) :
  never_draws u m -> never_draws u (when b m).
Proof. intros Hm. destruct b; [done|]. by apply never_draws_nothing. Qed.

Lemma never_draws_lift {A} u (r : result A) : never_draws u (lift r).
Proof. apply never_draws_nothing. intros s page. rewrite lift_eq. by destruct r. Qed.

Lemma never_draws_draw u u' : u' ≠ u -> never_draws u (draw u').
Proof.
  intros Hu s page. exists [u']. split; [done|].
  by intros ->%list_elem_of_singleton.
Qed.

Lemma never_draws_button u click w :
  (forall w', u ≠ Button w') -> never_draws u (button click w).
Proof.
  intros Hu s page. unfold button. destruct (on_page w page).
  - exists []. rewrite app_nil_r. split; [done|]. apply not_elem_of_nil.
  - exists [Button w]. split; [done|].
    intros H%list_elem_of_singleton. by destruct (Hu w).
Qed.

Ltac quiet :=
  repeat first
    [ apply never_draws_bind; [|intros ?]
    | apply never_draws_when
    | apply never_draws_lift
    | apply never_draws_button; discriminate
    | apply never_draws_draw; discriminate
    | apply never_draws_nothing; intros ? ?; reflexivity ].

Lemma option_buttons_quiet click index options :
  never_draws (Warning no_questions) (option_buttons click index options).
Proof. induction options as [|o options IH]; cbn [option_buttons]; quiet. exact IH. Qed.

Lemma quiz_buttons_quiet click df index options :
  never_draws (Warning no_questions) (quiz_buttons click df index options).
Proof.
  unfold quiz_buttons, reset_and_save, navigation, delete_answer,
    set_current_index.
  apply never_draws_bind; [apply option_buttons_quiet|]. intros _. quiet.
Qed.

Lemma show_incorrect_quiet rows saved :
  never_draws (Warning no_questions) (show_incorrect rows saved).
Proof.
  induction rows as [|[i row] rows IH]; cbn [show_incorrect]; quiet; [|exact IH].
  destruct (saved !! i); quiet.
Qed.

Lemma submit_test_quiet : never_draws (Warning no_questions) submit_test.
Proof.
  unfold submit_test. quiet. cbv zeta.
  destruct (mcq_df _) as [df|]; quiet.
  destruct (Pandas.empty df); quiet. apply show_incorrect_quiet.
Qed.

Lemma generate_handler_quiet json_loads pd_DataFrame topic response :
  never_draws (Warning no_questions)
    (generate_handler json_loads pd_DataFrame topic response).
Proof.
  unfold generate_handler. quiet. destruct (_ && _); quiet.
  match goal with
  | |- never_draws _ (match ?x with _ => _ end) => destruct x as [df|]
  end; quiet.
  destruct (negb _); quiet.
Qed.

Lemma display_mcq_quiet click s page df :
  mcq_df s = Some df -> Pandas.empty df = false ->
  exists rest, page_of (display_mcq click s page) = (page ++ rest)%list
               /\ Warning no_questions ∉ rest.
Proof.
  intros Hdf Hne. rewrite (display_mcq_loaded _ _ _ _ Hdf Hne).
  destruct (question_of df (current_index s)) as [[[q m] options]|e].
  2:{ exists []. rewrite app_nil_r. split; [done|]. apply not_elem_of_nil. }
  cbv zeta.
  assert (Hq : Warning no_questions ∉ question_view (current_index s) q m).
  { unfold question_view. destruct m as [m|].
    - destruct (PyStr.truthy _); cbn [app].
      + intros [H|H%list_elem_of_singleton]%elem_of_cons; discriminate.
      + intros H%list_elem_of_singleton. discriminate.
    - intros H%list_elem_of_singleton. discriminate. }
  destruct (valid_options options) as [opts|e].
  2:{ by eexists. }
  destruct (quiz_buttons_quiet click df (current_index s) opts s
              (page ++ question_view (current_index s) q m)%list)
    as (rest & -> & Hn).
  eexists. split; [by rewrite <- app_assoc|]. by apply not_elem_of_app.
Qed.

Lemma script_quiet json_loads pd_DataFrame topic click response s :
  in_bounds s ->
  Warning no_questions
    ∉ page_of (script json_loads pd_DataFrame topic click response s []).
Proof.
  intros Hs. rewrite script_eq.
  assert (Hl : in_bounds (level_click click s)).
  { unfold level_click. destruct click as [[d| | | | | | |]|]; try done.
    by destruct (bool_decide _). }
  revert Hl. generalize (level_click click s). clear s Hs. intros s Hs.
  assert (Hh : Warning no_questions ∉ script_header).
  { unfold script_header. intros H.
    repeat (apply elem_of_cons in H as [H|H]; [discriminate|]).
    by apply elem_of_nil in H. }
  rewrite bind_eq.
  pose proof (preserves_when in_bounds (bool_decide (click = Some BtnGenerate))
                (generate_handler json_loads pd_DataFrame topic response)
                (fun s0 page0 => generate_handler_in_bounds json_loads
                                   pd_DataFrame topic response s0 page0)
                s script_header Hs) as Hs1.
  destruct (never_draws_when _ (bool_decide (click = Some BtnGenerate)) _
              (generate_handler_quiet json_loads pd_DataFrame topic response)
              s script_header) as (rest1 & Hp1 & Hn1).
  destruct (when _ _ s script_header) as [[o1 s1] p1].
  unfold page_of, session_of in *. cbn [fst snd] in *. subst p1.
  assert (Hq1 : Warning no_questions ∉ (script_header ++ rest1)%list)
    by (by apply not_elem_of_app).
  destruct o1 as [[]|e|]; [|done..].
  rewrite bind_eq. unfold get_session at 1. rewrite bind_eq.
  assert (Hshow : exists rest2,
            snd (when (bool_decide (mcq_df s1 ≠ None)) (display_mcq click) s1
                   (script_header ++ rest1)%list)
            = ((script_header ++ rest1) ++ rest2)%list
            /\ Warning no_questions ∉ rest2).
  { destruct (mcq_df s1) as [df|] eqn:Hdf.
    - rewrite bool_decide_eq_true_2 by done. unfold when.
      destruct (Hs1 df Hdf) as [Hne _].
      apply (display_mcq_quiet click s1 _ df Hdf Hne).
    - rewrite bool_decide_eq_false_2 by (intros H; by apply H).
      exists []. rewrite app_nil_r. split; [done|]. apply not_elem_of_nil. }
  destruct Hshow as (rest2 & Hp2 & Hn2).
  destruct (when _ _ s1 _) as [[o2 s2] p2]. cbn [snd] in Hp2. subst p2.
  assert (Hq2 : Warning no_questions ∉ ((script_header ++ rest1) ++ rest2)%list)
    by (by apply not_elem_of_app).
  destruct o2 as [[]|e|]; [|done..].
  assert (Hend : never_draws (Warning no_questions)
                   (b ← button click BtnSubmit; when b submit_test)).
  { apply never_draws_bind; [apply never_draws_button; discriminate|].
    intros b. apply never_draws_when, submit_test_quiet. }
  destruct (Hend s2 ((script_header ++ rest1) ++ rest2)%list)
    as (rest3 & Hp3 & Hn3).
  unfold page_of in Hp3. rewrite Hp3. by apply not_elem_of_app.
Qed.

(** X27. The warning of the question page is never shown: from a session a
    user can reach, no interaction draws "No questions available", because
    the script shows the question page only when a bank is loaded and a
    loaded bank is never empty. *)
Theorem no_questions_warning_is_never_shown
    (json_loads : string -> result pyval)
    (pd_DataFrame : pyval -> result DataFrame) (topic : string)
    (click : option widget) (response : result string) (s : Session) :
  reachable json_loads pd_DataFrame s ->
  Warning no_questions
    ∉ page_of (interaction json_loads pd_DataFrame topic click response s).
Proof.
  intros Hs. destruct (reachable_answers _ _ _ Hs) as [Hb _].
  unfold interaction.
  pose proof (script_quiet json_loads pd_DataFrame topic click response s Hb)
    as Hq.
  pose proof (script_in_bounds json_loads pd_DataFrame topic click response
                s [] Hb) as Hb1.
  destruct (script _ _ _ click _ s []) as [[[[]|e|] s1] p1]; try done.
  by apply script_quiet.
Qed.

Lemma no_questions_warning_is_never_shown_witness :
  Warning no_questions
    ∉ page_of (interaction Json.loads Pandas.DataFrame_of "geography"
                 (Some BtnSubmit) (Raise ConnectionError) short_session).
Proof.
  apply (no_questions_warning_is_never_shown Json.loads Pandas.DataFrame_of
           "geography" (Some BtnSubmit) (Raise ConnectionError) short_session).
  unfold short_session, level_session.
  repeat apply reachable_interaction. apply reachable_initial.
Defined.

(** ** Options that repeat *)

Lemma draw_all_outcome ws : forall page,
  fst (draw_all ws page) = Done tt
  \/ fst (draw_all ws page) = Raised DuplicateWidgetID.
Proof.
  induction ws as [|w ws IH]; intros page; simpl; [by left|].
  destruct (on_page w page); [by right|]. apply IH.
Qed.

Lemma draw_all_repeated ws page :
  ~ NoDup ws -> fst (draw_all ws page) = Raised DuplicateWidgetID.
Proof.
  intros Hdup. destruct (draw_all_outcome ws page) as [H|H]; [|done].
  destruct (draw_all ws page) as [o p] eqn:E. cbn [fst] in H. subst o.
  by apply draw_all_Done in E as (_ & Hnd & _).
Qed.

Lemma option_buttons_outcome click index options s page :
  outcome_of (option_buttons click index options s page)
  = fst (draw_all (map (BtnOption index) options) page).
Proof.
  assert (Hidle : (forall o, click ≠ Some (BtnOption index o)) ->
            outcome_of (option_buttons click index options s page)
            = fst (draw_all (map (BtnOption index) options) page)).
  { intros H. by rewrite option_buttons_idle, option_buttons_None. }
  destruct click as [[d| |j o|j|j| | |]|]; try (by apply Hidle).
  destruct (decide (j = index)) as [->|Hj]; [|apply Hidle; congruence].
  by rewrite option_buttons_click.
Qed.

Lemma option_buttons_page click index options s page :
  page_of (option_buttons click index options s page)
  = snd (draw_all (map (BtnOption index) options) page).
Proof.
  assert (Hidle : (forall o, click ≠ Some (BtnOption index o)) ->
            page_of (option_buttons click index options s page)
            = snd (draw_all (map (BtnOption index) options) page)).
  { intros H. by rewrite option_buttons_idle, option_buttons_None. }
  destruct click as [[d| |j o|j|j| | |]|]; try (by apply Hidle).
  destruct (decide (j = index)) as [->|Hj]; [|apply Hidle; congruence].
  by rewrite option_buttons_click.
Qed.

(** X28. A question that offers the same option text twice cannot be shown:
    the two buttons get the same key, so the question page, whatever is
    clicked, ends with [DuplicateWidgetID] before Reset, Save and the
    navigation buttons are drawn. *)
Theorem repeated_option_cannot_be_shown (click : option widget) (s : Session)
    (page : list ui) (df : DataFrame) :
  mcq_df s = Some df -> Pandas.empty df = false ->
  ~ NoDup (offered df (current_index s)) ->
  let r := display_mcq click s page in
  outcome_of r = Raised DuplicateWidgetID
  /\ forall w, w ∈ [BtnReset (current_index s); BtnSave (current_index s);
                    BtnPrev; BtnNext] ->
       on_page w (page_of r) = on_page w page.
Proof.
  intros Hdf Hne Hdup. cbv zeta.
  rewrite (display_mcq_loaded _ _ _ _ Hdf Hne). unfold offered in Hdup.
  destruct (question_of df (current_index s)) as [[[q m] options]|e].
  2:{ destruct Hdup. constructor. }
  cbv zeta. destruct (valid_options options) as [opts|e].
  2:{ destruct Hdup. constructor. }
  unfold quiz_buttons. rewrite bind_eq.
  pose proof (option_buttons_outcome click (current_index s) opts s
                (page ++ question_view (current_index s) q m)) as Ho.
  rewrite draw_all_repeated in Ho.
  2:{ intros Hnd. apply Hdup. apply NoDup_fmap in Hnd; [done|].
      by intros o o' [= ->]. }
  pose proof (option_buttons_page click (current_index s) opts s
                (page ++ question_view (current_index s) q m)) as Hpage.
  destruct (option_buttons click _ _ _ _) as [[o1 s1] p1].
  unfold outcome_of, page_of in *. cbn [fst snd] in *. subst o1 p1.
  split; [done|]. intros w Hw. cbn [snd].
  rewrite draw_all_other, on_page_app, on_page_question_view.
  { apply orb_false_r. }
  intros (o & -> & _)%list_elem_of_fmap.
  repeat (apply elem_of_cons in Hw as [Hw|Hw]; [discriminate|]).
  by apply elem_of_nil in Hw.
Qed.

Lemma repeated_option_cannot_be_shown_witness :
  outcome_of (display_mcq (Some (BtnOption 0 "b")) twin_session script_header)
  = Raised DuplicateWidgetID.
Proof.
  apply (repeated_option_cannot_be_shown (Some (BtnOption 0 "b")) twin_session
           script_header twin_bank eq_refl eq_refl).
  intros H. apply NoDup_cons in H as [H _]. apply H.
  apply elem_of_cons. right. apply elem_of_cons. by left.
Defined.

(** ** Every saved answer is accounted for *)





(** ** The page without a bank *)

(** X30. Without a bank (before the first generation and after a test has
    been submitted) an interaction that is not a click on Generate draws the
    title, the topic field, the levels, Generate and Submit, and no
    question; a click on Submit adds only the warning that there are no
    MCQs; nothing but a level click changes the session. *)
Theorem page_without_a_bank
    (json_loads : string -> result pyval)
    (pd_DataFrame : pyval -> result DataFrame) (topic : string)
    (click : option widget) (response : result string) (s : Session) :
  mcq_df s = None -> click ≠ Some BtnGenerate ->
  interaction json_loads pd_DataFrame topic click response s
  = (Done tt, level_click click s,
     (script_header ++ Button BtnSubmit
        :: (if bool_decide (click = Some BtnSubmit)
            then [Warning no_mcqs] else []))%list).
Proof.
  intros Hdf Hclick. unfold interaction. rewrite script_idle by done.
  assert (Hl : mcq_df (level_click click s) = None).
  { unfold level_click. destruct click as [[d| | | | | | |]|]; try done.
    by destruct (bool_decide _). }
  revert Hl. generalize (level_click click s). intros s0 Hl.
  rewrite bind_eq. unfold get_session at 1.
  rewrite bool_decide_eq_false_2 by (rewrite Hl; intros H; by apply H).
  rewrite bind_eq. unfold when at 1. unfold mret, M_ret, ret at 1.
  rewrite bind_eq. unfold button.
  change (on_page BtnSubmit script_header) with false. cbv iota.
  destruct (bool_decide (click = Some BtnSubmit)); [|done].
  unfold when. rewrite submit_test_no_bank by (unfold no_bank; by rewrite Hl).
  by rewrite <- app_assoc.
Qed.

Lemma page_without_a_bank_witness :
  interaction Json.loads Pandas.DataFrame_of "geography" (Some BtnSubmit)
    (Raise ConnectionError) initial_session
  = (Done tt, initial_session,
     (script_header ++ [Button BtnSubmit; Warning no_mcqs])%list).
Proof.
  apply (page_without_a_bank Json.loads Pandas.DataFrame_of "geography"
           (Some BtnSubmit) (Raise ConnectionError) initial_session).
  - reflexivity.
  - discriminate.
Defined.
